(** * Claude bouncing-star screensaver: the effect and animation state machine

    A shallow embedding of [claude_screensaver.py] (class [ClaudeScreensaver],
    the dataclasses [StarState] and [EyeState], and the Flask handlers
    [manipulate_star] and [reset_star]).

    Conventions of the embedding.
    - Python floats are the real numbers [R] of the standard library
      (exact arithmetic: rounding, infinities and NaN are not modelled;
      [float('inf')] in the corner search is [None] of an option).
    - Python ints are the integers [Z]; [float(n)] is [IZR n], or the
      [OverflowError] of an int beyond the range of a double.
    - Every call of [time.time()] is an explicit argument of the function
      that makes it, and every call of [random.random()] is an explicit
      argument in [[0,1)].
    - The object [self] is passed and returned; [self.state.f = v] is
      [assign (set_f v) self].
    - A raised exception is the [Raised] outcome next to the object as the
      exception leaves it.
    - Rendering (pygame, cairosvg), logging and the lock are outside the
      embedding; [with self.lock] makes each method one atomic step. *)

From Stdlib Require Import Reals Lra String List.
From stdpp Require Import gmap strings.

#[local] Open Scope R_scope.
#[local] Open Scope string_scope.

(** ** Comparisons of floats as booleans *)

Definition Rltb (a b : R) : bool := if Rlt_dec a b then true else false.
Definition Rgtb (a b : R) : bool := if Rgt_dec a b then true else false.
Definition Rgeb (a b : R) : bool := if Rge_dec a b then true else false.
Definition Reqb (a b : R) : bool := if Req_dec_T a b then true else false.

(** ** Python values and built-ins *)

(** Values that [request.get_json()] can produce: [VInt] is a Python
    [int], of any size, and [VNum] a Python [float]. *)
#[warnings="-register-all"]
Inductive PyVal : Type :=
  | VNone
  | VBool (b : bool)
  | VInt (n : Z)
  | VNum (r : R)
  | VStr (s : string)
  | VList (l : list PyVal)
  | VDict (d : gmap string PyVal).

Inductive PyExn : Type :=
  | AttributeError
  | TypeError
  | ValueError
  | OverflowError.

Inductive Outcome : Type :=
  | Returned
  | Raised (e : PyExn).

(** Truth value of an object ([bool(v)], [not v], [v or d]). *)
Definition truthy (v : PyVal) : bool :=
  match v with
  | VNone => false
  | VBool b => b
  | VInt n => negb (Z.eqb n 0)
  | VNum r => negb (Reqb r 0)
  | VStr s => negb (String.eqb s EmptyString)
  | VList l => match l with [] => false | _ :: _ => true end
  | VDict d => negb (bool_decide (d = ∅))
  end.

(** [v or d] *)
Definition py_or (v d : PyVal) : PyVal := if truthy v then v else d.

(** [obj.get(k, d)]: only a dict has the method. *)
Definition py_get (obj : PyVal) (k : string) (d : PyVal) : PyExn + PyVal :=
  match obj with
  | VDict m => inr (default d (m !! k))
  | _ => inl AttributeError
  end.

(** [min(a, b)] and [max(a, b)]: the first argument unless the second
    is strictly better. *)
Definition py_min (a b : R) : R := if Rltb b a then b else a.
Definition py_max (a b : R) : R := if Rgtb b a then b else a.

(** [a % b] on floats, for a positive [b]. *)
Definition py_mod (a b : R) : R := a - b * IZR (Int_part (a / b)).

(** [math.radians] *)
Definition radians (d : R) : R := d * PI / 180.

(** ** Constants of the module *)

Definition STAR_BASE_SIZE : R := 240.
Definition DEFAULT_COLOR : string := "#c04015".
Definition SNARKY_COLOR : string := "#b8230e".
Definition EYE_GRAVITY : R := 0.008.
Definition EYE_FRICTION : R := 0.96.
Definition SPIN_THRESHOLD : R := 2.0.

(** ** The dataclasses *)

Record EyeState : Type := {
  angle : R;
  velocity : R
}.

(** [EyeState()] *)
Definition EyeState_new : EyeState := {| angle := PI / 2; velocity := 0.0 |}.

(** The values [effect_active] takes besides [None]. *)
Inductive Effect : Type :=
  | shrink
  | spin_out
  | drill
  | corner_trap.

(** The values [spin_out_phase] takes besides [None]. *)
Inductive SpinPhase : Type :=
  | ramp
  | decay.

Definition Effect_eqb (a b : Effect) : bool :=
  match a, b with
  | shrink, shrink | spin_out, spin_out | drill, drill | corner_trap, corner_trap => true
  | _, _ => false
  end.

(** [effect_active == tag] *)
Definition effect_is (tag : Effect) (e : option Effect) : bool :=
  match e with
  | Some a => Effect_eqb a tag
  | None => false
  end.

(** [spin_out_phase == tag] *)
Definition phase_is (tag : SpinPhase) (p : option SpinPhase) : bool :=
  match p, tag with
  | Some ramp, ramp | Some decay, decay => true
  | _, _ => false
  end.

Record StarState : Type := {
  x : R;
  y : R;
  vx : R;
  vy : R;
  current_scale : R;
  target_scale : R;
  rotation_angle : R;
  rotation_speed : R;
  color : string;
  opacity : R;
  heartbeat_pulse : R;
  wall_impact : R;
  eyes_enabled : bool;
  left_eye : EyeState;
  right_eye : EyeState;
  effect_active : option Effect;
  effect_start_time : R;
  spin_out_phase : option SpinPhase;
  spin_out_ramp_start : R;
  corner_trapped : bool;
  trap_corner_x : R;
  trap_corner_y : R;
  saved_vx : R;
  saved_vy : R;
  shrink_end_time : R;
  color_end_time : R;
  opacity_end_time : R;
  drill_end_time : R;
  drill_saved_vx : R;
  drill_saved_vy : R
}.

(** [StarState()] *)
Definition StarState_new : StarState :=
  {| x := 0; y := 0; vx := 0.5; vy := 0.5;
     current_scale := 1.0; target_scale := 1.0;
     rotation_angle := 0.0; rotation_speed := 0.5;
     color := DEFAULT_COLOR; opacity := 1.0;
     heartbeat_pulse := 0.0; wall_impact := 0.0;
     eyes_enabled := false; left_eye := EyeState_new; right_eye := EyeState_new;
     effect_active := None; effect_start_time := 0.0;
     spin_out_phase := None; spin_out_ramp_start := 0.0;
     corner_trapped := false; trap_corner_x := 0; trap_corner_y := 0;
     saved_vx := 0; saved_vy := 0;
     shrink_end_time := 0.0; color_end_time := 0.0; opacity_end_time := 0.0;
     drill_end_time := 0.0; drill_saved_vx := 0; drill_saved_vy := 0 |}.

(** *** Field assignment, one function per field of [StarState] *)

Definition set_x (v : R) (s : StarState) : StarState :=
  {| x := v; y := s.(y); vx := s.(vx); vy := s.(vy); current_scale := s.(current_scale);
     target_scale := s.(target_scale); rotation_angle := s.(rotation_angle);
     rotation_speed := s.(rotation_speed); color := s.(color); opacity := s.(opacity);
     heartbeat_pulse := s.(heartbeat_pulse); wall_impact := s.(wall_impact);
     eyes_enabled := s.(eyes_enabled); left_eye := s.(left_eye); right_eye := s.(right_eye);
     effect_active := s.(effect_active); effect_start_time := s.(effect_start_time);
     spin_out_phase := s.(spin_out_phase); spin_out_ramp_start := s.(spin_out_ramp_start);
     corner_trapped := s.(corner_trapped); trap_corner_x := s.(trap_corner_x);
     trap_corner_y := s.(trap_corner_y); saved_vx := s.(saved_vx); saved_vy := s.(saved_vy);
     shrink_end_time := s.(shrink_end_time); color_end_time := s.(color_end_time);
     opacity_end_time := s.(opacity_end_time); drill_end_time := s.(drill_end_time);
     drill_saved_vx := s.(drill_saved_vx); drill_saved_vy := s.(drill_saved_vy) |}.

Definition set_y (v : R) (s : StarState) : StarState :=
  {| x := s.(x); y := v; vx := s.(vx); vy := s.(vy); current_scale := s.(current_scale);
     target_scale := s.(target_scale); rotation_angle := s.(rotation_angle);
     rotation_speed := s.(rotation_speed); color := s.(color); opacity := s.(opacity);
     heartbeat_pulse := s.(heartbeat_pulse); wall_impact := s.(wall_impact);
     eyes_enabled := s.(eyes_enabled); left_eye := s.(left_eye); right_eye := s.(right_eye);
     effect_active := s.(effect_active); effect_start_time := s.(effect_start_time);
     spin_out_phase := s.(spin_out_phase); spin_out_ramp_start := s.(spin_out_ramp_start);
     corner_trapped := s.(corner_trapped); trap_corner_x := s.(trap_corner_x);
     trap_corner_y := s.(trap_corner_y); saved_vx := s.(saved_vx); saved_vy := s.(saved_vy);
     shrink_end_time := s.(shrink_end_time); color_end_time := s.(color_end_time);
     opacity_end_time := s.(opacity_end_time); drill_end_time := s.(drill_end_time);
     drill_saved_vx := s.(drill_saved_vx); drill_saved_vy := s.(drill_saved_vy) |}.

Definition set_vx (v : R) (s : StarState) : StarState :=
  {| x := s.(x); y := s.(y); vx := v; vy := s.(vy); current_scale := s.(current_scale);
     target_scale := s.(target_scale); rotation_angle := s.(rotation_angle);
     rotation_speed := s.(rotation_speed); color := s.(color); opacity := s.(opacity);
     heartbeat_pulse := s.(heartbeat_pulse); wall_impact := s.(wall_impact);
     eyes_enabled := s.(eyes_enabled); left_eye := s.(left_eye); right_eye := s.(right_eye);
     effect_active := s.(effect_active); effect_start_time := s.(effect_start_time);
     spin_out_phase := s.(spin_out_phase); spin_out_ramp_start := s.(spin_out_ramp_start);
     corner_trapped := s.(corner_trapped); trap_corner_x := s.(trap_corner_x);
     trap_corner_y := s.(trap_corner_y); saved_vx := s.(saved_vx); saved_vy := s.(saved_vy);
     shrink_end_time := s.(shrink_end_time); color_end_time := s.(color_end_time);
     opacity_end_time := s.(opacity_end_time); drill_end_time := s.(drill_end_time);
     drill_saved_vx := s.(drill_saved_vx); drill_saved_vy := s.(drill_saved_vy) |}.

Definition set_vy (v : R) (s : StarState) : StarState :=
  {| x := s.(x); y := s.(y); vx := s.(vx); vy := v; current_scale := s.(current_scale);
     target_scale := s.(target_scale); rotation_angle := s.(rotation_angle);
     rotation_speed := s.(rotation_speed); color := s.(color); opacity := s.(opacity);
     heartbeat_pulse := s.(heartbeat_pulse); wall_impact := s.(wall_impact);
     eyes_enabled := s.(eyes_enabled); left_eye := s.(left_eye); right_eye := s.(right_eye);
     effect_active := s.(effect_active); effect_start_time := s.(effect_start_time);
     spin_out_phase := s.(spin_out_phase); spin_out_ramp_start := s.(spin_out_ramp_start);
     corner_trapped := s.(corner_trapped); trap_corner_x := s.(trap_corner_x);
     trap_corner_y := s.(trap_corner_y); saved_vx := s.(saved_vx); saved_vy := s.(saved_vy);
     shrink_end_time := s.(shrink_end_time); color_end_time := s.(color_end_time);
     opacity_end_time := s.(opacity_end_time); drill_end_time := s.(drill_end_time);
     drill_saved_vx := s.(drill_saved_vx); drill_saved_vy := s.(drill_saved_vy) |}.

Definition set_current_scale (v : R) (s : StarState) : StarState :=
  {| x := s.(x); y := s.(y); vx := s.(vx); vy := s.(vy); current_scale := v;
     target_scale := s.(target_scale); rotation_angle := s.(rotation_angle);
     rotation_speed := s.(rotation_speed); color := s.(color); opacity := s.(opacity);
     heartbeat_pulse := s.(heartbeat_pulse); wall_impact := s.(wall_impact);
     eyes_enabled := s.(eyes_enabled); left_eye := s.(left_eye); right_eye := s.(right_eye);
     effect_active := s.(effect_active); effect_start_time := s.(effect_start_time);
     spin_out_phase := s.(spin_out_phase); spin_out_ramp_start := s.(spin_out_ramp_start);
     corner_trapped := s.(corner_trapped); trap_corner_x := s.(trap_corner_x);
     trap_corner_y := s.(trap_corner_y); saved_vx := s.(saved_vx); saved_vy := s.(saved_vy);
     shrink_end_time := s.(shrink_end_time); color_end_time := s.(color_end_time);
     opacity_end_time := s.(opacity_end_time); drill_end_time := s.(drill_end_time);
     drill_saved_vx := s.(drill_saved_vx); drill_saved_vy := s.(drill_saved_vy) |}.

Definition set_target_scale (v : R) (s : StarState) : StarState :=
  {| x := s.(x); y := s.(y); vx := s.(vx); vy := s.(vy); current_scale := s.(current_scale);
     target_scale := v; rotation_angle := s.(rotation_angle);
     rotation_speed := s.(rotation_speed); color := s.(color); opacity := s.(opacity);
     heartbeat_pulse := s.(heartbeat_pulse); wall_impact := s.(wall_impact);
     eyes_enabled := s.(eyes_enabled); left_eye := s.(left_eye); right_eye := s.(right_eye);
     effect_active := s.(effect_active); effect_start_time := s.(effect_start_time);
     spin_out_phase := s.(spin_out_phase); spin_out_ramp_start := s.(spin_out_ramp_start);
     corner_trapped := s.(corner_trapped); trap_corner_x := s.(trap_corner_x);
     trap_corner_y := s.(trap_corner_y); saved_vx := s.(saved_vx); saved_vy := s.(saved_vy);
     shrink_end_time := s.(shrink_end_time); color_end_time := s.(color_end_time);
     opacity_end_time := s.(opacity_end_time); drill_end_time := s.(drill_end_time);
     drill_saved_vx := s.(drill_saved_vx); drill_saved_vy := s.(drill_saved_vy) |}.

Definition set_rotation_angle (v : R) (s : StarState) : StarState :=
  {| x := s.(x); y := s.(y); vx := s.(vx); vy := s.(vy); current_scale := s.(current_scale);
     target_scale := s.(target_scale); rotation_angle := v;
     rotation_speed := s.(rotation_speed); color := s.(color); opacity := s.(opacity);
     heartbeat_pulse := s.(heartbeat_pulse); wall_impact := s.(wall_impact);
     eyes_enabled := s.(eyes_enabled); left_eye := s.(left_eye); right_eye := s.(right_eye);
     effect_active := s.(effect_active); effect_start_time := s.(effect_start_time);
     spin_out_phase := s.(spin_out_phase); spin_out_ramp_start := s.(spin_out_ramp_start);
     corner_trapped := s.(corner_trapped); trap_corner_x := s.(trap_corner_x);
     trap_corner_y := s.(trap_corner_y); saved_vx := s.(saved_vx); saved_vy := s.(saved_vy);
     shrink_end_time := s.(shrink_end_time); color_end_time := s.(color_end_time);
     opacity_end_time := s.(opacity_end_time); drill_end_time := s.(drill_end_time);
     drill_saved_vx := s.(drill_saved_vx); drill_saved_vy := s.(drill_saved_vy) |}.

Definition set_rotation_speed (v : R) (s : StarState) : StarState :=
  {| x := s.(x); y := s.(y); vx := s.(vx); vy := s.(vy); current_scale := s.(current_scale);
     target_scale := s.(target_scale); rotation_angle := s.(rotation_angle);
     rotation_speed := v; color := s.(color); opacity := s.(opacity);
     heartbeat_pulse := s.(heartbeat_pulse); wall_impact := s.(wall_impact);
     eyes_enabled := s.(eyes_enabled); left_eye := s.(left_eye); right_eye := s.(right_eye);
     effect_active := s.(effect_active); effect_start_time := s.(effect_start_time);
     spin_out_phase := s.(spin_out_phase); spin_out_ramp_start := s.(spin_out_ramp_start);
     corner_trapped := s.(corner_trapped); trap_corner_x := s.(trap_corner_x);
     trap_corner_y := s.(trap_corner_y); saved_vx := s.(saved_vx); saved_vy := s.(saved_vy);
     shrink_end_time := s.(shrink_end_time); color_end_time := s.(color_end_time);
     opacity_end_time := s.(opacity_end_time); drill_end_time := s.(drill_end_time);
     drill_saved_vx := s.(drill_saved_vx); drill_saved_vy := s.(drill_saved_vy) |}.

Definition set_color (v : string) (s : StarState) : StarState :=
  {| x := s.(x); y := s.(y); vx := s.(vx); vy := s.(vy); current_scale := s.(current_scale);
     target_scale := s.(target_scale); rotation_angle := s.(rotation_angle);
     rotation_speed := s.(rotation_speed); color := v; opacity := s.(opacity);
     heartbeat_pulse := s.(heartbeat_pulse); wall_impact := s.(wall_impact);
     eyes_enabled := s.(eyes_enabled); left_eye := s.(left_eye); right_eye := s.(right_eye);
     effect_active := s.(effect_active); effect_start_time := s.(effect_start_time);
     spin_out_phase := s.(spin_out_phase); spin_out_ramp_start := s.(spin_out_ramp_start);
     corner_trapped := s.(corner_trapped); trap_corner_x := s.(trap_corner_x);
     trap_corner_y := s.(trap_corner_y); saved_vx := s.(saved_vx); saved_vy := s.(saved_vy);
     shrink_end_time := s.(shrink_end_time); color_end_time := s.(color_end_time);
     opacity_end_time := s.(opacity_end_time); drill_end_time := s.(drill_end_time);
     drill_saved_vx := s.(drill_saved_vx); drill_saved_vy := s.(drill_saved_vy) |}.

Definition set_opacity (v : R) (s : StarState) : StarState :=
  {| x := s.(x); y := s.(y); vx := s.(vx); vy := s.(vy); current_scale := s.(current_scale);
     target_scale := s.(target_scale); rotation_angle := s.(rotation_angle);
     rotation_speed := s.(rotation_speed); color := s.(color); opacity := v;
     heartbeat_pulse := s.(heartbeat_pulse); wall_impact := s.(wall_impact);
     eyes_enabled := s.(eyes_enabled); left_eye := s.(left_eye); right_eye := s.(right_eye);
     effect_active := s.(effect_active); effect_start_time := s.(effect_start_time);
     spin_out_phase := s.(spin_out_phase); spin_out_ramp_start := s.(spin_out_ramp_start);
     corner_trapped := s.(corner_trapped); trap_corner_x := s.(trap_corner_x);
     trap_corner_y := s.(trap_corner_y); saved_vx := s.(saved_vx); saved_vy := s.(saved_vy);
     shrink_end_time := s.(shrink_end_time); color_end_time := s.(color_end_time);
     opacity_end_time := s.(opacity_end_time); drill_end_time := s.(drill_end_time);
     drill_saved_vx := s.(drill_saved_vx); drill_saved_vy := s.(drill_saved_vy) |}.

Definition set_heartbeat_pulse (v : R) (s : StarState) : StarState :=
  {| x := s.(x); y := s.(y); vx := s.(vx); vy := s.(vy); current_scale := s.(current_scale);
     target_scale := s.(target_scale); rotation_angle := s.(rotation_angle);
     rotation_speed := s.(rotation_speed); color := s.(color); opacity := s.(opacity);
     heartbeat_pulse := v; wall_impact := s.(wall_impact); eyes_enabled := s.(eyes_enabled);
     left_eye := s.(left_eye); right_eye := s.(right_eye); effect_active := s.(effect_active);
     effect_start_time := s.(effect_start_time); spin_out_phase := s.(spin_out_phase);
     spin_out_ramp_start := s.(spin_out_ramp_start); corner_trapped := s.(corner_trapped);
     trap_corner_x := s.(trap_corner_x); trap_corner_y := s.(trap_corner_y);
     saved_vx := s.(saved_vx); saved_vy := s.(saved_vy);
     shrink_end_time := s.(shrink_end_time); color_end_time := s.(color_end_time);
     opacity_end_time := s.(opacity_end_time); drill_end_time := s.(drill_end_time);
     drill_saved_vx := s.(drill_saved_vx); drill_saved_vy := s.(drill_saved_vy) |}.

Definition set_wall_impact (v : R) (s : StarState) : StarState :=
  {| x := s.(x); y := s.(y); vx := s.(vx); vy := s.(vy); current_scale := s.(current_scale);
     target_scale := s.(target_scale); rotation_angle := s.(rotation_angle);
     rotation_speed := s.(rotation_speed); color := s.(color); opacity := s.(opacity);
     heartbeat_pulse := s.(heartbeat_pulse); wall_impact := v;
     eyes_enabled := s.(eyes_enabled); left_eye := s.(left_eye); right_eye := s.(right_eye);
     effect_active := s.(effect_active); effect_start_time := s.(effect_start_time);
     spin_out_phase := s.(spin_out_phase); spin_out_ramp_start := s.(spin_out_ramp_start);
     corner_trapped := s.(corner_trapped); trap_corner_x := s.(trap_corner_x);
     trap_corner_y := s.(trap_corner_y); saved_vx := s.(saved_vx); saved_vy := s.(saved_vy);
     shrink_end_time := s.(shrink_end_time); color_end_time := s.(color_end_time);
     opacity_end_time := s.(opacity_end_time); drill_end_time := s.(drill_end_time);
     drill_saved_vx := s.(drill_saved_vx); drill_saved_vy := s.(drill_saved_vy) |}.

Definition set_eyes_enabled (v : bool) (s : StarState) : StarState :=
  {| x := s.(x); y := s.(y); vx := s.(vx); vy := s.(vy); current_scale := s.(current_scale);
     target_scale := s.(target_scale); rotation_angle := s.(rotation_angle);
     rotation_speed := s.(rotation_speed); color := s.(color); opacity := s.(opacity);
     heartbeat_pulse := s.(heartbeat_pulse); wall_impact := s.(wall_impact); eyes_enabled := v;
     left_eye := s.(left_eye); right_eye := s.(right_eye); effect_active := s.(effect_active);
     effect_start_time := s.(effect_start_time); spin_out_phase := s.(spin_out_phase);
     spin_out_ramp_start := s.(spin_out_ramp_start); corner_trapped := s.(corner_trapped);
     trap_corner_x := s.(trap_corner_x); trap_corner_y := s.(trap_corner_y);
     saved_vx := s.(saved_vx); saved_vy := s.(saved_vy);
     shrink_end_time := s.(shrink_end_time); color_end_time := s.(color_end_time);
     opacity_end_time := s.(opacity_end_time); drill_end_time := s.(drill_end_time);
     drill_saved_vx := s.(drill_saved_vx); drill_saved_vy := s.(drill_saved_vy) |}.

Definition set_left_eye (v : EyeState) (s : StarState) : StarState :=
  {| x := s.(x); y := s.(y); vx := s.(vx); vy := s.(vy); current_scale := s.(current_scale);
     target_scale := s.(target_scale); rotation_angle := s.(rotation_angle);
     rotation_speed := s.(rotation_speed); color := s.(color); opacity := s.(opacity);
     heartbeat_pulse := s.(heartbeat_pulse); wall_impact := s.(wall_impact);
     eyes_enabled := s.(eyes_enabled); left_eye := v; right_eye := s.(right_eye);
     effect_active := s.(effect_active); effect_start_time := s.(effect_start_time);
     spin_out_phase := s.(spin_out_phase); spin_out_ramp_start := s.(spin_out_ramp_start);
     corner_trapped := s.(corner_trapped); trap_corner_x := s.(trap_corner_x);
     trap_corner_y := s.(trap_corner_y); saved_vx := s.(saved_vx); saved_vy := s.(saved_vy);
     shrink_end_time := s.(shrink_end_time); color_end_time := s.(color_end_time);
     opacity_end_time := s.(opacity_end_time); drill_end_time := s.(drill_end_time);
     drill_saved_vx := s.(drill_saved_vx); drill_saved_vy := s.(drill_saved_vy) |}.

Definition set_right_eye (v : EyeState) (s : StarState) : StarState :=
  {| x := s.(x); y := s.(y); vx := s.(vx); vy := s.(vy); current_scale := s.(current_scale);
     target_scale := s.(target_scale); rotation_angle := s.(rotation_angle);
     rotation_speed := s.(rotation_speed); color := s.(color); opacity := s.(opacity);
     heartbeat_pulse := s.(heartbeat_pulse); wall_impact := s.(wall_impact);
     eyes_enabled := s.(eyes_enabled); left_eye := s.(left_eye); right_eye := v;
     effect_active := s.(effect_active); effect_start_time := s.(effect_start_time);
     spin_out_phase := s.(spin_out_phase); spin_out_ramp_start := s.(spin_out_ramp_start);
     corner_trapped := s.(corner_trapped); trap_corner_x := s.(trap_corner_x);
     trap_corner_y := s.(trap_corner_y); saved_vx := s.(saved_vx); saved_vy := s.(saved_vy);
     shrink_end_time := s.(shrink_end_time); color_end_time := s.(color_end_time);
     opacity_end_time := s.(opacity_end_time); drill_end_time := s.(drill_end_time);
     drill_saved_vx := s.(drill_saved_vx); drill_saved_vy := s.(drill_saved_vy) |}.

Definition set_effect_active (v : option Effect) (s : StarState) : StarState :=
  {| x := s.(x); y := s.(y); vx := s.(vx); vy := s.(vy); current_scale := s.(current_scale);
     target_scale := s.(target_scale); rotation_angle := s.(rotation_angle);
     rotation_speed := s.(rotation_speed); color := s.(color); opacity := s.(opacity);
     heartbeat_pulse := s.(heartbeat_pulse); wall_impact := s.(wall_impact);
     eyes_enabled := s.(eyes_enabled); left_eye := s.(left_eye); right_eye := s.(right_eye);
     effect_active := v; effect_start_time := s.(effect_start_time);
     spin_out_phase := s.(spin_out_phase); spin_out_ramp_start := s.(spin_out_ramp_start);
     corner_trapped := s.(corner_trapped); trap_corner_x := s.(trap_corner_x);
     trap_corner_y := s.(trap_corner_y); saved_vx := s.(saved_vx); saved_vy := s.(saved_vy);
     shrink_end_time := s.(shrink_end_time); color_end_time := s.(color_end_time);
     opacity_end_time := s.(opacity_end_time); drill_end_time := s.(drill_end_time);
     drill_saved_vx := s.(drill_saved_vx); drill_saved_vy := s.(drill_saved_vy) |}.

Definition set_effect_start_time (v : R) (s : StarState) : StarState :=
  {| x := s.(x); y := s.(y); vx := s.(vx); vy := s.(vy); current_scale := s.(current_scale);
     target_scale := s.(target_scale); rotation_angle := s.(rotation_angle);
     rotation_speed := s.(rotation_speed); color := s.(color); opacity := s.(opacity);
     heartbeat_pulse := s.(heartbeat_pulse); wall_impact := s.(wall_impact);
     eyes_enabled := s.(eyes_enabled); left_eye := s.(left_eye); right_eye := s.(right_eye);
     effect_active := s.(effect_active); effect_start_time := v;
     spin_out_phase := s.(spin_out_phase); spin_out_ramp_start := s.(spin_out_ramp_start);
     corner_trapped := s.(corner_trapped); trap_corner_x := s.(trap_corner_x);
     trap_corner_y := s.(trap_corner_y); saved_vx := s.(saved_vx); saved_vy := s.(saved_vy);
     shrink_end_time := s.(shrink_end_time); color_end_time := s.(color_end_time);
     opacity_end_time := s.(opacity_end_time); drill_end_time := s.(drill_end_time);
     drill_saved_vx := s.(drill_saved_vx); drill_saved_vy := s.(drill_saved_vy) |}.

Definition set_spin_out_phase (v : option SpinPhase) (s : StarState) : StarState :=
  {| x := s.(x); y := s.(y); vx := s.(vx); vy := s.(vy); current_scale := s.(current_scale);
     target_scale := s.(target_scale); rotation_angle := s.(rotation_angle);
     rotation_speed := s.(rotation_speed); color := s.(color); opacity := s.(opacity);
     heartbeat_pulse := s.(heartbeat_pulse); wall_impact := s.(wall_impact);
     eyes_enabled := s.(eyes_enabled); left_eye := s.(left_eye); right_eye := s.(right_eye);
     effect_active := s.(effect_active); effect_start_time := s.(effect_start_time);
     spin_out_phase := v; spin_out_ramp_start := s.(spin_out_ramp_start);
     corner_trapped := s.(corner_trapped); trap_corner_x := s.(trap_corner_x);
     trap_corner_y := s.(trap_corner_y); saved_vx := s.(saved_vx); saved_vy := s.(saved_vy);
     shrink_end_time := s.(shrink_end_time); color_end_time := s.(color_end_time);
     opacity_end_time := s.(opacity_end_time); drill_end_time := s.(drill_end_time);
     drill_saved_vx := s.(drill_saved_vx); drill_saved_vy := s.(drill_saved_vy) |}.

Definition set_spin_out_ramp_start (v : R) (s : StarState) : StarState :=
  {| x := s.(x); y := s.(y); vx := s.(vx); vy := s.(vy); current_scale := s.(current_scale);
     target_scale := s.(target_scale); rotation_angle := s.(rotation_angle);
     rotation_speed := s.(rotation_speed); color := s.(color); opacity := s.(opacity);
     heartbeat_pulse := s.(heartbeat_pulse); wall_impact := s.(wall_impact);
     eyes_enabled := s.(eyes_enabled); left_eye := s.(left_eye); right_eye := s.(right_eye);
     effect_active := s.(effect_active); effect_start_time := s.(effect_start_time);
     spin_out_phase := s.(spin_out_phase); spin_out_ramp_start := v;
     corner_trapped := s.(corner_trapped); trap_corner_x := s.(trap_corner_x);
     trap_corner_y := s.(trap_corner_y); saved_vx := s.(saved_vx); saved_vy := s.(saved_vy);
     shrink_end_time := s.(shrink_end_time); color_end_time := s.(color_end_time);
     opacity_end_time := s.(opacity_end_time); drill_end_time := s.(drill_end_time);
     drill_saved_vx := s.(drill_saved_vx); drill_saved_vy := s.(drill_saved_vy) |}.

Definition set_corner_trapped (v : bool) (s : StarState) : StarState :=
  {| x := s.(x); y := s.(y); vx := s.(vx); vy := s.(vy); current_scale := s.(current_scale);
     target_scale := s.(target_scale); rotation_angle := s.(rotation_angle);
     rotation_speed := s.(rotation_speed); color := s.(color); opacity := s.(opacity);
     heartbeat_pulse := s.(heartbeat_pulse); wall_impact := s.(wall_impact);
     eyes_enabled := s.(eyes_enabled); left_eye := s.(left_eye); right_eye := s.(right_eye);
     effect_active := s.(effect_active); effect_start_time := s.(effect_start_time);
     spin_out_phase := s.(spin_out_phase); spin_out_ramp_start := s.(spin_out_ramp_start);
     corner_trapped := v; trap_corner_x := s.(trap_corner_x);
     trap_corner_y := s.(trap_corner_y); saved_vx := s.(saved_vx); saved_vy := s.(saved_vy);
     shrink_end_time := s.(shrink_end_time); color_end_time := s.(color_end_time);
     opacity_end_time := s.(opacity_end_time); drill_end_time := s.(drill_end_time);
     drill_saved_vx := s.(drill_saved_vx); drill_saved_vy := s.(drill_saved_vy) |}.

Definition set_trap_corner_x (v : R) (s : StarState) : StarState :=
  {| x := s.(x); y := s.(y); vx := s.(vx); vy := s.(vy); current_scale := s.(current_scale);
     target_scale := s.(target_scale); rotation_angle := s.(rotation_angle);
     rotation_speed := s.(rotation_speed); color := s.(color); opacity := s.(opacity);
     heartbeat_pulse := s.(heartbeat_pulse); wall_impact := s.(wall_impact);
     eyes_enabled := s.(eyes_enabled); left_eye := s.(left_eye); right_eye := s.(right_eye);
     effect_active := s.(effect_active); effect_start_time := s.(effect_start_time);
     spin_out_phase := s.(spin_out_phase); spin_out_ramp_start := s.(spin_out_ramp_start);
     corner_trapped := s.(corner_trapped); trap_corner_x := v;
     trap_corner_y := s.(trap_corner_y); saved_vx := s.(saved_vx); saved_vy := s.(saved_vy);
     shrink_end_time := s.(shrink_end_time); color_end_time := s.(color_end_time);
     opacity_end_time := s.(opacity_end_time); drill_end_time := s.(drill_end_time);
     drill_saved_vx := s.(drill_saved_vx); drill_saved_vy := s.(drill_saved_vy) |}.

Definition set_trap_corner_y (v : R) (s : StarState) : StarState :=
  {| x := s.(x); y := s.(y); vx := s.(vx); vy := s.(vy); current_scale := s.(current_scale);
     target_scale := s.(target_scale); rotation_angle := s.(rotation_angle);
     rotation_speed := s.(rotation_speed); color := s.(color); opacity := s.(opacity);
     heartbeat_pulse := s.(heartbeat_pulse); wall_impact := s.(wall_impact);
     eyes_enabled := s.(eyes_enabled); left_eye := s.(left_eye); right_eye := s.(right_eye);
     effect_active := s.(effect_active); effect_start_time := s.(effect_start_time);
     spin_out_phase := s.(spin_out_phase); spin_out_ramp_start := s.(spin_out_ramp_start);
     corner_trapped := s.(corner_trapped); trap_corner_x := s.(trap_corner_x);
     trap_corner_y := v; saved_vx := s.(saved_vx); saved_vy := s.(saved_vy);
     shrink_end_time := s.(shrink_end_time); color_end_time := s.(color_end_time);
     opacity_end_time := s.(opacity_end_time); drill_end_time := s.(drill_end_time);
     drill_saved_vx := s.(drill_saved_vx); drill_saved_vy := s.(drill_saved_vy) |}.

Definition set_saved_vx (v : R) (s : StarState) : StarState :=
  {| x := s.(x); y := s.(y); vx := s.(vx); vy := s.(vy); current_scale := s.(current_scale);
     target_scale := s.(target_scale); rotation_angle := s.(rotation_angle);
     rotation_speed := s.(rotation_speed); color := s.(color); opacity := s.(opacity);
     heartbeat_pulse := s.(heartbeat_pulse); wall_impact := s.(wall_impact);
     eyes_enabled := s.(eyes_enabled); left_eye := s.(left_eye); right_eye := s.(right_eye);
     effect_active := s.(effect_active); effect_start_time := s.(effect_start_time);
     spin_out_phase := s.(spin_out_phase); spin_out_ramp_start := s.(spin_out_ramp_start);
     corner_trapped := s.(corner_trapped); trap_corner_x := s.(trap_corner_x);
     trap_corner_y := s.(trap_corner_y); saved_vx := v; saved_vy := s.(saved_vy);
     shrink_end_time := s.(shrink_end_time); color_end_time := s.(color_end_time);
     opacity_end_time := s.(opacity_end_time); drill_end_time := s.(drill_end_time);
     drill_saved_vx := s.(drill_saved_vx); drill_saved_vy := s.(drill_saved_vy) |}.

Definition set_saved_vy (v : R) (s : StarState) : StarState :=
  {| x := s.(x); y := s.(y); vx := s.(vx); vy := s.(vy); current_scale := s.(current_scale);
     target_scale := s.(target_scale); rotation_angle := s.(rotation_angle);
     rotation_speed := s.(rotation_speed); color := s.(color); opacity := s.(opacity);
     heartbeat_pulse := s.(heartbeat_pulse); wall_impact := s.(wall_impact);
     eyes_enabled := s.(eyes_enabled); left_eye := s.(left_eye); right_eye := s.(right_eye);
     effect_active := s.(effect_active); effect_start_time := s.(effect_start_time);
     spin_out_phase := s.(spin_out_phase); spin_out_ramp_start := s.(spin_out_ramp_start);
     corner_trapped := s.(corner_trapped); trap_corner_x := s.(trap_corner_x);
     trap_corner_y := s.(trap_corner_y); saved_vx := s.(saved_vx); saved_vy := v;
     shrink_end_time := s.(shrink_end_time); color_end_time := s.(color_end_time);
     opacity_end_time := s.(opacity_end_time); drill_end_time := s.(drill_end_time);
     drill_saved_vx := s.(drill_saved_vx); drill_saved_vy := s.(drill_saved_vy) |}.

Definition set_shrink_end_time (v : R) (s : StarState) : StarState :=
  {| x := s.(x); y := s.(y); vx := s.(vx); vy := s.(vy); current_scale := s.(current_scale);
     target_scale := s.(target_scale); rotation_angle := s.(rotation_angle);
     rotation_speed := s.(rotation_speed); color := s.(color); opacity := s.(opacity);
     heartbeat_pulse := s.(heartbeat_pulse); wall_impact := s.(wall_impact);
     eyes_enabled := s.(eyes_enabled); left_eye := s.(left_eye); right_eye := s.(right_eye);
     effect_active := s.(effect_active); effect_start_time := s.(effect_start_time);
     spin_out_phase := s.(spin_out_phase); spin_out_ramp_start := s.(spin_out_ramp_start);
     corner_trapped := s.(corner_trapped); trap_corner_x := s.(trap_corner_x);
     trap_corner_y := s.(trap_corner_y); saved_vx := s.(saved_vx); saved_vy := s.(saved_vy);
     shrink_end_time := v; color_end_time := s.(color_end_time);
     opacity_end_time := s.(opacity_end_time); drill_end_time := s.(drill_end_time);
     drill_saved_vx := s.(drill_saved_vx); drill_saved_vy := s.(drill_saved_vy) |}.

Definition set_color_end_time (v : R) (s : StarState) : StarState :=
  {| x := s.(x); y := s.(y); vx := s.(vx); vy := s.(vy); current_scale := s.(current_scale);
     target_scale := s.(target_scale); rotation_angle := s.(rotation_angle);
     rotation_speed := s.(rotation_speed); color := s.(color); opacity := s.(opacity);
     heartbeat_pulse := s.(heartbeat_pulse); wall_impact := s.(wall_impact);
     eyes_enabled := s.(eyes_enabled); left_eye := s.(left_eye); right_eye := s.(right_eye);
     effect_active := s.(effect_active); effect_start_time := s.(effect_start_time);
     spin_out_phase := s.(spin_out_phase); spin_out_ramp_start := s.(spin_out_ramp_start);
     corner_trapped := s.(corner_trapped); trap_corner_x := s.(trap_corner_x);
     trap_corner_y := s.(trap_corner_y); saved_vx := s.(saved_vx); saved_vy := s.(saved_vy);
     shrink_end_time := s.(shrink_end_time); color_end_time := v;
     opacity_end_time := s.(opacity_end_time); drill_end_time := s.(drill_end_time);
     drill_saved_vx := s.(drill_saved_vx); drill_saved_vy := s.(drill_saved_vy) |}.

Definition set_opacity_end_time (v : R) (s : StarState) : StarState :=
  {| x := s.(x); y := s.(y); vx := s.(vx); vy := s.(vy); current_scale := s.(current_scale);
     target_scale := s.(target_scale); rotation_angle := s.(rotation_angle);
     rotation_speed := s.(rotation_speed); color := s.(color); opacity := s.(opacity);
     heartbeat_pulse := s.(heartbeat_pulse); wall_impact := s.(wall_impact);
     eyes_enabled := s.(eyes_enabled); left_eye := s.(left_eye); right_eye := s.(right_eye);
     effect_active := s.(effect_active); effect_start_time := s.(effect_start_time);
     spin_out_phase := s.(spin_out_phase); spin_out_ramp_start := s.(spin_out_ramp_start);
     corner_trapped := s.(corner_trapped); trap_corner_x := s.(trap_corner_x);
     trap_corner_y := s.(trap_corner_y); saved_vx := s.(saved_vx); saved_vy := s.(saved_vy);
     shrink_end_time := s.(shrink_end_time); color_end_time := s.(color_end_time);
     opacity_end_time := v; drill_end_time := s.(drill_end_time);
     drill_saved_vx := s.(drill_saved_vx); drill_saved_vy := s.(drill_saved_vy) |}.

Definition set_drill_end_time (v : R) (s : StarState) : StarState :=
  {| x := s.(x); y := s.(y); vx := s.(vx); vy := s.(vy); current_scale := s.(current_scale);
     target_scale := s.(target_scale); rotation_angle := s.(rotation_angle);
     rotation_speed := s.(rotation_speed); color := s.(color); opacity := s.(opacity);
     heartbeat_pulse := s.(heartbeat_pulse); wall_impact := s.(wall_impact);
     eyes_enabled := s.(eyes_enabled); left_eye := s.(left_eye); right_eye := s.(right_eye);
     effect_active := s.(effect_active); effect_start_time := s.(effect_start_time);
     spin_out_phase := s.(spin_out_phase); spin_out_ramp_start := s.(spin_out_ramp_start);
     corner_trapped := s.(corner_trapped); trap_corner_x := s.(trap_corner_x);
     trap_corner_y := s.(trap_corner_y); saved_vx := s.(saved_vx); saved_vy := s.(saved_vy);
     shrink_end_time := s.(shrink_end_time); color_end_time := s.(color_end_time);
     opacity_end_time := s.(opacity_end_time); drill_end_time := v;
     drill_saved_vx := s.(drill_saved_vx); drill_saved_vy := s.(drill_saved_vy) |}.

Definition set_drill_saved_vx (v : R) (s : StarState) : StarState :=
  {| x := s.(x); y := s.(y); vx := s.(vx); vy := s.(vy); current_scale := s.(current_scale);
     target_scale := s.(target_scale); rotation_angle := s.(rotation_angle);
     rotation_speed := s.(rotation_speed); color := s.(color); opacity := s.(opacity);
     heartbeat_pulse := s.(heartbeat_pulse); wall_impact := s.(wall_impact);
     eyes_enabled := s.(eyes_enabled); left_eye := s.(left_eye); right_eye := s.(right_eye);
     effect_active := s.(effect_active); effect_start_time := s.(effect_start_time);
     spin_out_phase := s.(spin_out_phase); spin_out_ramp_start := s.(spin_out_ramp_start);
     corner_trapped := s.(corner_trapped); trap_corner_x := s.(trap_corner_x);
     trap_corner_y := s.(trap_corner_y); saved_vx := s.(saved_vx); saved_vy := s.(saved_vy);
     shrink_end_time := s.(shrink_end_time); color_end_time := s.(color_end_time);
     opacity_end_time := s.(opacity_end_time); drill_end_time := s.(drill_end_time);
     drill_saved_vx := v; drill_saved_vy := s.(drill_saved_vy) |}.

Definition set_drill_saved_vy (v : R) (s : StarState) : StarState :=
  {| x := s.(x); y := s.(y); vx := s.(vx); vy := s.(vy); current_scale := s.(current_scale);
     target_scale := s.(target_scale); rotation_angle := s.(rotation_angle);
     rotation_speed := s.(rotation_speed); color := s.(color); opacity := s.(opacity);
     heartbeat_pulse := s.(heartbeat_pulse); wall_impact := s.(wall_impact);
     eyes_enabled := s.(eyes_enabled); left_eye := s.(left_eye); right_eye := s.(right_eye);
     effect_active := s.(effect_active); effect_start_time := s.(effect_start_time);
     spin_out_phase := s.(spin_out_phase); spin_out_ramp_start := s.(spin_out_ramp_start);
     corner_trapped := s.(corner_trapped); trap_corner_x := s.(trap_corner_x);
     trap_corner_y := s.(trap_corner_y); saved_vx := s.(saved_vx); saved_vy := s.(saved_vy);
     shrink_end_time := s.(shrink_end_time); color_end_time := s.(color_end_time);
     opacity_end_time := s.(opacity_end_time); drill_end_time := s.(drill_end_time);
     drill_saved_vx := s.(drill_saved_vx); drill_saved_vy := v |}.

(** ** The class [ClaudeScreensaver] *)

(** The attributes the state machine reads: the display size fixed by
    [initialize] and the [StarState]. *)
Record ClaudeScreensaver : Type := {
  display_width : R;
  display_height : R;
  state : StarState
}.

(** [self.default_rotation_speed], assigned once in [__init__]. *)
Definition default_rotation_speed : R := 0.5.

(** [self.state.f = v] for the setter [set_f v]. *)
Definition assign (f : StarState -> StarState) (self : ClaudeScreensaver) : ClaudeScreensaver :=
  {| display_width := self.(display_width);
     display_height := self.(display_height);
     state := f self.(state) |}.

(** [__init__] followed by [initialize] on a display of the given size:
    the star starts at the centre. *)
Definition initialize (width height : R) : ClaudeScreensaver :=
  let self := {| display_width := width; display_height := height; state := StarState_new |} in
  let self := assign (set_x (self.(display_width) / 2)) self in
  let self := assign (set_y (self.(display_height) / 2)) self in
  self.

(** *** Cancelling effects *)

Definition _cancel_spin_out (self : ClaudeScreensaver) : ClaudeScreensaver :=
  match self.(state).(spin_out_phase) with
  | Some _ =>
      let self := assign (set_spin_out_phase None) self in
      let self := assign (set_rotation_speed default_rotation_speed) self in
      self
  | None => self
  end.

(** [now] is the value of [time.time()] read inside the method. *)
Definition _cancel_drill (self : ClaudeScreensaver) (now : R) : ClaudeScreensaver :=
  if Rgtb self.(state).(drill_end_time) now then
    let self := assign (set_drill_end_time 0) self in
    let self := assign (set_vx self.(state).(drill_saved_vx)) self in
    let self := assign (set_vy self.(state).(drill_saved_vy)) self in
    let self := assign (set_rotation_speed default_rotation_speed) self in
    self
  else self.

(** *** [_reset_state] *)

Definition _reset_state (self : ClaudeScreensaver) : ClaudeScreensaver :=
  let self := assign (set_target_scale 1.0) self in
  let self := assign (set_current_scale 1.0) self in
  let self := assign (set_rotation_speed default_rotation_speed) self in
  let self := assign (set_color DEFAULT_COLOR) self in
  let self := assign (set_opacity 1.0) self in
  let self := assign (set_effect_active None) self in
  let self := assign (set_corner_trapped false) self in
  let self := assign (set_spin_out_phase None) self in
  let self := assign (set_shrink_end_time 0) self in
  let self := assign (set_color_end_time 0) self in
  let self := assign (set_opacity_end_time 0) self in
  let self := assign (set_drill_end_time 0) self in
  let self := assign (set_vx 0.5) self in
  let self := assign (set_vy 0.5) self in
  let self := assign (set_eyes_enabled false) self in
  let self := assign (set_left_eye EyeState_new) self in
  let self := assign (set_right_eye EyeState_new) self in
  self.

(** *** The corner search of [corner_trap] *)

(** [dist < min_dist] where [None] is [float('inf')]. *)
Definition lt_min_dist (dist : R) (min_dist : option R) : bool :=
  match min_dist with
  | None => true
  | Some m => Rltb dist m
  end.

(** The four corners, 50 px inside the display, in the order of the list
    literal. *)
Definition corners (self : ClaudeScreensaver) : list (R * R) :=
  [ (50, 50);
    (self.(display_width) - 50, 50);
    (50, self.(display_height) - 50);
    (self.(display_width) - 50, self.(display_height) - 50) ].

(** Euclidean distance from the star to a corner. *)
Definition corner_dist (self : ClaudeScreensaver) (c : R * R) : R :=
  sqrt ((self.(state).(x) - fst c) ^ 2 + (self.(state).(y) - snd c) ^ 2).

(** One pass of the [for cx, cy in corners] loop body over the pair
    [(min_dist, nearest)]. *)
Definition nearest_step (self : ClaudeScreensaver) (acc : option R * (R * R)) (c : R * R)
  : option R * (R * R) :=
  let dist := corner_dist self c in
  if lt_min_dist dist (fst acc) then (Some dist, c) else acc.

(** The loop from [min_dist = inf], [nearest = corners[0]]. *)
Definition nearest_corner (self : ClaudeScreensaver) : R * R :=
  snd (fold_left (nearest_step self) (corners self) (None, hd (0, 0) (corners self))).

(** *** Reading the parameters *)

(** [float(n)] of an [int] raises [OverflowError] ("int too large to
    convert to float") when [n], rounded to the nearest double with ties to
    even, has a magnitude of [2^1024] or more: from [2^1024 - 2^970] on. *)
Definition int_too_large (n : Z) : bool := (2 ^ 1024 - 2 ^ 970 <=? Z.abs n)%Z.

(** [f"#{color}"] for a [str]. *)
Definition hash_prefixed (c : string) : string := "#" ++ c.

Section Manipulate.

(** [float(s)] for a [str], [None] where it raises [ValueError]. *)
Variable str_to_float : string -> option R.

(** [float(v)]: a [float] is returned as it is, an [int] is converted
    unless it is too large, a [str] is parsed. *)
Definition py_float (v : PyVal) : PyExn + R :=
  match v with
  | VNum r => inr r
  | VInt n => if int_too_large n then inl OverflowError else inr (IZR n)
  | VBool b => inr (if b then 1 else 0)
  | VStr s => match str_to_float s with Some r => inr r | None => inl ValueError end
  | VNone | VList _ | VDict _ => inl TypeError
  end.

(** *** [manipulate]

    [current_time] is [time.time()] at the top of the method, [t_cancel]
    the later reading inside [_cancel_drill]. *)
Definition manipulate (self : ClaudeScreensaver) (action : string) (parameters : PyVal)
    (current_time t_cancel : R) : ClaudeScreensaver * Outcome :=
  let parameters := py_or parameters (VDict ∅) in
  if String.eqb action "shrink" then
    let self := assign (set_target_scale 0.2) self in
    let self := assign (set_shrink_end_time (current_time + 15.0)) self in
    let self := assign (set_effect_active (Some shrink)) self in
    (self, Returned)
  else if String.eqb action "spin_out" then
    let self := _cancel_drill self t_cancel in
    let self := _cancel_spin_out self in
    let self := assign (set_rotation_speed 1.0) self in
    let self := assign (set_spin_out_phase (Some ramp)) self in
    let self := assign (set_spin_out_ramp_start current_time) self in
    let self := assign (set_effect_active (Some spin_out)) self in
    (self, Returned)
  else if String.eqb action "drill" then
    let self := _cancel_spin_out self in
    let self := assign (set_drill_saved_vx self.(state).(vx)) self in
    let self := assign (set_drill_saved_vy self.(state).(vy)) self in
    let self := assign (set_vx 0) self in
    let self := assign (set_vy 0) self in
    let self := assign (set_rotation_speed 10.0) self in
    let self := assign (set_drill_end_time (current_time + 3.0)) self in
    let self := assign (set_effect_active (Some drill)) self in
    (self, Returned)
  else if String.eqb action "corner_trap" then
    let nearest := nearest_corner self in
    let self := assign (set_saved_vx self.(state).(vx)) self in
    let self := assign (set_saved_vy self.(state).(vy)) self in
    let self := assign (set_vx 0) self in
    let self := assign (set_vy 0) self in
    let self := assign (set_corner_trapped true) self in
    let self := assign (set_trap_corner_x (fst nearest)) self in
    let self := assign (set_trap_corner_y (snd nearest)) self in
    let self := assign (set_effect_active (Some corner_trap)) self in
    let self := assign (set_effect_start_time current_time) self in
    (self, Returned)
  else if String.eqb action "color" then
    match py_get parameters "color" (VStr DEFAULT_COLOR) with
    | inl e => (self, Raised e)
    | inr (VStr color) =>
        let color := if negb (String.prefix "#" color) then hash_prefixed color else color in
        let self := assign (set_color color) self in
        let self := assign (set_color_end_time (current_time + 15.0)) self in
        (self, Returned)
    | inr _ => (self, Raised AttributeError) (* [startswith] is a [str] method *)
    end
  else if String.eqb action "opacity" then
    match py_get parameters "opacity" (VNum 1.0) with
    | inl e => (self, Raised e)
    | inr opacity =>
        match py_float opacity with
        | inl e => (self, Raised e)
        | inr f =>
            let self := assign (set_opacity (py_max 0.0 (py_min 1.0 f))) self in
            let self := assign (set_opacity_end_time (current_time + 15.0)) self in
            (self, Returned)
        end
    end
  else if String.eqb action "googly_eyes" then
    match py_get parameters "enabled" (VBool true) with
    | inl e => (self, Raised e)
    | inr enabled =>
        let self := assign (set_eyes_enabled (truthy enabled)) self in
        (self, Returned)
    end
  else if String.eqb action "reset" then
    (_reset_state self, Returned)
  else
    (self, Returned).

End Manipulate.

(** *** [_update_heartbeat] *)

Definition _update_heartbeat (self : ClaudeScreensaver) (current_time : R) : ClaudeScreensaver :=
  let cycle_duration := 4.0 in
  let phase := py_mod current_time cycle_duration / cycle_duration in
  let heartbeat_pulse :=
    if Rltb phase 0.125 then
      let qrs_phase := phase / 0.125 in
      sin (qrs_phase * PI)
    else if Rltb phase 0.2 then
      let t_phase := (phase - 0.125) / 0.075 in
      sin (t_phase * PI) * 0.25
    else 0.0 in
  assign (set_heartbeat_pulse heartbeat_pulse) self.

(** *** [_update_eye_physics] *)

(** [while d > math.pi: d -= math.pi * 2], at most [fuel] passes. *)
Fixpoint while_above_pi (fuel : nat) (d : R) : R :=
  match fuel with
  | O => d
  | S fuel' => if Rgtb d PI then while_above_pi fuel' (d - PI * 2) else d
  end.

(** [while d < -math.pi: d += math.pi * 2], at most [fuel] passes. *)
Fixpoint while_below_pi (fuel : nat) (d : R) : R :=
  match fuel with
  | O => d
  | S fuel' => if Rltb d (- PI) then while_below_pi fuel' (d + PI * 2) else d
  end.

(** A number of passes after which the first, resp. second, loop has
    left (lemmas [while_above_pi_exits] and [while_below_pi_exits]). *)
Definition passes_above (d : R) : nat := Z.to_nat (up ((d - PI) / (PI * 2))).
Definition passes_below (d : R) : nat := Z.to_nat (up ((- PI - d) / (PI * 2))).

(** The two loops in sequence. *)
Definition wrap_diff (d : R) : R :=
  let d := while_above_pi (passes_above d) d in
  let d := while_below_pi (passes_below d) d in
  d.

(** The eight statements that update one eye; the source repeats them for
    [left_eye] and [right_eye] with their outward targets. *)
Definition eye_update (eye : EyeState)
    (local_gravity_target outward_target centrifugal_force heartbeat_kick impact_kick : R)
  : EyeState :=
  let gravity_diff := wrap_diff (local_gravity_target - eye.(angle)) in
  let centrifugal_diff := wrap_diff (outward_target - eye.(angle)) in
  let v := eye.(velocity)
           + ((gravity_diff * EYE_GRAVITY) + (centrifugal_diff * centrifugal_force)) in
  let v := v - heartbeat_kick in
  let v := v - impact_kick in
  let v := v * EYE_FRICTION in
  {| angle := eye.(angle) + v; velocity := v |}.

Definition _update_eye_physics (self : ClaudeScreensaver) : ClaudeScreensaver :=
  if negb self.(state).(eyes_enabled) then self
  else
    let star_rot_rad := radians self.(state).(rotation_angle) in
    let local_gravity_target := (PI / 2) - star_rot_rad in
    let centrifugal_force :=
      if Rgtb (Rabs self.(state).(rotation_speed)) SPIN_THRESHOLD
      then Rabs self.(state).(rotation_speed) * 0.05
      else 0.0 in
    let left_outward_target := PI in
    let right_outward_target := 0.0 in
    let heartbeat_kick := self.(state).(heartbeat_pulse) * 0.0069 in
    let impact_kick := self.(state).(wall_impact) in
    let self :=
      assign (set_left_eye (eye_update self.(state).(left_eye) local_gravity_target
                              left_outward_target centrifugal_force heartbeat_kick impact_kick))
             self in
    let self :=
      assign (set_right_eye (eye_update self.(state).(right_eye) local_gravity_target
                               right_outward_target centrifugal_force heartbeat_kick impact_kick))
             self in
    self.

(** *** [_update_effects], block by block in the order of the source *)

(** [# Decay wall impact] *)
Definition decay_wall_impact (self : ClaudeScreensaver) : ClaudeScreensaver :=
  assign (set_wall_impact (self.(state).(wall_impact) * 0.85)) self.

(** [# Check shrink expiration] *)
Definition check_shrink_expiration (self : ClaudeScreensaver) (current_time : R)
  : ClaudeScreensaver :=
  if Rgtb self.(state).(shrink_end_time) 0 && Rgeb current_time self.(state).(shrink_end_time)
  then
    let self := assign (set_shrink_end_time 0) self in
    let self := assign (set_target_scale 1.0) self in
    if effect_is shrink self.(state).(effect_active)
    then assign (set_effect_active None) self
    else self
  else self.

(** [# Check color expiration] *)
Definition check_color_expiration (self : ClaudeScreensaver) (current_time : R)
  : ClaudeScreensaver :=
  if Rgtb self.(state).(color_end_time) 0 && Rgeb current_time self.(state).(color_end_time)
  then
    let self := assign (set_color_end_time 0) self in
    let self := assign (set_color DEFAULT_COLOR) self in
    self
  else self.

(** [# Check opacity expiration] *)
Definition check_opacity_expiration (self : ClaudeScreensaver) (current_time : R)
  : ClaudeScreensaver :=
  if Rgtb self.(state).(opacity_end_time) 0 && Rgeb current_time self.(state).(opacity_end_time)
  then
    let self := assign (set_opacity_end_time 0) self in
    let self := assign (set_opacity 1.0) self in
    self
  else self.

(** [# Check drill expiration] *)
Definition check_drill_expiration (self : ClaudeScreensaver) (current_time : R)
  : ClaudeScreensaver :=
  if Rgtb self.(state).(drill_end_time) 0 && Rgeb current_time self.(state).(drill_end_time)
  then
    let self := assign (set_vx self.(state).(drill_saved_vx)) self in
    let self := assign (set_vy self.(state).(drill_saved_vy)) self in
    let self := assign (set_rotation_speed default_rotation_speed) self in
    let self := assign (set_drill_end_time 0) self in
    if effect_is drill self.(state).(effect_active)
    then assign (set_effect_active None) self
    else self
  else self.

(** [# Check corner trap expiration (10 seconds)] *)
Definition check_corner_trap_expiration (self : ClaudeScreensaver) (current_time : R)
  : ClaudeScreensaver :=
  if self.(state).(corner_trapped) then
    if Rgeb (current_time - self.(state).(effect_start_time)) 10.0 then
      let self := assign (set_corner_trapped false) self in
      let self := assign (set_vx self.(state).(saved_vx)) self in
      let self := assign (set_vy self.(state).(saved_vy)) self in
      if effect_is corner_trap self.(state).(effect_active)
      then assign (set_effect_active None) self
      else self
    else self
  else self.

(** [# Update spin_out phases] *)
Definition update_spin_out_phases (self : ClaudeScreensaver) (current_time : R)
  : ClaudeScreensaver :=
  if phase_is ramp self.(state).(spin_out_phase) then
    let elapsed := current_time - self.(state).(spin_out_ramp_start) in
    if Rltb elapsed 2.0 then
      assign (set_rotation_speed (1.0 + (elapsed * 5.0))) self
    else
      assign (set_spin_out_phase (Some decay)) self
  else if phase_is decay self.(state).(spin_out_phase) then
    let self := assign (set_rotation_speed (self.(state).(rotation_speed) * 0.992)) self in
    if Rltb self.(state).(rotation_speed) 0.1 then
      let self := assign (set_rotation_speed default_rotation_speed) self in
      let self := assign (set_spin_out_phase None) self in
      if effect_is spin_out self.(state).(effect_active)
      then assign (set_effect_active None) self
      else self
    else self
  else self.

Definition _update_effects (self : ClaudeScreensaver) (current_time : R) : ClaudeScreensaver :=
  let self := decay_wall_impact self in
  let self := check_shrink_expiration self current_time in
  let self := check_color_expiration self current_time in
  let self := check_opacity_expiration self current_time in
  let self := check_drill_expiration self current_time in
  let self := check_corner_trap_expiration self current_time in
  let self := update_spin_out_phases self current_time in
  self.

(** *** [_update_bouncing_position] *)

(** The first [if]/[elif] pair: the left and the right wall. The triple is
    [(self, next_x, hit_wall)]. *)
Definition bounce_x (self : ClaudeScreensaver) (next_x radius padding : R) (hit_wall : bool)
  : ClaudeScreensaver * R * bool :=
  if Rltb (next_x - radius) padding then
    (assign (set_vx (Rabs self.(state).(vx))) self, radius + padding, true)
  else if Rgtb (next_x + radius) (self.(display_width) - padding) then
    (assign (set_vx (- Rabs self.(state).(vx))) self,
     self.(display_width) - padding - radius, true)
  else (self, next_x, hit_wall).

(** The second pair: the top and the bottom wall. *)
Definition bounce_y (self : ClaudeScreensaver) (next_y radius padding : R) (hit_wall : bool)
  : ClaudeScreensaver * R * bool :=
  if Rltb (next_y - radius) padding then
    (assign (set_vy (Rabs self.(state).(vy))) self, radius + padding, true)
  else if Rgtb (next_y + radius) (self.(display_height) - padding) then
    (assign (set_vy (- Rabs self.(state).(vy))) self,
     self.(display_height) - padding - radius, true)
  else (self, next_y, hit_wall).

(** The body down to [# Trigger wall impact for eye reaction]: the object
    with its reflected velocity, [next_x], [next_y] and [hit_wall]. *)
Definition wall_collisions (self : ClaudeScreensaver) : ClaudeScreensaver * R * R * bool :=
  let next_x := self.(state).(x) + self.(state).(vx) in
  let next_y := self.(state).(y) + self.(state).(vy) in
  let pulsed_size := STAR_BASE_SIZE * self.(state).(current_scale) in
  let radius := pulsed_size / 2 in
  let padding := 4 in
  let hit_wall := false in
  let '(self, next_x, hit_wall) := bounce_x self next_x radius padding hit_wall in
  let '(self, next_y, hit_wall) := bounce_y self next_y radius padding hit_wall in
  (self, next_x, next_y, hit_wall).

Definition _update_bouncing_position (self : ClaudeScreensaver) : ClaudeScreensaver :=
  let '(self, next_x, next_y, hit_wall) := wall_collisions self in
  let self := if hit_wall then assign (set_wall_impact 0.02) self else self in
  let self := assign (set_x next_x) self in
  let self := assign (set_y next_y) self in
  self.

(** The value of [hit_wall] at the end of [_update_bouncing_position]. *)
Definition hit_wall (self : ClaudeScreensaver) : bool := snd (wall_collisions self).

(** *** [update]: one frame *)

(** What one call of [update] reads from outside: the clock in
    [_update_heartbeat], the clock in [_update_effects], and the two calls
    of [random.random()] of the jitter. *)
Record Frame : Type := {
  t_heartbeat : R;
  t_effects : R;
  rand_x : R;
  rand_y : R
}.

(** [# Calculate scale], [# Smooth scale transitions], [# Update rotation] *)
Definition update_scale_and_rotation (self : ClaudeScreensaver) : ClaudeScreensaver :=
  let self :=
    if Reqb self.(state).(shrink_end_time) 0 then
      let idle_scale := 1.0 + (self.(state).(heartbeat_pulse) * 0.08) in
      assign (set_target_scale idle_scale) self
    else self in
  let self :=
    assign (set_current_scale
              (self.(state).(current_scale)
               + (self.(state).(target_scale) - self.(state).(current_scale)) * 0.15)) self in
  let self :=
    assign (set_rotation_angle (self.(state).(rotation_angle) + self.(state).(rotation_speed)))
           self in
  self.

(** [# Update position] *)
Definition update_position (self : ClaudeScreensaver) (rx ry : R) : ClaudeScreensaver :=
  if self.(state).(corner_trapped) then
    let self := assign (set_x (self.(state).(trap_corner_x) + (rx - 0.5) * 40)) self in
    let self := assign (set_y (self.(state).(trap_corner_y) + (ry - 0.5) * 40)) self in
    self
  else if Reqb self.(state).(drill_end_time) 0 then
    _update_bouncing_position self
  else self.

(** The frame up to, and without, [# Update position]. *)
Definition update_before_position (self : ClaudeScreensaver) (fr : Frame) : ClaudeScreensaver :=
  let self := _update_heartbeat self fr.(t_heartbeat) in
  let self := _update_effects self fr.(t_effects) in
  let self := update_scale_and_rotation self in
  self.

Definition update (self : ClaudeScreensaver) (fr : Frame) : ClaudeScreensaver :=
  let self := update_before_position self fr in
  let self := update_position self fr.(rand_x) fr.(rand_y) in
  let self := _update_eye_physics self in
  self.

(** *** [get_status] *)

Record Status : Type := {
  status_position : R * R;
  status_velocity : R * R;
  status_scale : R;
  status_rotation : R;
  status_rotation_speed : R;
  status_color : string;
  status_opacity : R;
  status_effect_active : option Effect;
  status_corner_trapped : bool;
  status_eyes_enabled : bool;
  status_heartbeat_pulse : R;
  status_wall_impact : R;
  status_display_size : R * R
}.

Definition get_status (self : ClaudeScreensaver) : Status :=
  {| status_position := (self.(state).(x), self.(state).(y));
     status_velocity := (self.(state).(vx), self.(state).(vy));
     status_scale := self.(state).(current_scale);
     status_rotation := self.(state).(rotation_angle);
     status_rotation_speed := self.(state).(rotation_speed);
     status_color := self.(state).(color);
     status_opacity := self.(state).(opacity);
     status_effect_active := self.(state).(effect_active);
     status_corner_trapped := self.(state).(corner_trapped);
     status_eyes_enabled := self.(state).(eyes_enabled);
     status_heartbeat_pulse := self.(state).(heartbeat_pulse);
     status_wall_impact := self.(state).(wall_impact);
     status_display_size := (self.(display_width), self.(display_height)) |}.

(** ** The Flask handlers *)

(** What a handler gives back: a [jsonify] body with its status code, or
    the exception that left the handler. *)
Inductive Response : Type :=
  | Json (code : nat) (body : gmap string PyVal)
  | Unhandled (e : PyExn).

Definition valid_actions : list string :=
  [ "shrink"; "spin_out"; "drill"; "corner_trap"; "color"; "opacity"; "googly_eyes"; "reset" ].

(** [action not in valid_actions] *)
Definition not_in_valid_actions (action : PyVal) : bool :=
  match action with
  | VStr a => negb (existsb (String.eqb a) valid_actions)
  | _ => true
  end.

(** The f-string of the error message, with the [repr] of the list. *)
Definition invalid_action_message : string :=
  "Invalid action. Valid: ['shrink', 'spin_out', 'drill', 'corner_trap', 'color', 'opacity', 'googly_eyes', 'reset']".

Definition error_body (msg : string) : gmap string PyVal := {[ "error" := VStr msg ]}.

Section Handlers.

Variable str_to_float : string -> option R.

(** [manipulate_star]: [screensaver] is the global, [json] the value of
    [request.get_json()]. *)
Definition manipulate_star (screensaver : option ClaudeScreensaver) (json : PyVal)
    (current_time t_cancel : R) : Response * option ClaudeScreensaver :=
  match screensaver with
  | None => (Json 503 (error_body "Screensaver not running"), screensaver)
  | Some self =>
      let data := py_or json (VDict ∅) in
      match py_get data "action" VNone with
      | inl e => (Unhandled e, screensaver)
      | inr action =>
          match py_get data "parameters" (VDict ∅) with
          | inl e => (Unhandled e, screensaver)
          | inr parameters =>
              if negb (truthy action) then
                (Json 400 (error_body "Missing action parameter"), screensaver)
              else if not_in_valid_actions action then
                (Json 400 (error_body invalid_action_message), screensaver)
              else
                match action with
                | VStr a =>
                    match manipulate str_to_float self a parameters current_time t_cancel with
                    | (self, Returned) =>
                        (Json 200 (<["status" := VStr "ok"]>
                                   (<["action" := action]>
                                    {[ "parameters" := parameters ]})),
                         Some self)
                    | (self, Raised e) => (Unhandled e, Some self)
                    end
                | _ =>
                    (* not reached: only a [str] is in [valid_actions] *)
                    (Json 400 (error_body invalid_action_message), screensaver)
                end
          end
      end
  end.

(** [reset_star] *)
Definition reset_star (screensaver : option ClaudeScreensaver) (current_time t_cancel : R)
  : Response * option ClaudeScreensaver :=
  match screensaver with
  | None => (Json 503 (error_body "Screensaver not running"), screensaver)
  | Some self =>
      match manipulate str_to_float self "reset" VNone current_time t_cancel with
      | (self, Returned) =>
          (Json 200 (<["status" := VStr "ok"]> {[ "action" := VStr "reset" ]}), Some self)
      | (self, Raised e) => (Unhandled e, Some self)
      end
  end.

End Handlers.

(** ** Runs of the program *)

(** The frames of the animation loop with no command in between. *)
Definition run_frames (frames : list Frame) (self : ClaudeScreensaver) : ClaudeScreensaver :=
  fold_left update frames self.

(** A wall is hit in this frame: the frame moves the star freely and
    [hit_wall] ends up true. *)
Definition frame_hits_wall (self : ClaudeScreensaver) (fr : Frame) : bool :=
  let self := update_before_position self fr in
  negb self.(state).(corner_trapped)
  && Reqb self.(state).(drill_end_time) 0
  && hit_wall self.

(** No frame of the run hits a wall. *)
Fixpoint no_wall_hit (frames : list Frame) (self : ClaudeScreensaver) : Prop :=
  match frames with
  | [] => True
  | fr :: frames' => frame_hits_wall self fr = false /\ no_wall_hit frames' (update self fr)
  end.

(** The two [random.random()] values of a frame lie in [[0, 1)]. *)
Definition random_in_range (fr : Frame) : Prop :=
  0 <= fr.(rand_x) < 1 /\ 0 <= fr.(rand_y) < 1.

(** What happens to the object under the lock: a frame of the animation
    thread or a command of a request thread. *)
Inductive Event : Type :=
  | Tick (fr : Frame)
  | Command (action : string) (parameters : PyVal) (current_time t_cancel : R).

(** The first and the last clock reading of an event. *)
Definition first_clock (e : Event) : R :=
  match e with
  | Tick fr => fr.(t_heartbeat)
  | Command _ _ current_time _ => current_time
  end.

Definition last_clock (e : Event) : R :=
  match e with
  | Tick fr => fr.(t_effects)
  | Command _ _ _ t_cancel => t_cancel
  end.

(** The three ways a frame treats the position. *)
Inductive Regime : Type :=
  | corner_trapped_regime
  | drill_suspended_regime
  | free_motion_regime.

(** The regime as the specification words it: trapped, else drill timer
    positive, else free. *)
Definition regime_of (self : ClaudeScreensaver) : Regime :=
  if self.(state).(corner_trapped) then corner_trapped_regime
  else if Rgtb self.(state).(drill_end_time) 0 then drill_suspended_regime
  else free_motion_regime.

Section Runs.

Variable str_to_float : string -> option R.

Definition step (self : ClaudeScreensaver) (e : Event) : ClaudeScreensaver :=
  match e with
  | Tick fr => update self fr
  | Command action parameters current_time t_cancel =>
      fst (manipulate str_to_float self action parameters current_time t_cancel)
  end.

(** [reachable self t]: the object after [initialize] and any events whose
    clock readings, from 0 on, never go back; [t] is the last reading. *)
Inductive reachable : ClaudeScreensaver -> R -> Prop :=
  | reachable_initialize (width height : R) :
      reachable (initialize width height) 0
  | reachable_step (self : ClaudeScreensaver) (t : R) (e : Event) :
      reachable self t ->
      t <= first_clock e ->
      first_clock e <= last_clock e ->
      reachable (step self e) (last_clock e).

End Runs.

(** ** The tests of [_update_effects] as functions of the object *)

(** The test of [# Check drill expiration]. *)
Definition drill_expires (self : ClaudeScreensaver) (current_time : R) : bool :=
  Rgtb self.(state).(drill_end_time) 0 && Rgeb current_time self.(state).(drill_end_time).

(** The two nested tests of [# Check corner trap expiration]. *)
Definition trap_expires (self : ClaudeScreensaver) (current_time : R) : bool :=
  self.(state).(corner_trapped) && Rgeb (current_time - self.(state).(effect_start_time)) 10.0.

(** The test of [# Check shrink expiration]. *)
Definition shrink_expires (self : ClaudeScreensaver) (current_time : R) : bool :=
  Rgtb self.(state).(shrink_end_time) 0 && Rgeb current_time self.(state).(shrink_end_time).

(** [rotation_speed] when the frame reaches [# Update spin_out phases]. *)
Definition rotation_speed_after_drill (self : ClaudeScreensaver) (current_time : R) : R :=
  if drill_expires self current_time then default_rotation_speed
  else self.(state).(rotation_speed).

(** The decay phase ends in this frame. *)
Definition spin_out_ends (self : ClaudeScreensaver) (current_time : R) : bool :=
  phase_is decay self.(state).(spin_out_phase)
  && Rltb (rotation_speed_after_drill self current_time * 0.992) 0.1.

(** [if effect_active == tag: effect_active = None], when [test] holds. *)
Definition clear_effect (test : bool) (tag : Effect) (e : option Effect) : option Effect :=
  if test && effect_is tag e then None else e.

(** ** What holds between a command and the next one *)

(** After [manipulate("spin_out")] read the clock as [t0] and then as
    [t_cancel]: the ramp start, the effect tag while the phase lasts, and a
    drill timer that is not after the clock. *)
Definition spinning (t0 t_cancel : R) (self : ClaudeScreensaver) : Prop :=
  spin_out_ramp_start (state self) = t0
  /\ (spin_out_phase (state self) <> None -> effect_active (state self) = Some spin_out)
  /\ (drill_end_time (state self) <= 0 \/ drill_end_time (state self) <= t_cancel).

(** After [manipulate("drill")] that set the timer to [t_end] and saved
    the velocity [(vx0, vy0)], in a state whose trap, if any, started at
    [start0]. *)
Definition drilling (t_end vx0 vy0 start0 : R) (trapped0 : bool) (self : ClaudeScreensaver)
  : Prop :=
  drill_end_time (state self) = t_end
  /\ drill_saved_vx (state self) = vx0 /\ drill_saved_vy (state self) = vy0
  /\ spin_out_phase (state self) = None
  /\ effect_active (state self) = Some drill
  /\ effect_start_time (state self) = start0
  /\ (corner_trapped (state self) = true -> trapped0 = true).

(** The star has no velocity and no trap holds it. *)
Definition still (self : ClaudeScreensaver) : Prop :=
  vx (state self) = 0 /\ vy (state self) = 0 /\ corner_trapped (state self) = false.

(** Still, and the drill has nothing but zero to restore. *)
Definition parked (self : ClaudeScreensaver) : Prop :=
  still self /\ drill_saved_vx (state self) = 0 /\ drill_saved_vy (state self) = 0.

(** Held by the trap set at [t0] in the corner [(cx, cy)] with the saved
    velocity [(vx0, vy0)]. *)
Definition held (t0 cx cy vx0 vy0 : R) (self : ClaudeScreensaver) : Prop :=
  corner_trapped (state self) = true
  /\ effect_start_time (state self) = t0
  /\ trap_corner_x (state self) = cx /\ trap_corner_y (state self) = cy
  /\ saved_vx (state self) = vx0 /\ saved_vy (state self) = vy0.

(** The position is within 20 px of [(cx, cy)] on each axis. *)
Definition in_envelope (cx cy : R) (self : ClaudeScreensaver) : Prop :=
  Rabs (x (state self) - cx) <= 20 /\ Rabs (y (state self) - cy) <= 20.

(** [corner] is the first nearest of the corners [cs]: it is one of them,
    none of the corners before it is as near, none after it is nearer. *)
Definition first_nearest (self : ClaudeScreensaver) (corner : R * R) (cs : list (R * R))
  : Prop :=
  exists earlier later : list (R * R),
    cs = (earlier ++ corner :: later)%list
    /\ (forall c, In c earlier -> corner_dist self corner < corner_dist self c)
    /\ (forall c, In c later -> corner_dist self corner <= corner_dist self c).

(** ** Frames for the examples *)

(** A frame that reads the clock as [t] both times and draws 0.5 twice
    (no jitter offset). *)
Definition frame_at (t : R) : Frame :=
  {| t_heartbeat := t; t_effects := t; rand_x := 0.5; rand_y := 0.5 |}.

(** A [str_to_float] that parses nothing; the examples pass no string to
    [float]. *)
Definition no_float (s : string) : option R := None.

(** ** The sprite cache of [get_current_sprite] *)

Section Sprites.

(** A [pygame.Surface], and the surface [_render_sprite] loads for a fill
    color (cairosvg and pygame, outside the embedding). *)
Variable Surface : Type.
Variable render_svg : string -> Surface.

(** The two attributes the sprite methods assign. *)
Record Sprites : Type := {
  master_sprites : gmap string Surface;
  current_color : string
}.

(** What a sprite method gives back: the cache and the returned surface
    ([None] of [dict.get]), or the [KeyError] of
    [self.master_sprites["default"]]. *)
Inductive SpriteOutcome : Type :=
  | SpriteReturned (sprites : Sprites) (surface : option Surface)
  | SpriteKeyError.

(** The cache after [__init__]. *)
Definition Sprites_new : Sprites :=
  {| master_sprites := ∅; current_color := DEFAULT_COLOR |}.

Definition _render_sprite (sprites : Sprites) (color key : string) : Sprites :=
  {| master_sprites := <[key := render_svg color]> sprites.(master_sprites);
     current_color := sprites.(current_color) |}.

(** The two [_render_sprite] calls of [initialize]. *)
Definition initialize_sprites (sprites : Sprites) : Sprites :=
  let sprites := _render_sprite sprites DEFAULT_COLOR "default" in
  let sprites := _render_sprite sprites SNARKY_COLOR "snarky" in
  sprites.

Definition _render_custom_color (sprites : Sprites) (color : string) : Sprites :=
  if negb (String.eqb color sprites.(current_color)) then
    let sprites := _render_sprite sprites color "custom" in
    {| master_sprites := sprites.(master_sprites); current_color := color |}
  else sprites.

Definition get_current_sprite (self : ClaudeScreensaver) (sprites : Sprites) : SpriteOutcome :=
  if String.eqb self.(state).(color) DEFAULT_COLOR then
    SpriteReturned sprites (sprites.(master_sprites) !! "default")
  else if String.eqb self.(state).(color) SNARKY_COLOR then
    SpriteReturned sprites (sprites.(master_sprites) !! "snarky")
  else
    let sprites :=
      if negb (bool_decide (is_Some (sprites.(master_sprites) !! "custom")))
         || negb (String.eqb sprites.(current_color) self.(state).(color))
      then _render_custom_color sprites self.(state).(color)
      else sprites in
    match sprites.(master_sprites) !! "default" with
    | None => SpriteKeyError
    | Some fallback =>
        SpriteReturned sprites (Some (default fallback (sprites.(master_sprites) !! "custom")))
    end.

(** The cache holds the two fixed sprites, and its custom sprite, if
    any, is the one of [current_color]. *)
Definition sprites_ready (sprites : Sprites) : Prop :=
  sprites.(master_sprites) !! "default" = Some (render_svg DEFAULT_COLOR)
  /\ sprites.(master_sprites) !! "snarky" = Some (render_svg SNARKY_COLOR)
  /\ ((sprites.(master_sprites) !! "custom" = None
       /\ sprites.(current_color) = DEFAULT_COLOR)
      \/ sprites.(master_sprites) !! "custom" = Some (render_svg sprites.(current_color))).

End Sprites.

Arguments master_sprites {Surface}.
Arguments current_color {Surface}.
Arguments SpriteReturned {Surface}.
Arguments SpriteKeyError {Surface}.
Arguments Sprites_new {Surface}.
Arguments sprites_ready {Surface}.

(** ** More of what holds over a run *)

(** Neither a spin-out nor a drill timer is there to change the rotation
    speed. *)
Definition steady_rotation (self : ClaudeScreensaver) : Prop :=
  spin_out_phase (state self) = None /\ drill_end_time (state self) = 0.

(** Both scales lie between the shrunken 0.2 and the top of the
    heartbeat, 1.08. *)
Definition scales_in_range (self : ClaudeScreensaver) : Prop :=
  0.2 <= target_scale (state self) <= 1.08
  /\ 0.2 <= current_scale (state self) <= 1.08.

(** The star, with the radius [_update_bouncing_position] gives it, lies
    inside the 4 px padding of the display. *)
Definition inside_walls (self : ClaudeScreensaver) (radius : R) : Prop :=
  4 <= x (state self) - radius
  /\ x (state self) + radius <= display_width self - 4
  /\ 4 <= y (state self) - radius
  /\ y (state self) + radius <= display_height self - 4.

(** The effect tag names an effect that still runs. *)
Definition effect_tag_live (self : ClaudeScreensaver) : Prop :=
  match effect_active (state self) with
  | Some shrink => 0 < shrink_end_time (state self)
  | Some spin_out => spin_out_phase (state self) <> None
  | Some drill => 0 < drill_end_time (state self)
  | Some corner_trap => corner_trapped (state self) = true
  | None => True
  end.

(** The spin-out is over: no phase, the default rotation speed, and no
    drill timer to change it. *)
Definition spin_out_over (self : ClaudeScreensaver) : Prop :=
  spin_out_phase (state self) = None
  /\ rotation_speed (state self) = default_rotation_speed
  /\ drill_end_time (state self) <= 0.

(** * Properties *)

(** ** Comparisons *)

Lemma Rltb_true (a b : R) : a < b -> Rltb a b = true.
Proof. intros H. unfold Rltb. destruct (Rlt_dec a b); [reflexivity | contradiction]. Qed.

Lemma Rltb_false (a b : R) : b <= a -> Rltb a b = false.
Proof. intros H. unfold Rltb. destruct (Rlt_dec a b); [lra | reflexivity]. Qed.

Lemma Rgtb_true (a b : R) : b < a -> Rgtb a b = true.
Proof. intros H. unfold Rgtb. destruct (Rgt_dec a b); [reflexivity | lra]. Qed.

Lemma Rgtb_false (a b : R) : a <= b -> Rgtb a b = false.
Proof. intros H. unfold Rgtb. destruct (Rgt_dec a b); [lra | reflexivity]. Qed.

Lemma Rgeb_true (a b : R) : b <= a -> Rgeb a b = true.
Proof. intros H. unfold Rgeb. destruct (Rge_dec a b); [reflexivity | lra]. Qed.

Lemma Rgeb_false (a b : R) : a < b -> Rgeb a b = false.
Proof. intros H. unfold Rgeb. destruct (Rge_dec a b); [lra | reflexivity]. Qed.

Lemma Reqb_true (a b : R) : a = b -> Reqb a b = true.
Proof. intros H. unfold Reqb. destruct (Req_dec_T a b); [reflexivity | contradiction]. Qed.

Lemma Reqb_false (a b : R) : a <> b -> Reqb a b = false.
Proof. intros H. unfold Reqb. destruct (Req_dec_T a b); [contradiction | reflexivity]. Qed.

Lemma Rltb_spec (a b : R) : reflect (a < b) (Rltb a b).
Proof. unfold Rltb. destruct (Rlt_dec a b); constructor; assumption. Qed.

Lemma Rgtb_spec (a b : R) : reflect (b < a) (Rgtb a b).
Proof. unfold Rgtb. destruct (Rgt_dec a b); constructor; lra. Qed.

Lemma Rgeb_spec (a b : R) : reflect (b <= a) (Rgeb a b).
Proof. unfold Rgeb. destruct (Rge_dec a b); constructor; lra. Qed.

Lemma Reqb_spec (a b : R) : reflect (a = b) (Reqb a b).
Proof. unfold Reqb. destruct (Req_dec_T a b); constructor; assumption. Qed.

(** ** Proof tools *)

(** The blocks of a frame are unfolded by name only. *)
Arguments _update_heartbeat : simpl never.
Arguments _update_effects : simpl never.
Arguments decay_wall_impact : simpl never.
Arguments check_shrink_expiration : simpl never.
Arguments check_color_expiration : simpl never.
Arguments check_opacity_expiration : simpl never.
Arguments check_drill_expiration : simpl never.
Arguments check_corner_trap_expiration : simpl never.
Arguments update_spin_out_phases : simpl never.
Arguments update_scale_and_rotation : simpl never.
Arguments update_position : simpl never.
Arguments update_before_position : simpl never.
Arguments _update_bouncing_position : simpl never.
Arguments wall_collisions : simpl never.
Arguments _update_eye_physics : simpl never.
Arguments update : simpl never.
Arguments hit_wall : simpl never.
Arguments nearest_corner : simpl never.

Ltac case_if :=
  match goal with
  | |- context [if ?c then _ else _] => destruct c eqn:?
  | |- context [match ?c with Some _ => _ | None => _ end] => destruct c eqn:?
  end.

(** A block leaves a field alone: unfold the block, split on its tests. *)
Ltac solve_frame :=
  intros;
  unfold _update_heartbeat, decay_wall_impact, check_shrink_expiration,
    check_color_expiration, check_opacity_expiration, check_drill_expiration,
    check_corner_trap_expiration, update_spin_out_phases, update_scale_and_rotation,
    update_position, _update_bouncing_position, wall_collisions, bounce_x, bounce_y,
    _update_eye_physics, _cancel_spin_out, _cancel_drill;
  cbn; repeat (case_if; cbn); first [reflexivity | assumption | congruence].

Ltac peel1 B :=
  match goal with
  | |- context [?f (state (B ?a))] =>
      let H := fresh in
      assert (H : forall s, f (state (B s)) = f (state s)) by solve_frame;
      rewrite (H a); clear H
  end.

Ltac peel2 B :=
  match goal with
  | |- context [?f (state (B ?a ?t))] =>
      let H := fresh in
      assert (H : forall s, f (state (B s t)) = f (state s)) by solve_frame;
      rewrite (H a); clear H
  end.

Ltac peel3 B :=
  match goal with
  | |- context [?f (state (B ?a ?t ?u))] =>
      let H := fresh in
      assert (H : forall s, f (state (B s t u)) = f (state s)) by solve_frame;
      rewrite (H a); clear H
  end.

Ltac dpeel1 B :=
  match goal with
  | |- context [display_width (B ?a)] =>
      let H := fresh in
      assert (H : forall s, display_width (B s) = display_width s) by solve_frame;
      rewrite (H a); clear H
  | |- context [display_height (B ?a)] =>
      let H := fresh in
      assert (H : forall s, display_height (B s) = display_height s) by solve_frame;
      rewrite (H a); clear H
  end.

Ltac dpeel2 B :=
  match goal with
  | |- context [display_width (B ?a ?t)] =>
      let H := fresh in
      assert (H : forall s, display_width (B s t) = display_width s) by solve_frame;
      rewrite (H a); clear H
  | |- context [display_height (B ?a ?t)] =>
      let H := fresh in
      assert (H : forall s, display_height (B s t) = display_height s) by solve_frame;
      rewrite (H a); clear H
  end.

Ltac dpeel3 B :=
  match goal with
  | |- context [display_width (B ?a ?t ?u)] =>
      let H := fresh in
      assert (H : forall s, display_width (B s t u) = display_width s) by solve_frame;
      rewrite (H a); clear H
  | |- context [display_height (B ?a ?t ?u)] =>
      let H := fresh in
      assert (H : forall s, display_height (B s t u) = display_height s) by solve_frame;
      rewrite (H a); clear H
  end.

(** Read a field through the blocks that do not assign it. *)
Ltac peel :=
  first [ peel1 _update_eye_physics | peel3 update_position
        | peel1 _update_bouncing_position | peel1 update_scale_and_rotation
        | peel2 update_spin_out_phases | peel2 check_corner_trap_expiration
        | peel2 check_drill_expiration | peel2 check_opacity_expiration
        | peel2 check_color_expiration | peel2 check_shrink_expiration
        | peel1 decay_wall_impact | peel2 _update_heartbeat
        | peel1 _cancel_spin_out | peel2 _cancel_drill
        | dpeel1 _update_eye_physics | dpeel3 update_position
        | dpeel1 _update_bouncing_position | dpeel1 update_scale_and_rotation
        | dpeel2 update_spin_out_phases | dpeel2 check_corner_trap_expiration
        | dpeel2 check_drill_expiration | dpeel2 check_opacity_expiration
        | dpeel2 check_color_expiration | dpeel2 check_shrink_expiration
        | dpeel1 decay_wall_impact | dpeel2 _update_heartbeat
        | dpeel1 _cancel_spin_out | dpeel2 _cancel_drill ].

Ltac open_update := unfold update, update_before_position, _update_effects.

(** Settle the comparisons of the goal from the hypotheses. *)
Ltac decide_tests :=
  repeat first
    [ rewrite Rltb_true by lra | rewrite Rltb_false by lra
    | rewrite Rgtb_true by lra | rewrite Rgtb_false by lra
    | rewrite Rgeb_true by lra | rewrite Rgeb_false by lra
    | rewrite Reqb_true by lra | rewrite Reqb_false by lra ].

(** Evaluate record operations and leave the arithmetic of [R] alone. *)
Ltac record_compute :=
  cbv -[Rplus Rmult Rdiv Rminus Ropp Rinv IZR PI Rabs sqrt sin up Rlt Rle Rgt Rge].

(** ** What a frame never assigns *)

Lemma update_keeps_saved (self : ClaudeScreensaver) (fr : Frame) :
  let s' := state (update self fr) in
  let s := state self in
  drill_saved_vx s' = drill_saved_vx s /\ drill_saved_vy s' = drill_saved_vy s
  /\ saved_vx s' = saved_vx s /\ saved_vy s' = saved_vy s
  /\ effect_start_time s' = effect_start_time s
  /\ spin_out_ramp_start s' = spin_out_ramp_start s
  /\ trap_corner_x s' = trap_corner_x s /\ trap_corner_y s' = trap_corner_y s
  /\ eyes_enabled s' = eyes_enabled s.
Proof.
  cbv zeta. open_update. repeat peel. repeat split; reflexivity.
Qed.

Lemma update_display (self : ClaudeScreensaver) (fr : Frame) :
  display_width (update self fr) = display_width self
  /\ display_height (update self fr) = display_height self.
Proof.
  open_update. repeat peel. split; reflexivity.
Qed.

(** ** The fields a frame assigns, in closed form *)

Lemma drill_end_time_update (self : ClaudeScreensaver) (fr : Frame) :
  drill_end_time (state (update self fr)) =
  if drill_expires self (t_effects fr) then 0 else drill_end_time (state self).
Proof.
  open_update. repeat peel.
  unfold check_drill_expiration, drill_expires. repeat peel.
  case_if; cbn; [case_if; cbn |]; repeat peel; reflexivity.
Qed.

Lemma corner_trapped_update (self : ClaudeScreensaver) (fr : Frame) :
  corner_trapped (state (update self fr)) =
  if trap_expires self (t_effects fr) then false else corner_trapped (state self).
Proof.
  open_update. repeat peel.
  unfold check_corner_trap_expiration, trap_expires. repeat peel.
  destruct (corner_trapped (state self)) eqn:Htrap; cbn.
  - case_if; cbn; [case_if; cbn |]; repeat peel; [reflexivity | reflexivity | exact Htrap].
  - repeat peel; exact Htrap.
Qed.

(** The velocity when the frame reaches [# Update position]: the trap's
    saved velocity if the trap expires, else the drill's if the drill
    expires, else unchanged. *)
Lemma velocity_before_position (self : ClaudeScreensaver) (fr : Frame) :
  let s' := state (update_before_position self fr) in
  let s := state self in
  vx s' = (if trap_expires self (t_effects fr) then saved_vx s
           else if drill_expires self (t_effects fr) then drill_saved_vx s else vx s)
  /\ vy s' = (if trap_expires self (t_effects fr) then saved_vy s
              else if drill_expires self (t_effects fr) then drill_saved_vy s else vy s).
Proof.
  cbv zeta. unfold update_before_position, _update_effects. repeat peel.
  unfold check_corner_trap_expiration, trap_expires. repeat peel.
  destruct (corner_trapped (state self)) eqn:Htrap; cbn.
  - destruct (Rgeb (t_effects fr - effect_start_time (state self)) 10.0); cbn.
    + case_if; cbn; repeat peel; split; reflexivity.
    + unfold check_drill_expiration, drill_expires. repeat peel.
      case_if; cbn; [case_if; cbn |]; repeat peel; split; reflexivity.
  - unfold check_drill_expiration, drill_expires. repeat peel.
    case_if; cbn; [case_if; cbn |]; repeat peel; split; reflexivity.
Qed.

(** ** [# Update position] *)

Lemma hit_wall_false_inv (self : ClaudeScreensaver) :
  hit_wall self = false ->
  wall_collisions self =
  (self, x (state self) + vx (state self), y (state self) + vy (state self), false).
Proof.
  unfold hit_wall, wall_collisions, bounce_x, bounce_y.
  repeat (case_if; cbn); intros H; first [discriminate H | reflexivity].
Qed.

Lemma bouncing_velocity_abs (self : ClaudeScreensaver) :
  Rabs (vx (state (_update_bouncing_position self))) = Rabs (vx (state self))
  /\ Rabs (vy (state (_update_bouncing_position self))) = Rabs (vy (state self)).
Proof.
  unfold _update_bouncing_position, wall_collisions, bounce_x, bounce_y.
  repeat (case_if; cbn);
    rewrite ?Rabs_Ropp, ?Rabs_Rabsolu; split; reflexivity.
Qed.

(** The position step keeps each velocity component up to its sign, and
    exactly unless the star moves freely and hits a wall. *)
Lemma update_position_velocity (self : ClaudeScreensaver) (rx ry : R) :
  let s' := state (update_position self rx ry) in
  let s := state self in
  Rabs (vx s') = Rabs (vx s) /\ Rabs (vy s') = Rabs (vy s)
  /\ (corner_trapped s = true \/ drill_end_time s <> 0 \/ hit_wall self = false ->
      vx s' = vx s /\ vy s' = vy s).
Proof.
  cbv zeta. unfold update_position.
  destruct (corner_trapped (state self)) eqn:Htrap; cbn.
  { repeat split; reflexivity. }
  destruct (Reqb_spec (drill_end_time (state self)) 0) as [Hd | Hd].
  - destruct (bouncing_velocity_abs self) as [Hx Hy].
    split; [exact Hx | split; [exact Hy |]].
    intros [H | [H | H]]; [discriminate H | contradiction |].
    unfold _update_bouncing_position. rewrite (hit_wall_false_inv self H). cbn.
    split; reflexivity.
  - repeat split; reflexivity.
Qed.

(** The position step by regime. *)
Lemma update_position_trapped (self : ClaudeScreensaver) (rx ry : R) :
  corner_trapped (state self) = true ->
  x (state (update_position self rx ry)) = trap_corner_x (state self) + (rx - 0.5) * 40
  /\ y (state (update_position self rx ry)) = trap_corner_y (state self) + (ry - 0.5) * 40.
Proof.
  intros H. unfold update_position. rewrite H. cbn. split; reflexivity.
Qed.

Lemma update_position_suspended (self : ClaudeScreensaver) (rx ry : R) :
  corner_trapped (state self) = false ->
  drill_end_time (state self) <> 0 ->
  update_position self rx ry = self.
Proof.
  intros H Hd. unfold update_position. rewrite H, (Reqb_false _ _ Hd). reflexivity.
Qed.

Lemma update_position_free (self : ClaudeScreensaver) (rx ry : R) :
  corner_trapped (state self) = false ->
  drill_end_time (state self) = 0 ->
  update_position self rx ry = _update_bouncing_position self.
Proof.
  intros H Hd. unfold update_position. rewrite H, (Reqb_true _ _ Hd). reflexivity.
Qed.

Lemma bouncing_no_hit (self : ClaudeScreensaver) :
  hit_wall self = false ->
  x (state (_update_bouncing_position self)) = x (state self) + vx (state self)
  /\ y (state (_update_bouncing_position self)) = y (state self) + vy (state self)
  /\ wall_impact (state (_update_bouncing_position self)) = wall_impact (state self).
Proof.
  intros H. unfold _update_bouncing_position. rewrite (hit_wall_false_inv self H). cbn.
  repeat split; reflexivity.
Qed.

Lemma bouncing_wall_impact (self : ClaudeScreensaver) :
  wall_impact (state (_update_bouncing_position self)) =
  if hit_wall self then 0.02 else wall_impact (state self).
Proof.
  unfold hit_wall, _update_bouncing_position, wall_collisions, bounce_x, bounce_y.
  repeat (case_if; cbn); reflexivity.
Qed.

(** ** The wall impact over a frame *)

Lemma wall_impact_before_position (self : ClaudeScreensaver) (fr : Frame) :
  wall_impact (state (update_before_position self fr)) = wall_impact (state self) * 0.85.
Proof.
  unfold update_before_position, _update_effects. repeat peel.
  unfold decay_wall_impact. cbn. repeat peel. reflexivity.
Qed.

Lemma wall_impact_update (self : ClaudeScreensaver) (fr : Frame) :
  wall_impact (state (update self fr)) =
  if frame_hits_wall self fr then 0.02 else wall_impact (state self) * 0.85.
Proof.
  unfold frame_hits_wall, update. peel.
  rewrite <- (wall_impact_before_position self fr).
  generalize (update_before_position self fr) as s. intros s.
  unfold update_position.
  destruct (corner_trapped (state s)); cbn; [reflexivity |].
  destruct (Reqb (drill_end_time (state s)) 0); cbn; [| reflexivity].
  apply bouncing_wall_impact.
Qed.

(** ** Rotation speed, spin-out phase and effect tag over a frame *)

Lemma check_drill_expiration_rotation (self : ClaudeScreensaver) (t : R) :
  rotation_speed (state (check_drill_expiration self t)) = rotation_speed_after_drill self t.
Proof.
  unfold check_drill_expiration, rotation_speed_after_drill, drill_expires.
  case_if; cbn; [case_if; cbn |]; reflexivity.
Qed.

Lemma rotation_speed_before_spin_out (self : ClaudeScreensaver) (fr : Frame) :
  rotation_speed
    (state (check_drill_expiration
              (check_opacity_expiration
                 (check_color_expiration
                    (check_shrink_expiration
                       (decay_wall_impact (_update_heartbeat self (t_heartbeat fr)))
                       (t_effects fr)) (t_effects fr)) (t_effects fr)) (t_effects fr)))
  = rotation_speed_after_drill self (t_effects fr).
Proof.
  rewrite check_drill_expiration_rotation.
  unfold rotation_speed_after_drill, drill_expires. repeat peel. reflexivity.
Qed.

(** The spin-out step of a frame, by phase. *)
Lemma spin_out_update (self : ClaudeScreensaver) (fr : Frame) :
  let s' := state (update self fr) in
  let s := state self in
  let r := rotation_speed_after_drill self (t_effects fr) in
  let elapsed := t_effects fr - spin_out_ramp_start s in
  match spin_out_phase s with
  | Some ramp =>
      if Rltb elapsed 2.0
      then spin_out_phase s' = Some ramp /\ rotation_speed s' = 1.0 + (elapsed * 5.0)
      else spin_out_phase s' = Some decay /\ rotation_speed s' = r
  | Some decay =>
      if Rltb (r * 0.992) 0.1
      then spin_out_phase s' = None /\ rotation_speed s' = default_rotation_speed
      else spin_out_phase s' = Some decay /\ rotation_speed s' = r * 0.992
  | None => spin_out_phase s' = None /\ rotation_speed s' = r
  end.
Proof.
  cbv zeta. open_update. repeat peel.
  unfold update_spin_out_phases. repeat peel.
  rewrite ?rotation_speed_before_spin_out.
  destruct (spin_out_phase (state self)) as [[|]|] eqn:Hphase; cbn.
  - case_if; cbn; repeat peel; rewrite ?rotation_speed_before_spin_out; auto.
  - case_if; cbn; [case_if; cbn |]; repeat peel; rewrite ?rotation_speed_before_spin_out; auto.
  - repeat peel. rewrite rotation_speed_before_spin_out. auto.
Qed.

Lemma effect_active_update (self : ClaudeScreensaver) (fr : Frame) :
  let t := t_effects fr in
  effect_active (state (update self fr)) =
  clear_effect (spin_out_ends self t) spin_out
    (clear_effect (trap_expires self t) corner_trap
       (clear_effect (drill_expires self t) drill
          (clear_effect (shrink_expires self t) shrink (effect_active (state self))))).
Proof.
  cbv zeta. open_update. repeat peel.
  assert (Hshrink : forall s t,
    effect_active (state (check_shrink_expiration s t)) =
    clear_effect (shrink_expires s t) shrink (effect_active (state s))).
  { intros s t. unfold check_shrink_expiration, clear_effect, shrink_expires.
    case_if; cbn; [case_if; cbn |]; reflexivity. }
  assert (Hdrill : forall s t,
    effect_active (state (check_drill_expiration s t)) =
    clear_effect (drill_expires s t) drill (effect_active (state s))).
  { intros s t. unfold check_drill_expiration, clear_effect, drill_expires.
    case_if; cbn; [case_if; cbn |]; reflexivity. }
  assert (Htrap : forall s t,
    effect_active (state (check_corner_trap_expiration s t)) =
    clear_effect (trap_expires s t) corner_trap (effect_active (state s))).
  { intros s t. unfold check_corner_trap_expiration, clear_effect, trap_expires.
    case_if; cbn; [case_if; cbn; [case_if; cbn |] |]; reflexivity. }
  assert (Hspin : forall s t,
    effect_active (state (update_spin_out_phases s t)) =
    clear_effect (phase_is decay (spin_out_phase (state s))
                  && Rltb (rotation_speed (state s) * 0.992) 0.1) spin_out
      (effect_active (state s))).
  { intros s t. unfold update_spin_out_phases, clear_effect.
    destruct (spin_out_phase (state s)) as [[|]|]; cbn; repeat (case_if; cbn); reflexivity. }
  rewrite Hspin, Htrap, Hdrill. repeat peel. rewrite Hshrink. repeat peel.
  rewrite rotation_speed_before_spin_out.
  unfold spin_out_ends, trap_expires, drill_expires, shrink_expires.
  repeat peel. reflexivity.
Qed.

(** ** Commands and the two rotation timers *)

Section CommandFacts.

Variable str_to_float : string -> option R.

Lemma cancel_spin_out_phase (self : ClaudeScreensaver) :
  spin_out_phase (state (_cancel_spin_out self)) = None.
Proof.
  unfold _cancel_spin_out. case_if; cbn; [reflexivity | assumption].
Qed.

(** What a command does to [spin_out_phase] and [drill_end_time]. *)
Lemma manipulate_timers (self : ClaudeScreensaver) (action : string) (parameters : PyVal)
    (current_time t_cancel : R) :
  let s' := state (fst (manipulate str_to_float self action parameters current_time t_cancel)) in
  let s := state self in
  (action = "drill" /\ spin_out_phase s' = None /\ drill_end_time s' = current_time + 3.0)
  \/ (action = "spin_out" /\ spin_out_phase s' = Some ramp
      /\ drill_end_time s' = if Rgtb (drill_end_time s) t_cancel then 0 else drill_end_time s)
  \/ (action = "reset" /\ spin_out_phase s' = None /\ drill_end_time s' = 0)
  \/ (spin_out_phase s' = spin_out_phase s /\ drill_end_time s' = drill_end_time s).
Proof.
  cbv zeta. unfold manipulate.
  destruct (String.eqb_spec action "shrink"); [right; right; right; cbn; auto |].
  destruct (String.eqb_spec action "spin_out").
  { right; left. cbn. split; [assumption | split; [reflexivity |]].
    peel. unfold _cancel_drill. case_if; cbn; reflexivity. }
  destruct (String.eqb_spec action "drill").
  { left. cbn. split; [assumption | split; [apply cancel_spin_out_phase | reflexivity]]. }
  destruct (String.eqb_spec action "corner_trap"); [right; right; right; cbn; auto |].
  destruct (String.eqb_spec action "color").
  { right; right; right.
    destruct (py_get _ "color" _) as [err | [| | | | c | |]]; cbn; auto. }
  destruct (String.eqb_spec action "opacity").
  { right; right; right.
    destruct (py_get _ "opacity" _) as [err | v]; cbn; auto.
    destruct (py_float str_to_float v); cbn; auto. }
  destruct (String.eqb_spec action "googly_eyes").
  { right; right; right.
    destruct (py_get _ "enabled" _) as [err | v]; cbn; auto. }
  destruct (String.eqb_spec action "reset").
  { right; right; left. cbn. auto. }
  right; right; right. cbn. auto.
Qed.

(** In every reachable state the clock and the drill timer are not
    negative, and a running spin-out meets no drill timer in the future. *)
Lemma reachable_invariant (self : ClaudeScreensaver) (t : R) :
  reachable str_to_float self t ->
  0 <= t /\ 0 <= drill_end_time (state self)
  /\ (spin_out_phase (state self) = None \/ drill_end_time (state self) <= t).
Proof.
  induction 1 as [width height | self t e Hreach [Ht [Hd Hinv]] Hfirst Hlast].
  - cbn. split; [lra | split; [lra | left; reflexivity]].
  - destruct e as [fr | action parameters current_time t_cancel]; cbn in *.
    + rewrite drill_end_time_update.
      pose proof (spin_out_update self fr) as Hspin. cbv zeta in Hspin.
      split; [lra |]. split; [case_if; lra |].
      destruct (spin_out_phase (state self)) as [ph |] eqn:Hphase.
      * right. destruct Hinv as [Hinv | Hinv]; [discriminate Hinv |].
        case_if; lra.
      * left. apply Hspin.
    + destruct (manipulate_timers self action parameters current_time t_cancel)
        as [[_ [Hp Hdr]] | [[_ [Hp Hdr]] | [[_ [Hp Hdr]] | [Hp Hdr]]]];
        cbv zeta in *; rewrite Hp, Hdr.
      * split; [lra | split; [lra | left; reflexivity]].
      * split; [lra |].
        destruct (Rgtb_spec (drill_end_time (state self)) t_cancel);
          (split; [lra | right; lra]).
      * split; [lra | split; [lra | left; reflexivity]].
      * split; [lra | split; [lra |]].
        destruct Hinv as [Hinv | Hinv]; [left; exact Hinv | right; lra].
Qed.

End CommandFacts.

(** ** C1: spin-out and drill *)

Lemma spin_out_cancels_running_drill (str_to_float : string -> option R)
    (self : ClaudeScreensaver) (parameters : PyVal) (current_time t_cancel : R) :
  let s' := state (fst (manipulate str_to_float self "spin_out" parameters
                          current_time t_cancel)) in
  let s := state self in
  spin_out_phase s' = Some ramp /\ rotation_speed s' = 1.0
  /\ spin_out_ramp_start s' = current_time /\ effect_active s' = Some spin_out
  /\ (t_cancel < drill_end_time s ->
      drill_end_time s' = 0 /\ vx s' = drill_saved_vx s /\ vy s' = drill_saved_vy s)
  /\ (drill_end_time s <= t_cancel ->
      drill_end_time s' = drill_end_time s /\ vx s' = vx s /\ vy s' = vy s).
Proof.
  cbn. repeat peel. unfold _cancel_drill.
  repeat (split; [reflexivity |]). split; intros H.
  - rewrite (Rgtb_true _ _ H). cbn. auto.
  - rewrite (Rgtb_false _ _ H). auto.
Qed.

Lemma drill_cancels_spin_out (str_to_float : string -> option R)
    (self : ClaudeScreensaver) (parameters : PyVal) (current_time t_cancel : R) :
  let s' := state (fst (manipulate str_to_float self "drill" parameters
                          current_time t_cancel)) in
  let s := state self in
  spin_out_phase s' = None /\ drill_end_time s' = current_time + 3.0
  /\ rotation_speed s' = 10.0 /\ effect_active s' = Some drill
  /\ drill_saved_vx s' = vx s /\ drill_saved_vy s' = vy s
  /\ vx s' = 0 /\ vy s' = 0.
Proof.
  cbn. repeat peel. rewrite cancel_spin_out_phase. repeat split; reflexivity.
Qed.

(** C1 (amended). In every reachable state a running spin-out
    ([spin_out_phase] not [None]) meets no drill timer that is still in the
    future: [drill_end_time] is at most the last clock reading (so it is 0
    or has elapsed), and after every frame one of the two is cleared.
    [manipulate("spin_out")] cancels a drill whose timer is after the clock
    (timer cleared, drill-saved velocity restored) before it sets its own
    fields, and leaves an elapsed timer to the next frame;
    [manipulate("drill")] clears a running spin-out before it sets its own
    fields. *)
Theorem spin_out_drill_exclusion (str_to_float : string -> option R)
    (self : ClaudeScreensaver) (t : R) :
  reachable str_to_float self t ->
  (spin_out_phase (state self) = None \/ drill_end_time (state self) <= t)
  /\ (forall fr : Frame,
        t <= t_heartbeat fr -> t_heartbeat fr <= t_effects fr ->
        spin_out_phase (state (update self fr)) = None
        \/ drill_end_time (state (update self fr)) = 0)
  /\ (forall (parameters : PyVal) (current_time t_cancel : R),
        let s' := state (fst (manipulate str_to_float self "spin_out" parameters
                                current_time t_cancel)) in
        spin_out_phase s' = Some ramp /\ rotation_speed s' = 1.0
        /\ (t_cancel < drill_end_time (state self) ->
            drill_end_time s' = 0
            /\ vx s' = drill_saved_vx (state self) /\ vy s' = drill_saved_vy (state self))
        /\ (drill_end_time (state self) <= t_cancel ->
            drill_end_time s' = drill_end_time (state self)))
  /\ (forall (parameters : PyVal) (current_time t_cancel : R),
        let s' := state (fst (manipulate str_to_float self "drill" parameters
                                current_time t_cancel)) in
        spin_out_phase s' = None /\ drill_end_time s' = current_time + 3.0
        /\ rotation_speed s' = 10.0).
Proof.
  intros Hreach.
  destruct (reachable_invariant str_to_float self t Hreach) as [Ht [Hd Hinv]].
  split; [exact Hinv |]. split; [| split].
  - intros fr Hhb Heff.
    rewrite drill_end_time_update.
    pose proof (spin_out_update self fr) as Hspin. cbv zeta in Hspin.
    destruct (spin_out_phase (state self)) as [ph |] eqn:Hphase.
    + right. destruct Hinv as [Hinv | Hinv]; [discriminate Hinv |].
      unfold drill_expires.
      destruct (Rgtb_spec (drill_end_time (state self)) 0) as [Hpos | Hneg]; cbn.
      * rewrite Rgeb_true by lra. reflexivity.
      * lra.
    + left. apply Hspin.
  - intros parameters current_time t_cancel.
    pose proof (spin_out_cancels_running_drill str_to_float self parameters
                  current_time t_cancel) as H.
    cbv zeta in *. intuition.
  - intros parameters current_time t_cancel.
    pose proof (drill_cancels_spin_out str_to_float self parameters
                  current_time t_cancel) as H.
    cbv zeta in *. intuition.
Qed.

Lemma spin_out_drill_exclusion_witness :
  (spin_out_phase (state (initialize 1280 720)) = None
   \/ drill_end_time (state (initialize 1280 720)) <= 0)
  /\ (forall fr : Frame,
        0 <= t_heartbeat fr -> t_heartbeat fr <= t_effects fr ->
        spin_out_phase (state (update (initialize 1280 720) fr)) = None
        \/ drill_end_time (state (update (initialize 1280 720) fr)) = 0)
  /\ (forall (parameters : PyVal) (current_time t_cancel : R),
        let s' := state (fst (manipulate no_float (initialize 1280 720) "spin_out"
                                parameters current_time t_cancel)) in
        spin_out_phase s' = Some ramp /\ rotation_speed s' = 1.0
        /\ (t_cancel < drill_end_time (state (initialize 1280 720)) ->
            drill_end_time s' = 0
            /\ vx s' = drill_saved_vx (state (initialize 1280 720))
            /\ vy s' = drill_saved_vy (state (initialize 1280 720)))
        /\ (drill_end_time (state (initialize 1280 720)) <= t_cancel ->
            drill_end_time s' = drill_end_time (state (initialize 1280 720))))
  /\ (forall (parameters : PyVal) (current_time t_cancel : R),
        let s' := state (fst (manipulate no_float (initialize 1280 720) "drill"
                                parameters current_time t_cancel)) in
        spin_out_phase s' = None /\ drill_end_time s' = current_time + 3.0
        /\ rotation_speed s' = 10.0).
Proof.
  exact (spin_out_drill_exclusion no_float (initialize 1280 720) 0
           (reachable_initialize no_float 1280 720)).
Defined.

(** C1 as stated fails: a drill started at 100 has its timer at 103; a
    spin-out requested at 103, before the next frame, finds the timer not
    after the clock and leaves it, so the reachable state has the phase
    [ramp] and a positive [drill_end_time]. *)
Lemma spin_out_with_drill_timer_set :
  let s1 := step no_float (initialize 1280 720) (Command "drill" VNone 100 100) in
  let s2 := step no_float s1 (Command "spin_out" VNone 103 103) in
  reachable no_float s2 103
  /\ spin_out_phase (state s2) = Some ramp
  /\ drill_end_time (state s2) = 100 + 3.0
  /\ drill_end_time (state s2) > 0.
Proof.
  cbv zeta. split.
  - apply (reachable_step _ _ 100 (Command "spin_out" VNone 103 103));
      [| cbn; lra | cbn; lra].
    apply (reachable_step _ _ 0 (Command "drill" VNone 100 100));
      [| cbn; lra | cbn; lra].
    apply reachable_initialize.
  - assert (H : drill_end_time
                  (state (step no_float
                            (step no_float (initialize 1280 720)
                               (Command "drill" VNone 100 100))
                            (Command "spin_out" VNone 103 103))) = 100 + 3.0).
    { cbn. repeat peel. unfold _cancel_drill. cbn.
      rewrite Rgtb_false by lra. reflexivity. }
    split; [reflexivity |]. split; [exact H | rewrite H; lra].
Qed.

(** ** Rotation over a frame *)

(** [rotation_angle] grows by the [rotation_speed] the frame ends with. *)
Lemma rotation_angle_update (self : ClaudeScreensaver) (fr : Frame) :
  rotation_angle (state (update self fr)) =
  rotation_angle (state self) + rotation_speed (state (update self fr)).
Proof.
  assert (H : forall s,
    rotation_angle (state (update_scale_and_rotation s)) =
    rotation_angle (state s) + rotation_speed (state s)).
  { intros s. unfold update_scale_and_rotation. case_if; cbn; reflexivity. }
  open_update. repeat peel. rewrite H. repeat peel. reflexivity.
Qed.

(** ** C2: reset *)

Lemma reset_state_idempotent (self : ClaudeScreensaver) :
  _reset_state (_reset_state self) = _reset_state self.
Proof. destruct self as [w h []]. record_compute. reflexivity. Qed.

(** C2 (amended). [manipulate("reset")] returns normally, is idempotent,
    and from every state sets scale (current and target) to 1, rotation
    speed to 0.5, color to the default, opacity to 1, clears the effect tag,
    the trap flag, the spin-out phase and the four end times, sets the
    velocity to (0.5, 0.5), disables the eyes and resets both eyes to angle
    pi/2 with zero velocity. It leaves the position, the rotation angle,
    the heartbeat pulse and the wall impact as they were, so [get_status]
    after a reset shows the defaults in every entry except those four (and
    the display size, which no command changes). *)
Theorem reset_restores_listed_defaults (str_to_float : string -> option R)
    (self : ClaudeScreensaver) (parameters : PyVal) (current_time t_cancel : R) :
  let result := manipulate str_to_float self "reset" parameters current_time t_cancel in
  let self' := fst result in
  let s' := state self' in
  let s := state self in
  snd result = Returned
  /\ (forall (parameters' : PyVal) (current_time' t_cancel' : R),
        manipulate str_to_float self' "reset" parameters' current_time' t_cancel'
        = (self', Returned))
  /\ (current_scale s' = 1 /\ target_scale s' = 1 /\ rotation_speed s' = 0.5
      /\ color s' = DEFAULT_COLOR /\ opacity s' = 1)
  /\ (effect_active s' = None /\ corner_trapped s' = false /\ spin_out_phase s' = None
      /\ shrink_end_time s' = 0 /\ color_end_time s' = 0 /\ opacity_end_time s' = 0
      /\ drill_end_time s' = 0)
  /\ (vx s' = 0.5 /\ vy s' = 0.5 /\ eyes_enabled s' = false)
  /\ (angle (left_eye s') = PI / 2 /\ velocity (left_eye s') = 0
      /\ angle (right_eye s') = PI / 2 /\ velocity (right_eye s') = 0)
  /\ (x s' = x s /\ y s' = y s /\ rotation_angle s' = rotation_angle s
      /\ heartbeat_pulse s' = heartbeat_pulse s /\ wall_impact s' = wall_impact s)
  /\ get_status self' =
     {| status_position := (x s, y s);
        status_velocity := (0.5, 0.5);
        status_scale := 1.0;
        status_rotation := rotation_angle s;
        status_rotation_speed := 0.5;
        status_color := DEFAULT_COLOR;
        status_opacity := 1.0;
        status_effect_active := None;
        status_corner_trapped := false;
        status_eyes_enabled := false;
        status_heartbeat_pulse := heartbeat_pulse s;
        status_wall_impact := wall_impact s;
        status_display_size := (display_width self, display_height self) |}.
Proof.
  destruct self as [w h []]. record_compute.
  repeat split; try reflexivity; lra.
Qed.

(** C2 as stated fails: one frame after start-up the rotation angle is
    0.5; a reset leaves it, so the status after the reset differs from the
    status of a fresh object, whose rotation is 0. *)
Lemma reset_keeps_rotation_angle :
  let fr := {| t_heartbeat := 1; t_effects := 1; rand_x := 0; rand_y := 0 |} in
  let self := update (initialize 1280 720) fr in
  let self' := fst (manipulate no_float self "reset" VNone 2 2) in
  status_rotation (get_status self') = 0.5
  /\ status_rotation (get_status (initialize 1280 720)) = 0
  /\ get_status self' <> get_status (initialize 1280 720).
Proof.
  cbv zeta.
  assert (H : status_rotation
                (get_status
                   (fst (manipulate no_float
                           (update (initialize 1280 720)
                              {| t_heartbeat := 1; t_effects := 1; rand_x := 0; rand_y := 0 |})
                           "reset" VNone 2 2))) = 0.5).
  { cbn. rewrite rotation_angle_update.
    pose proof (spin_out_update (initialize 1280 720)
                  {| t_heartbeat := 1; t_effects := 1; rand_x := 0; rand_y := 0 |}) as Hspin.
    cbn in Hspin. destruct Hspin as [_ Hrot]. rewrite Hrot.
    unfold rotation_speed_after_drill, drill_expires. cbn.
    rewrite Rgtb_false by lra. cbn. lra. }
  split; [exact H |]. split; [cbn; lra |].
  intros Heq. apply (f_equal status_rotation) in Heq. rewrite H in Heq. cbn in Heq. lra.
Qed.

(** ** The state at [# Update position] *)

(** The position step and the eye step keep what the effects decided. *)
Lemma update_after_position (self : ClaudeScreensaver) (fr : Frame) :
  let s' := state (update self fr) in
  let b := state (update_before_position self fr) in
  drill_end_time s' = drill_end_time b /\ corner_trapped s' = corner_trapped b
  /\ spin_out_phase s' = spin_out_phase b /\ rotation_speed s' = rotation_speed b
  /\ effect_active s' = effect_active b.
Proof.
  cbv zeta. unfold update. repeat peel. repeat split; reflexivity.
Qed.

Lemma before_position_keeps (self : ClaudeScreensaver) (fr : Frame) :
  let b := state (update_before_position self fr) in
  let s := state self in
  x b = x s /\ y b = y s
  /\ trap_corner_x b = trap_corner_x s /\ trap_corner_y b = trap_corner_y s.
Proof.
  cbv zeta. unfold update_before_position, _update_effects. repeat peel.
  repeat split; reflexivity.
Qed.

Lemma drill_end_time_before_position (self : ClaudeScreensaver) (fr : Frame) :
  drill_end_time (state (update_before_position self fr)) =
  if drill_expires self (t_effects fr) then 0 else drill_end_time (state self).
Proof.
  destruct (update_after_position self fr) as [H _]. rewrite <- H.
  apply drill_end_time_update.
Qed.

Lemma corner_trapped_before_position (self : ClaudeScreensaver) (fr : Frame) :
  corner_trapped (state (update_before_position self fr)) =
  if trap_expires self (t_effects fr) then false else corner_trapped (state self).
Proof.
  destruct (update_after_position self fr) as [_ [H _]]. rewrite <- H.
  apply corner_trapped_update.
Qed.

(** ** C6: unknown actions *)

Lemma not_valid_action (action : string) :
  ~ In action valid_actions -> existsb (String.eqb action) valid_actions = false.
Proof.
  intros Hnot. destruct (existsb (String.eqb action) valid_actions) eqn:E; [| reflexivity].
  apply existsb_exists in E. destruct E as [a [Hin Heq]].
  apply String.eqb_eq in Heq. subst a. contradiction.
Qed.

Lemma not_in_valid_actions_true (action : string) :
  ~ In action valid_actions -> not_in_valid_actions (VStr action) = true.
Proof.
  intros Hnot. unfold not_in_valid_actions. rewrite (not_valid_action action Hnot). reflexivity.
Qed.

Arguments not_in_valid_actions : simpl never.

Lemma manipulate_unknown_action (str_to_float : string -> option R)
    (self : ClaudeScreensaver) (action : string) (parameters : PyVal)
    (current_time t_cancel : R) :
  ~ In action valid_actions ->
  manipulate str_to_float self action parameters current_time t_cancel = (self, Returned).
Proof.
  intros Hnot. unfold manipulate.
  repeat match goal with
         | |- context [String.eqb action ?a] =>
             destruct (String.eqb_spec action a) as [-> | _];
             [exfalso; apply Hnot; cbn; tauto |]
         end.
  reflexivity.
Qed.

(** C6. For an action string outside the eight valid ones and any
    parameters, [manipulate_star] answers with status 400 and an error body
    and the object is the one it was; called directly, [manipulate] also
    leaves the object as it was. *)
Theorem unknown_action_is_request_error (str_to_float : string -> option R)
    (self : ClaudeScreensaver) (action : string) (body : gmap string PyVal)
    (current_time t_cancel : R) :
  ~ In action valid_actions ->
  body !! "action" = Some (VStr action) ->
  manipulate_star str_to_float (Some self) (VDict body) current_time t_cancel =
    (Json 400 (error_body (if String.eqb action EmptyString
                           then "Missing action parameter"
                           else invalid_action_message)),
     Some self)
  /\ (forall parameters : PyVal,
        manipulate str_to_float self action parameters current_time t_cancel
        = (self, Returned)).
Proof.
  intros Hnot Haction. split.
  - unfold manipulate_star, py_or.
    assert (Hdata : (if truthy (VDict body) then VDict body else VDict ∅) = VDict body).
    { cbn. destruct (bool_decide (body = ∅)) eqn:E; cbn; [| reflexivity].
      apply bool_decide_eq_true in E. rewrite E. reflexivity. }
    rewrite Hdata. cbn. rewrite Haction. cbn.
    destruct (String.eqb action EmptyString); cbn; [reflexivity |].
    rewrite (not_in_valid_actions_true action Hnot). reflexivity.
  - intros parameters. apply manipulate_unknown_action. exact Hnot.
Qed.

Lemma unknown_action_is_request_error_witness :
  manipulate_star no_float (Some (initialize 1280 720))
    (VDict (<["action" := VStr "explode"]> {[ "parameters" := VDict ∅ ]})) 100 100 =
    (Json 400 (error_body invalid_action_message), Some (initialize 1280 720))
  /\ (forall parameters : PyVal,
        manipulate no_float (initialize 1280 720) "explode" parameters 100 100
        = (initialize 1280 720, Returned)).
Proof.
  apply (unknown_action_is_request_error no_float (initialize 1280 720) "explode"
           (<["action" := VStr "explode"]> {[ "parameters" := VDict ∅ ]}) 100 100).
  - cbn. intros H. repeat (destruct H as [H | H]; [discriminate H |]). exact H.
  - reflexivity.
Defined.

(** ** C7: opacity and color parameters *)

Lemma clamp_is_Rmax_Rmin (r : R) : py_max 0.0 (py_min 1.0 r) = Rmax 0 (Rmin 1 r).
Proof.
  unfold py_max, py_min, Rmax, Rmin.
  destruct (Rltb_spec r 1.0); destruct (Rle_dec 1 r); try lra;
    match goal with |- context [Rgtb ?a ?b] => destruct (Rgtb_spec a b) end;
    match goal with |- context [Rle_dec ?a ?b] => destruct (Rle_dec a b) end; lra.
Qed.



Lemma single_parameter (k : string) (v d : PyVal) :
  py_get (py_or (VDict {[ k := v ]}) (VDict ∅)) k d = inr v.
Proof.
  unfold py_or. cbn [truthy].
  rewrite bool_decide_eq_false_2 by apply map_non_empty_singleton.
  cbn. rewrite lookup_singleton_eq. reflexivity.
Qed.

Lemma clamp_in_range (r : R) : 0 <= Rmax 0 (Rmin 1 r) <= 1.
Proof. unfold Rmax, Rmin. destruct (Rle_dec 1 r); destruct (Rle_dec 0 _); lra. Qed.




(** ** C8: wall impact *)

(** C8. Over a frame the wall impact becomes 0.02 if the frame hits a
    wall and 0.85 times its value otherwise; over [n] frames none of which
    hits a wall it is the initial value times [0.85 ^ n]. *)
Theorem wall_impact_decays (frames : list Frame) (self : ClaudeScreensaver) :
  no_wall_hit frames self ->
  wall_impact (state (run_frames frames self))
  = wall_impact (state self) * 0.85 ^ length frames
  /\ (forall fr : Frame,
        wall_impact (state (update self fr)) =
        if frame_hits_wall self fr then 0.02 else wall_impact (state self) * 0.85).
Proof.
  intros Hno. split; [| intros fr; apply wall_impact_update].
  revert self Hno. induction frames as [| fr frames IH]; intros self Hno.
  - cbn. lra.
  - destruct Hno as [Hfr Hrest]. cbn [run_frames fold_left length pow].
    change (fold_left update frames (update self fr)) with (run_frames frames (update self fr)).
    rewrite (IH (update self fr) Hrest), wall_impact_update, Hfr. lra.
Qed.

(** ** C9: the three regimes of the position *)

Section Regimes.

Variable str_to_float : string -> option R.

(** C9. In every frame of a reachable state exactly one regime, read off
    the state at [# Update position], decides the position: trapped, the
    position is the trap corner plus the jitter; otherwise with a positive
    drill timer, the position is unchanged; otherwise the bouncing step
    moves it, by the velocity when no wall is hit. *)
Theorem one_position_regime_per_frame (self : ClaudeScreensaver) (t : R) (fr : Frame) :
  reachable str_to_float self t ->
  let before := update_before_position self fr in
  let after := update self fr in
  match regime_of before with
  | corner_trapped_regime =>
      corner_trapped (state before) = true
      /\ x (state after) = trap_corner_x (state self) + (rand_x fr - 0.5) * 40
      /\ y (state after) = trap_corner_y (state self) + (rand_y fr - 0.5) * 40
  | drill_suspended_regime =>
      corner_trapped (state before) = false /\ drill_end_time (state before) > 0
      /\ x (state after) = x (state self) /\ y (state after) = y (state self)
  | free_motion_regime =>
      corner_trapped (state before) = false /\ drill_end_time (state before) = 0
      /\ x (state after) = x (state (_update_bouncing_position before))
      /\ y (state after) = y (state (_update_bouncing_position before))
      /\ (hit_wall before = false ->
          x (state after) = x (state self) + vx (state before)
          /\ y (state after) = y (state self) + vy (state before))
  end.
Proof.
  intros Hreach. cbv zeta.
  destruct (reachable_invariant str_to_float self t Hreach) as [_ [Hd _]].
  assert (Hd' : 0 <= drill_end_time (state (update_before_position self fr))).
  { rewrite drill_end_time_before_position. case_if; lra. }
  destruct (before_position_keeps self fr) as [Hx [Hy [Htx Hty]]]. cbv zeta in *.
  unfold update. repeat peel. unfold regime_of.
  generalize dependent (update_before_position self fr). intros before Hd' Hx Hy Htx Hty.
  destruct (corner_trapped (state before)) eqn:Htrap.
  - destruct (update_position_trapped before (rand_x fr) (rand_y fr) Htrap) as [Hpx Hpy].
    rewrite Hpx, Hpy, Htx, Hty. auto.
  - destruct (Rgtb_spec (drill_end_time (state before)) 0) as [Hpos | Hzero].
    + rewrite update_position_suspended by (try assumption; lra).
      rewrite Hx, Hy. repeat split; try reflexivity; lra.
    + assert (Hz : drill_end_time (state before) = 0) by lra.
      rewrite (update_position_free before _ _ Htrap Hz).
      repeat split; try reflexivity; try assumption.
      * destruct (bouncing_no_hit before H) as [Hbx _]. rewrite Hbx, Hx. reflexivity.
      * destruct (bouncing_no_hit before H) as [_ [Hby _]]. rewrite Hby, Hy. reflexivity.
Qed.

End Regimes.

(** ** Runs of frames *)

Lemma run_frames_cons (fr : Frame) (frames : list Frame) (self : ClaudeScreensaver) :
  run_frames (fr :: frames) self = run_frames frames (update self fr).
Proof. reflexivity. Qed.

Lemma run_frames_snoc (frames : list Frame) (fr : Frame) (self : ClaudeScreensaver) :
  run_frames (frames ++ [fr]) self = update (run_frames frames self) fr.
Proof. unfold run_frames. rewrite fold_left_app. reflexivity. Qed.

Arguments run_frames : simpl never.

(** A property kept by every frame of a list is kept by the run. *)
Lemma run_frames_invariant (P : ClaudeScreensaver -> Prop) (ok : Frame -> Prop) :
  (forall self fr, P self -> ok fr -> P (update self fr)) ->
  forall frames self, P self -> Forall ok frames -> P (run_frames frames self).
Proof.
  intros Hstep frames. induction frames as [| fr frames IH]; intros self HP Hok.
  - exact HP.
  - rewrite run_frames_cons.
    apply IH; [apply Hstep; [exact HP | exact (Forall_inv Hok)] | exact (Forall_inv_tail Hok)].
Qed.

(** ** C5: spin-out *)

Section SpinOut.

Variable t0 : R.
Variable t_cancel : R.

Lemma spin_out_phase_none_stays (self : ClaudeScreensaver) (fr : Frame) :
  spin_out_phase (state self) = None -> spin_out_phase (state (update self fr)) = None.
Proof.
  intros H. pose proof (spin_out_update self fr) as Hspin. cbv zeta in Hspin.
  rewrite H in Hspin. apply Hspin.
Qed.

Lemma spinning_effect_tag (self : ClaudeScreensaver) (fr : Frame) :
  effect_active (state self) = Some spin_out ->
  effect_active (state (update self fr)) =
  if spin_out_ends self (t_effects fr) then None else Some spin_out.
Proof.
  intros H. rewrite effect_active_update. cbv zeta. rewrite H. unfold clear_effect.
  destruct (shrink_expires self (t_effects fr)), (drill_expires self (t_effects fr)),
    (trap_expires self (t_effects fr)), (spin_out_ends self (t_effects fr)); reflexivity.
Qed.

Lemma spinning_frame (self : ClaudeScreensaver) (fr : Frame) :
  spinning t0 t_cancel self -> t_cancel <= t_effects fr ->
  spinning t0 t_cancel (update self fr) /\ drill_end_time (state (update self fr)) <= 0.
Proof.
  intros [Hstart [Htag Hd]] Ht.
  destruct (update_keeps_saved self fr) as [_ [_ [_ [_ [_ [Hramp _]]]]]]. cbv zeta in Hramp.
  assert (Hdrill : drill_end_time (state (update self fr)) <= 0).
  { rewrite drill_end_time_update. unfold drill_expires.
    destruct (Rgtb_spec (drill_end_time (state self)) 0) as [Hpos | Hneg]; cbn.
    - rewrite Rgeb_true by lra. lra.
    - lra. }
  split; [| exact Hdrill]. split; [rewrite Hramp; exact Hstart |].
  split; [| left; exact Hdrill].
  intros Hphase.
  pose proof (spin_out_update self fr) as Hspin. cbv zeta in Hspin.
  destruct (spin_out_phase (state self)) as [ph |] eqn:Hph.
  - rewrite spinning_effect_tag by (apply Htag; discriminate).
    unfold spin_out_ends. rewrite Hph.
    destruct ph; cbn; [reflexivity |].
    destruct (Rltb (rotation_speed_after_drill self (t_effects fr) * 0.992) 0.1);
      [| reflexivity].
    destruct Hspin as [Hnone _]. contradiction.
  - destruct Hspin as [Hnone _]. contradiction.
Qed.

Lemma spinning_run (frames : list Frame) (self : ClaudeScreensaver) :
  spinning t0 t_cancel self -> Forall (fun fr => t_cancel <= t_effects fr) frames ->
  spinning t0 t_cancel (run_frames frames self)
  /\ (frames <> [] -> drill_end_time (state (run_frames frames self)) <= 0).
Proof.
  revert self. induction frames as [| fr frames IH]; intros self Hspin Hok.
  - split; [exact Hspin | intros H; contradiction].
  - pose proof (Forall_inv Hok) as Hfr. pose proof (Forall_inv_tail Hok) as Hrest.
    cbv beta in Hfr. rewrite run_frames_cons.
    destruct (spinning_frame self fr Hspin Hfr) as [Hspin' Hd'].
    destruct (IH (update self fr) Hspin' Hrest) as [Hrun Hlater].
    split; [exact Hrun |]. intros _.
    destruct frames as [| fr' frames']; [exact Hd' | apply Hlater; discriminate].
Qed.

Lemma ramp_run (frames : list Frame) (self : ClaudeScreensaver) :
  spin_out_phase (state self) = Some ramp ->
  spin_out_ramp_start (state self) = t0 ->
  Forall (fun fr => t_effects fr - t0 < 2.0) frames ->
  spin_out_phase (state (run_frames frames self)) = Some ramp.
Proof.
  revert self. induction frames as [| fr frames IH]; intros self Hphase Hstart Hok.
  - exact Hphase.
  - pose proof (Forall_inv Hok) as Hfr. pose proof (Forall_inv_tail Hok) as Hrest.
    cbv beta in Hfr. rewrite run_frames_cons.
    pose proof (spin_out_update self fr) as Hspin. cbv zeta in Hspin.
    rewrite Hphase, Hstart, Rltb_true in Hspin by exact Hfr.
    destruct (update_keeps_saved self fr) as [_ [_ [_ [_ [_ [Hramp _]]]]]]. cbv zeta in Hramp.
    apply IH; [apply Hspin | rewrite Hramp; exact Hstart | exact Hrest].
Qed.

End SpinOut.

(** C5. After [manipulate("spin_out")] at [t0] and any frames later than
    the command: as long as every frame so far had [elapsed < 2] the phase
    is [ramp], and a frame with [elapsed < 2] sets the rotation speed to
    [1.0 + elapsed * 5.0] (below 11); the first frame with [elapsed >= 2]
    switches the phase to [decay]; a frame in the decay phase multiplies
    the rotation speed by 0.992 and, once the product is below 0.1, sets
    the speed to 0.5, the phase to [None] and clears the effect tag. *)
Theorem spin_out_ramp_then_decay (str_to_float : string -> option R)
    (self : ClaudeScreensaver) (parameters : PyVal) (t0 t_cancel : R)
    (frames : list Frame) (fr : Frame) :
  Forall (fun fr' => t_cancel <= t_effects fr') (frames ++ [fr]) ->
  let started := fst (manipulate str_to_float self "spin_out" parameters t0 t_cancel) in
  let before := run_frames frames started in
  let after := update before fr in
  let elapsed := t_effects fr - t0 in
  (spin_out_phase (state started) = Some ramp /\ rotation_speed (state started) = 1.0
   /\ effect_active (state started) = Some spin_out)
  /\ (Forall (fun fr' => t_effects fr' - t0 < 2.0) frames ->
      spin_out_phase (state before) = Some ramp)
  /\ (spin_out_phase (state before) = Some ramp -> elapsed < 2.0 ->
      spin_out_phase (state after) = Some ramp
      /\ rotation_speed (state after) = 1.0 + elapsed * 5.0
      /\ rotation_speed (state after) < 11)
  /\ (spin_out_phase (state before) = Some ramp -> 2.0 <= elapsed ->
      spin_out_phase (state after) = Some decay)
  /\ (spin_out_phase (state before) = Some decay ->
      0.1 <= rotation_speed (state before) * 0.992 ->
      spin_out_phase (state after) = Some decay
      /\ rotation_speed (state after) = rotation_speed (state before) * 0.992)
  /\ (spin_out_phase (state before) = Some decay ->
      rotation_speed (state before) * 0.992 < 0.1 ->
      spin_out_phase (state after) = None
      /\ rotation_speed (state after) = 0.5
      /\ effect_active (state after) = None).
Proof.
  intros Hok. cbv zeta.
  apply Forall_app in Hok. destruct Hok as [Hok _].
  destruct (spin_out_cancels_running_drill str_to_float self parameters t0 t_cancel)
    as [Hphase [Hrot [Hstart [Htag [Hcancel Hkeep]]]]]. cbv zeta in *.
  set (started := fst (manipulate str_to_float self "spin_out" parameters t0 t_cancel)) in *.
  assert (Hspinning : spinning t0 t_cancel started).
  { split; [exact Hstart |]. split; [intros _; exact Htag |].
    destruct (Rle_lt_dec (drill_end_time (state self)) t_cancel) as [Hle | Hlt].
    - destruct (Hkeep Hle) as [Hd _]. rewrite Hd. right. exact Hle.
    - destruct (Hcancel Hlt) as [Hd _]. rewrite Hd. left. lra. }
  destruct (spinning_run t0 t_cancel frames started Hspinning Hok)
    as [[Hstart' [Htag' Hd']] Hlater].
  pose proof (spin_out_update (run_frames frames started) fr) as Hspin. cbv zeta in Hspin.
  rewrite Hstart' in Hspin.
  split; [auto |]. split; [| split; [| split; [| split]]].
  - intros Hramp. apply (ramp_run t0); assumption.
  - intros Hbefore Helapsed. rewrite Hbefore, Rltb_true in Hspin by exact Helapsed.
    destruct Hspin as [Hp Hr]. rewrite Hp, Hr. repeat split; lra.
  - intros Hbefore Helapsed. rewrite Hbefore, Rltb_false in Hspin by exact Helapsed.
    apply Hspin.
  - intros Hbefore Hrate.
    assert (Hne : frames <> []).
    { intros ->. change (run_frames [] started) with started in Hbefore.
      rewrite Hphase in Hbefore. discriminate Hbefore. }
    assert (Hafter : rotation_speed_after_drill (run_frames frames started) (t_effects fr)
                     = rotation_speed (state (run_frames frames started))).
    { unfold rotation_speed_after_drill, drill_expires.
      rewrite Rgtb_false by (apply Hlater; exact Hne). reflexivity. }
    rewrite Hbefore, Hafter, Rltb_false in Hspin by exact Hrate. exact Hspin.
  - intros Hbefore Hrate.
    assert (Hne : frames <> []).
    { intros ->. change (run_frames [] started) with started in Hbefore.
      rewrite Hphase in Hbefore. discriminate Hbefore. }
    assert (Hafter : rotation_speed_after_drill (run_frames frames started) (t_effects fr)
                     = rotation_speed (state (run_frames frames started))).
    { unfold rotation_speed_after_drill, drill_expires.
      rewrite Rgtb_false by (apply Hlater; exact Hne). reflexivity. }
    pose proof Hspin as Hspin'.
    rewrite Hbefore, Hafter, Rltb_true in Hspin' by exact Hrate.
    destruct Hspin' as [Hp Hr]. rewrite Hp, Hr. split; [reflexivity |].
    split; [unfold default_rotation_speed; reflexivity |].
    rewrite spinning_effect_tag by (apply Htag'; rewrite Hbefore; discriminate).
    unfold spin_out_ends. rewrite Hbefore, Hafter, Rltb_true by exact Hrate. reflexivity.
Qed.

(** ** C3: the drill round trip *)

Section Drill.

Variables t_end vx0 vy0 start0 : R.
Variable trapped0 : bool.
Hypothesis t_end_positive : 0 < t_end.

Lemma drilling_effect_tag (self : ClaudeScreensaver) (fr : Frame) :
  effect_active (state self) = Some drill ->
  spin_out_phase (state self) = None ->
  effect_active (state (update self fr)) =
  if drill_expires self (t_effects fr) then None else Some drill.
Proof.
  intros Htag Hphase. rewrite effect_active_update. cbv zeta. rewrite Htag.
  unfold clear_effect, spin_out_ends. rewrite Hphase.
  destruct (shrink_expires self (t_effects fr)), (drill_expires self (t_effects fr)),
    (trap_expires self (t_effects fr)); reflexivity.
Qed.

Lemma drilling_frame (self : ClaudeScreensaver) (fr : Frame) :
  drilling t_end vx0 vy0 start0 trapped0 self ->
  t_effects fr < t_end ->
  drilling t_end vx0 vy0 start0 trapped0 (update self fr).
Proof.
  intros [Hend [Hsx [Hsy [Hphase [Htag [Hstart Htrap]]]]]] Ht.
  destruct (update_keeps_saved self fr) as [Hx [Hy [_ [_ [Hs _]]]]]. cbv zeta in *.
  assert (Hno : drill_expires self (t_effects fr) = false).
  { unfold drill_expires. rewrite Hend, Rgeb_false by lra. apply andb_false_r. }
  unfold drilling.
  rewrite drill_end_time_update, Hno, Hx, Hy, Hs.
  rewrite (spin_out_phase_none_stays self fr Hphase).
  rewrite (drilling_effect_tag self fr Htag Hphase), Hno.
  repeat (split; [assumption || reflexivity |]).
  rewrite corner_trapped_update. destruct (trap_expires self (t_effects fr));
    [discriminate | exact Htrap].
Qed.

Lemma drilling_expiry (self : ClaudeScreensaver) (fr : Frame) :
  drilling t_end vx0 vy0 start0 trapped0 self ->
  t_end <= t_effects fr ->
  let restored := update_before_position self fr in
  let after := update self fr in
  (drill_end_time (state after) = 0 /\ rotation_speed (state after) = 0.5
   /\ effect_active (state after) = None)
  /\ (trap_expires self (t_effects fr) = false ->
      (vx (state restored) = vx0 /\ vy (state restored) = vy0)
      /\ (Rabs (vx (state after)) = Rabs vx0 /\ Rabs (vy (state after)) = Rabs vy0)
      /\ (corner_trapped (state restored) = true \/ hit_wall restored = false ->
          vx (state after) = vx0 /\ vy (state after) = vy0)).
Proof.
  intros [Hend [Hsx [Hsy [Hphase [Htag [Hstart Htrap]]]]]] Ht. cbv zeta.
  assert (Hyes : drill_expires self (t_effects fr) = true).
  { unfold drill_expires. rewrite Hend, Rgtb_true, Rgeb_true by lra. reflexivity. }
  split.
  - rewrite drill_end_time_update, Hyes.
    rewrite (drilling_effect_tag self fr Htag Hphase), Hyes.
    pose proof (spin_out_update self fr) as Hspin. cbv zeta in Hspin.
    rewrite Hphase in Hspin. destruct Hspin as [_ Hrot]. rewrite Hrot.
    unfold rotation_speed_after_drill. rewrite Hyes.
    repeat split; reflexivity.
  - intros Hno.
    destruct (velocity_before_position self fr) as [Hvx Hvy]. cbv zeta in *.
    rewrite Hno, Hyes, Hsx in Hvx. rewrite Hno, Hyes, Hsy in Hvy.
    split; [split; assumption |].
    unfold update. repeat peel.
    destruct (update_position_velocity (update_before_position self fr)
                (rand_x fr) (rand_y fr)) as [Hax [Hay Hexact]]. cbv zeta in *.
    rewrite Hvx in Hax, Hexact. rewrite Hvy in Hay, Hexact.
    split; [split; assumption |].
    intros [H | H]; apply Hexact; auto.
Qed.

End Drill.

(** C3 (amended). After [manipulate("drill")] at [t0] and frames before
    [t0 + 3], the first frame at or after [t0 + 3] clears the drill timer,
    sets the rotation speed to 0.5 and clears the effect tag; and, provided
    no corner trap expires in that frame, its expiry check sets the
    velocity to exactly the velocity saved by the command. The position
    step of that same frame may reflect a component at a wall: after the
    frame each component has the saved magnitude, and the saved value
    itself if the star is trapped or hits no wall. *)
Theorem drill_round_trip (str_to_float : string -> option R)
    (self : ClaudeScreensaver) (parameters : PyVal) (t0 t_cancel : R)
    (frames : list Frame) (fr : Frame) :
  0 <= t0 ->
  Forall (fun fr' => t_effects fr' < t0 + 3.0) frames ->
  t0 + 3.0 <= t_effects fr ->
  let started := fst (manipulate str_to_float self "drill" parameters t0 t_cancel) in
  let before := run_frames frames started in
  let restored := update_before_position before fr in
  let after := update before fr in
  (drill_saved_vx (state started) = vx (state self)
   /\ drill_saved_vy (state started) = vy (state self)
   /\ vx (state started) = 0 /\ vy (state started) = 0
   /\ drill_end_time (state started) = t0 + 3.0)
  /\ (drill_end_time (state after) = 0 /\ rotation_speed (state after) = 0.5
      /\ effect_active (state after) = None)
  /\ (trap_expires before (t_effects fr) = false ->
      (vx (state restored) = vx (state self) /\ vy (state restored) = vy (state self))
      /\ (Rabs (vx (state after)) = Rabs (vx (state self))
          /\ Rabs (vy (state after)) = Rabs (vy (state self)))
      /\ (corner_trapped (state restored) = true \/ hit_wall restored = false ->
          vx (state after) = vx (state self) /\ vy (state after) = vy (state self))).
Proof.
  intros Ht0 Hok Hfr. cbv zeta.
  destruct (drill_cancels_spin_out str_to_float self parameters t0 t_cancel)
    as [Hphase [Hend [_ [Htag [Hsx [Hsy [Hvx Hvy]]]]]]]. cbv zeta in *.
  set (started := fst (manipulate str_to_float self "drill" parameters t0 t_cancel)) in *.
  assert (Hstart : effect_start_time (state started) = effect_start_time (state self)
                   /\ corner_trapped (state started) = corner_trapped (state self)).
  { subst started. cbn. repeat peel. split; reflexivity. }
  assert (Hdrilling : drilling (t0 + 3.0) (vx (state self)) (vy (state self))
                        (effect_start_time (state self)) (corner_trapped (state self))
                        started).
  { unfold drilling. destruct Hstart as [Hs Hc]. rewrite Hc. auto 10. }
  assert (Hbefore : drilling (t0 + 3.0) (vx (state self)) (vy (state self))
                      (effect_start_time (state self)) (corner_trapped (state self))
                      (run_frames frames started)).
  { apply (run_frames_invariant _ (fun fr' => t_effects fr' < t0 + 3.0)); [| assumption ..].
    intros s fr' Hs Hfr'. apply drilling_frame; assumption. }
  split; [auto 10 |].
  apply (drilling_expiry (t0 + 3.0) (vx (state self)) (vy (state self))
           (effect_start_time (state self)) (corner_trapped (state self)));
    [lra | assumption ..].
Qed.

(** ** C10: a drill started during a drill *)

Lemma Rabs_zero_inv (v : R) : Rabs v = Rabs 0 -> v = 0.
Proof.
  rewrite Rabs_R0. intros H. destruct (Req_dec v 0) as [Hz | Hnz]; [exact Hz |].
  apply Rabs_no_R0 in Hnz. contradiction.
Qed.

Lemma still_waiting_frame (self : ClaudeScreensaver) (fr : Frame) :
  still self -> drill_expires self (t_effects fr) = false -> still (update self fr).
Proof.
  intros [Hvx [Hvy Htrap]] Hno.
  assert (Hrelease : trap_expires self (t_effects fr) = false).
  { unfold trap_expires. rewrite Htrap. reflexivity. }
  destruct (velocity_before_position self fr) as [Hbx Hby]. cbv zeta in *.
  rewrite Hrelease, Hno in Hbx, Hby.
  destruct (update_position_velocity (update_before_position self fr)
              (rand_x fr) (rand_y fr)) as [Hax [Hay _]]. cbv zeta in *.
  unfold still. rewrite corner_trapped_update, Hrelease.
  unfold update. repeat peel.
  split; [| split; [| exact Htrap]]; apply Rabs_zero_inv; congruence.
Qed.

Lemma parked_frame (self : ClaudeScreensaver) (fr : Frame) :
  parked self -> parked (update self fr).
Proof.
  intros [[Hvx [Hvy Htrap]] [Hsx Hsy]].
  assert (Hrelease : trap_expires self (t_effects fr) = false).
  { unfold trap_expires. rewrite Htrap. reflexivity. }
  destruct (velocity_before_position self fr) as [Hbx Hby]. cbv zeta in *.
  rewrite Hrelease, Hsx, Hvx in Hbx. rewrite Hrelease, Hsy, Hvy in Hby.
  assert (Hbx0 : vx (state (update_before_position self fr)) = 0)
    by (rewrite Hbx; destruct (drill_expires self (t_effects fr)); reflexivity).
  assert (Hby0 : vy (state (update_before_position self fr)) = 0)
    by (rewrite Hby; destruct (drill_expires self (t_effects fr)); reflexivity).
  destruct (update_position_velocity (update_before_position self fr)
              (rand_x fr) (rand_y fr)) as [Hax [Hay _]]. cbv zeta in *.
  destruct (update_keeps_saved self fr) as [Hkx [Hky _]]. cbv zeta in *.
  unfold parked, still. rewrite corner_trapped_update, Hrelease, Hkx, Hky.
  unfold update. repeat peel.
  repeat split; try assumption; apply Rabs_zero_inv; congruence.
Qed.

(** A parked star whose drill timer is clear stays where it is in a frame
    that hits no wall. *)
Lemma parked_position (self : ClaudeScreensaver) (fr : Frame) :
  parked self -> drill_end_time (state self) = 0 ->
  frame_hits_wall self fr = false ->
  x (state (update self fr)) = x (state self)
  /\ y (state (update self fr)) = y (state self)
  /\ drill_end_time (state (update self fr)) = 0.
Proof.
  intros [[Hvx [Hvy Htrap]] [Hsx Hsy]] Hd Hhit.
  assert (Hno : drill_expires self (t_effects fr) = false).
  { unfold drill_expires. rewrite Hd, Rgtb_false by lra. reflexivity. }
  assert (Hrelease : trap_expires self (t_effects fr) = false).
  { unfold trap_expires. rewrite Htrap. reflexivity. }
  destruct (velocity_before_position self fr) as [Hbx Hby]. cbv zeta in *.
  rewrite Hrelease, Hno in Hbx, Hby.
  destruct (before_position_keeps self fr) as [Hx [Hy _]]. cbv zeta in *.
  pose proof (drill_end_time_before_position self fr) as Hdb. rewrite Hno, Hd in Hdb.
  pose proof (corner_trapped_before_position self fr) as Hcb. rewrite Hrelease, Htrap in Hcb.
  unfold frame_hits_wall in Hhit. rewrite Hcb, Hdb, Reqb_true in Hhit by reflexivity.
  cbn in Hhit.
  rewrite drill_end_time_update, Hno.
  unfold update. repeat peel.
  rewrite (update_position_free _ _ _ Hcb Hdb).
  destruct (bouncing_no_hit _ Hhit) as [Hpx [Hpy _]].
  rewrite Hpx, Hpy, Hx, Hy, Hbx, Hby, Hvx, Hvy. repeat split; lra.
Qed.

Lemma parked_run_position (frames : list Frame) (self : ClaudeScreensaver) :
  parked self -> drill_end_time (state self) = 0 ->
  no_wall_hit frames self ->
  x (state (run_frames frames self)) = x (state self)
  /\ y (state (run_frames frames self)) = y (state self).
Proof.
  revert self. induction frames as [| fr frames IH]; intros self Hparked Hd Hno.
  - split; reflexivity.
  - destruct Hno as [Hfr Hrest]. rewrite run_frames_cons.
    destruct (parked_position self fr Hparked Hd Hfr) as [Hx [Hy Hd']].
    destruct (IH (update self fr) (parked_frame self fr Hparked) Hd' Hrest) as [Hx' Hy'].
    split; congruence.
Qed.

(** C10 (amended). A drill command given while an earlier drill is
    running, where no trap held the star when the first one started, so that
    none can put a velocity back in between, finds the velocity at zero,
    saves that zero over the velocity the first command had saved, and when
    the restarted drill expires the velocity is restored to (0, 0); it stays
    (0, 0) in every later frame, and the position stays the same over later
    frames that hit no wall. *)
Theorem repeated_drill_stops_the_star (str_to_float : string -> option R)
    (self : ClaudeScreensaver) (parameters parameters' : PyVal)
    (t0 t_cancel t1 t_cancel' : R) (frames1 frames2 frames3 : list Frame) (fr : Frame) :
  corner_trapped (state self) = false ->
  0 <= t0 -> t0 <= t1 -> t1 < t0 + 3.0 ->
  Forall (fun fr' => t_effects fr' < t0 + 3.0) frames1 ->
  Forall (fun fr' => t_effects fr' < t1 + 3.0) frames2 ->
  t1 + 3.0 <= t_effects fr ->
  let first := fst (manipulate str_to_float self "drill" parameters t0 t_cancel) in
  let running := run_frames frames1 first in
  let second := fst (manipulate str_to_float running "drill" parameters' t1 t_cancel') in
  let expired := update (run_frames frames2 second) fr in
  let later := run_frames frames3 expired in
  (t1 < drill_end_time (state running)
   /\ drill_saved_vx (state running) = vx (state self)
   /\ drill_saved_vy (state running) = vy (state self)
   /\ vx (state running) = 0 /\ vy (state running) = 0)
  /\ (drill_saved_vx (state second) = 0 /\ drill_saved_vy (state second) = 0)
  /\ (drill_end_time (state expired) = 0
      /\ vx (state expired) = 0 /\ vy (state expired) = 0)
  /\ (vx (state later) = 0 /\ vy (state later) = 0)
  /\ (no_wall_hit frames3 expired ->
      x (state later) = x (state expired) /\ y (state later) = y (state expired)).
Proof.
  intros Htrap Ht0 Ht01 Ht1 Hok1 Hok2 Hfr. cbv zeta.
  destruct (drill_cancels_spin_out str_to_float self parameters t0 t_cancel)
    as [_ [Hend [_ [_ [Hsx [Hsy [Hvx Hvy]]]]]]]. cbv zeta in *.
  set (first := fst (manipulate str_to_float self "drill" parameters t0 t_cancel)) in *.
  assert (Htrap1 : corner_trapped (state first) = false).
  { subst first. cbn. repeat peel. exact Htrap. }
  (* the first drill, up to the second command *)
  assert (Hrunning : still (run_frames frames1 first)
                     /\ drill_end_time (state (run_frames frames1 first)) = t0 + 3.0
                     /\ drill_saved_vx (state (run_frames frames1 first)) = vx (state self)
                     /\ drill_saved_vy (state (run_frames frames1 first)) = vy (state self)).
  { apply (run_frames_invariant
             (fun s => still s /\ drill_end_time (state s) = t0 + 3.0
                       /\ drill_saved_vx (state s) = vx (state self)
                       /\ drill_saved_vy (state s) = vy (state self))
             (fun fr' => t_effects fr' < t0 + 3.0)); [| unfold still; auto | exact Hok1].
    intros s fr' [Hstill [Hd [Hkx Hky]]] Hfr'.
    assert (Hno : drill_expires s (t_effects fr') = false).
    { unfold drill_expires. rewrite Hd, Rgeb_false by lra. apply andb_false_r. }
    destruct (update_keeps_saved s fr') as [Hx [Hy _]]. cbv zeta in *.
    rewrite drill_end_time_update, Hno, Hx, Hy.
    split; [apply still_waiting_frame; assumption | auto]. }
  destruct Hrunning as [[Hrx [Hry Hrtrap]] [Hrd [Hrsx Hrsy]]].
  set (running := run_frames frames1 first) in *.
  (* the second drill *)
  destruct (drill_cancels_spin_out str_to_float running parameters' t1 t_cancel')
    as [_ [Hend2 [_ [_ [Hsx2 [Hsy2 [Hvx2 Hvy2]]]]]]]. cbv zeta in *.
  set (second := fst (manipulate str_to_float running "drill" parameters' t1 t_cancel')) in *.
  assert (Htrap2 : corner_trapped (state second) = false).
  { subst second. cbn. repeat peel. exact Hrtrap. }
  assert (Hparked : parked second).
  { unfold parked, still. rewrite Hsx2, Hsy2, Hrx, Hry. auto 10. }
  assert (Hwaiting : parked (run_frames frames2 second)
                     /\ drill_end_time (state (run_frames frames2 second)) = t1 + 3.0).
  { apply (run_frames_invariant
             (fun s => parked s /\ drill_end_time (state s) = t1 + 3.0)
             (fun fr' => t_effects fr' < t1 + 3.0)); [| auto | exact Hok2].
    intros s fr' [Hp Hd] Hfr'.
    split; [apply parked_frame; exact Hp |].
    rewrite drill_end_time_update. unfold drill_expires.
    rewrite Hd, Rgeb_false by lra. rewrite andb_false_r. reflexivity. }
  destruct Hwaiting as [Hparked2 Hd2].
  (* the frame in which the second drill expires *)
  assert (Hexpired : parked (update (run_frames frames2 second) fr)
                     /\ drill_end_time (state (update (run_frames frames2 second) fr)) = 0).
  { split; [apply parked_frame; exact Hparked2 |].
    rewrite drill_end_time_update. unfold drill_expires.
    rewrite Hd2, Rgtb_true, Rgeb_true by lra. reflexivity. }
  destruct Hexpired as [Hparked3 Hd3].
  set (expired := update (run_frames frames2 second) fr) in *.
  assert (Hlater : parked (run_frames frames3 expired)).
  { apply (run_frames_invariant parked (fun _ => True));
      [intros s fr' Hp _; apply parked_frame; exact Hp | exact Hparked3 |].
    apply Forall_forall. auto. }
  split; [repeat split; try assumption; lra |].
  split; [rewrite Hsx2, Hsy2; auto |].
  split; [destruct Hparked3 as [[H1 [H2 _]] _]; auto |].
  split; [destruct Hlater as [[H1 [H2 _]] _]; auto |].
  intros Hno. apply parked_run_position; assumption.
Qed.

(** ** C4: the corner trap *)

(** The loop of the corner search keeps, over the corners seen so far,
    the first of the nearest. *)
Lemma nearest_fold_spec (self : ClaudeScreensaver) (rest seen : list (R * R))
    (acc : option R * (R * R)) :
  match fst acc with
  | None => seen = []
  | Some m => m = corner_dist self (snd acc) /\ first_nearest self (snd acc) seen
  end ->
  let r := fold_left (nearest_step self) rest acc in
  match fst r with
  | None => (seen ++ rest)%list = []
  | Some m => m = corner_dist self (snd r) /\ first_nearest self (snd r) (seen ++ rest)%list
  end.
Proof.
  revert seen acc. induction rest as [| c rest IH]; intros seen acc Hacc; cbv zeta.
  - cbn. rewrite app_nil_r. exact Hacc.
  - cbn [fold_left].
    replace (seen ++ c :: rest)%list with ((seen ++ [c]) ++ rest)%list
      by (rewrite <- app_assoc; reflexivity).
    apply IH. unfold nearest_step.
    destruct acc as [[m |] a]; cbn [fst snd lt_min_dist] in *.
    + destruct Hacc as [Hm [earlier [later [Hseen [Hearlier Hlater]]]]].
      destruct (Rltb_spec (corner_dist self c) m) as [Hlt | Hge]; cbn [fst snd].
      * split; [reflexivity |]. exists seen, []. split; [reflexivity |].
        split; [| intros c' []].
        intros c' Hin. rewrite Hseen in Hin. apply in_app_or in Hin.
        destruct Hin as [Hin | [<- | Hin]].
        -- specialize (Hearlier c' Hin). lra.
        -- lra.
        -- specialize (Hlater c' Hin). lra.
      * split; [exact Hm |]. exists earlier, (later ++ [c])%list.
        split; [rewrite Hseen, <- app_assoc; reflexivity |].
        split; [exact Hearlier |].
        intros c' Hin. apply in_app_or in Hin. destruct Hin as [Hin | [<- | []]].
        -- apply Hlater. exact Hin.
        -- lra.
    + subst seen. cbn [fst snd]. split; [reflexivity |].
      exists [], []. split; [reflexivity |]. split; intros c' [].
Qed.

Lemma nearest_corner_is_first_nearest (self : ClaudeScreensaver) :
  first_nearest self (nearest_corner self) (corners self).
Proof.
  unfold nearest_corner.
  pose proof (nearest_fold_spec self (corners self) [] (None, hd (0, 0) (corners self))
                eq_refl) as H.
  cbv zeta in H. cbn [app] in H.
  destruct (fst (fold_left (nearest_step self) (corners self)
                   (None, hd (0, 0) (corners self)))) as [m |].
  - apply H.
  - discriminate H.
Qed.

Lemma first_nearest_is_nearest (self : ClaudeScreensaver) (corner : R * R)
    (cs : list (R * R)) :
  first_nearest self corner cs ->
  In corner cs /\ (forall c, In c cs -> corner_dist self corner <= corner_dist self c).
Proof.
  intros [earlier [later [Hcs [Hearlier Hlater]]]]. subst cs. split.
  - apply in_or_app. right. left. reflexivity.
  - intros c Hin. apply in_app_or in Hin. destruct Hin as [Hin | [<- | Hin]].
    + specialize (Hearlier c Hin). lra.
    + lra.
    + apply Hlater. exact Hin.
Qed.

Section Trap.

Variables t0 cx cy vx0 vy0 : R.

Lemma held_frame (self : ClaudeScreensaver) (fr : Frame) :
  held t0 cx cy vx0 vy0 self ->
  t_effects fr - t0 < 10.0 ->
  random_in_range fr ->
  held t0 cx cy vx0 vy0 (update self fr) /\ in_envelope cx cy (update self fr).
Proof.
  intros [Htrap [Hstart [Hcx [Hcy [Hsx Hsy]]]]] Ht [[Hx0 Hx1] [Hy0 Hy1]].
  assert (Hno : trap_expires self (t_effects fr) = false).
  { unfold trap_expires. rewrite Htrap, Hstart, Rgeb_false by lra. reflexivity. }
  destruct (update_keeps_saved self fr) as [_ [_ [Hkx [Hky [Hks [_ [Htx [Hty _]]]]]]]].
  cbv zeta in *.
  pose proof (corner_trapped_before_position self fr) as Hcb. rewrite Hno, Htrap in Hcb.
  destruct (before_position_keeps self fr) as [_ [_ [Hbx Hby]]]. cbv zeta in *.
  split.
  - unfold held. rewrite corner_trapped_update, Hno, Hks, Htx, Hty, Hkx, Hky. auto 10.
  - unfold in_envelope, update. repeat peel.
    destruct (update_position_trapped _ (rand_x fr) (rand_y fr) Hcb) as [Hpx Hpy].
    rewrite Hpx, Hpy, Hbx, Hby, Hcx, Hcy.
    split; apply Rabs_le; lra.
Qed.

Lemma held_run (frames : list Frame) (self : ClaudeScreensaver) :
  held t0 cx cy vx0 vy0 self ->
  Forall (fun fr => t_effects fr - t0 < 10.0 /\ random_in_range fr) frames ->
  held t0 cx cy vx0 vy0 (run_frames frames self)
  /\ (frames <> [] -> in_envelope cx cy (run_frames frames self)).
Proof.
  revert self. induction frames as [| fr frames IH]; intros self Hheld Hok.
  - split; [exact Hheld | intros H; contradiction].
  - destruct (Forall_inv Hok) as [Hfr Hrand]. pose proof (Forall_inv_tail Hok) as Hrest.
    rewrite run_frames_cons.
    destruct (held_frame self fr Hheld Hfr Hrand) as [Hheld' Henv'].
    destruct (IH (update self fr) Hheld' Hrest) as [Hrun Hlater].
    split; [exact Hrun |]. intros _.
    destruct frames as [| fr' frames']; [exact Henv' | apply Hlater; discriminate].
Qed.

Lemma held_release (self : ClaudeScreensaver) (fr : Frame) :
  held t0 cx cy vx0 vy0 self ->
  10.0 <= t_effects fr - t0 ->
  let released := update_before_position self fr in
  let after := update self fr in
  (corner_trapped (state released) = false
   /\ vx (state released) = vx0 /\ vy (state released) = vy0)
  /\ (Rabs (vx (state after)) = Rabs vx0 /\ Rabs (vy (state after)) = Rabs vy0)
  /\ (hit_wall released = false -> vx (state after) = vx0 /\ vy (state after) = vy0).
Proof.
  intros [Htrap [Hstart [Hcx [Hcy [Hsx Hsy]]]]] Ht. cbv zeta.
  assert (Hyes : trap_expires self (t_effects fr) = true).
  { unfold trap_expires. rewrite Htrap, Hstart, Rgeb_true by lra. reflexivity. }
  destruct (velocity_before_position self fr) as [Hvx Hvy]. cbv zeta in *.
  rewrite Hyes, Hsx in Hvx. rewrite Hyes, Hsy in Hvy.
  split; [rewrite corner_trapped_before_position, Hyes; auto |].
  unfold update. repeat peel.
  destruct (update_position_velocity (update_before_position self fr)
              (rand_x fr) (rand_y fr)) as [Hax [Hay Hexact]]. cbv zeta in *.
  rewrite Hvx in Hax, Hexact. rewrite Hvy in Hay, Hexact.
  split; [split; assumption |]. intros H. apply Hexact. auto.
Qed.

End Trap.

(** C4 (amended). [manipulate("corner_trap")] traps the star in the first
    nearest of the four corners 50 px inside the display, in the order
    top-left, top-right, bottom-left, bottom-right (Euclidean distance from
    the position); after every frame in which the trap still holds, the
    position is within 20 px of that corner on each axis; in the first
    frame 10 seconds or more after the command the expiry check releases
    the star and sets the velocity to exactly the velocity before the
    command. The position step of that same frame may reflect a component
    at a wall: after the frame each component has the magnitude it had
    before the command, and the same value if no wall is hit. *)
Theorem corner_trap_holds_then_releases (str_to_float : string -> option R)
    (self : ClaudeScreensaver) (parameters : PyVal) (t0 t_cancel : R)
    (frames : list Frame) (fr : Frame) :
  Forall (fun fr' => t_effects fr' - t0 < 10.0 /\ random_in_range fr') frames ->
  10.0 <= t_effects fr - t0 ->
  let trapped := fst (manipulate str_to_float self "corner_trap" parameters t0 t_cancel) in
  let corner := (trap_corner_x (state trapped), trap_corner_y (state trapped)) in
  let before := run_frames frames trapped in
  let released := update_before_position before fr in
  let after := update before fr in
  (corners self = [ (50, 50); (display_width self - 50, 50);
                    (50, display_height self - 50);
                    (display_width self - 50, display_height self - 50) ]
   /\ first_nearest self corner (corners self)
   /\ In corner (corners self)
   /\ (forall c, In c (corners self) -> corner_dist self corner <= corner_dist self c))
  /\ (corner_trapped (state trapped) = true
      /\ vx (state trapped) = 0 /\ vy (state trapped) = 0)
  /\ (corner_trapped (state before) = true)
  /\ (frames <> [] -> in_envelope (fst corner) (snd corner) before)
  /\ (corner_trapped (state released) = false
      /\ vx (state released) = vx (state self) /\ vy (state released) = vy (state self))
  /\ (Rabs (vx (state after)) = Rabs (vx (state self))
      /\ Rabs (vy (state after)) = Rabs (vy (state self)))
  /\ (hit_wall released = false ->
      vx (state after) = vx (state self) /\ vy (state after) = vy (state self)).
Proof.
  intros Hok Hfr. cbv zeta.
  set (trapped := fst (manipulate str_to_float self "corner_trap" parameters t0 t_cancel)).
  assert (Hcorner : (trap_corner_x (state trapped), trap_corner_y (state trapped))
                    = nearest_corner self).
  { subst trapped. cbn. destruct (nearest_corner self). reflexivity. }
  assert (Hheld : held t0 (trap_corner_x (state trapped)) (trap_corner_y (state trapped))
                    (vx (state self)) (vy (state self)) trapped).
  { subst trapped. unfold held. cbn. auto 10. }
  rewrite Hcorner.
  pose proof (nearest_corner_is_first_nearest self) as Hfirst.
  destruct (first_nearest_is_nearest self _ _ Hfirst) as [Hin Hmin].
  destruct (held_run _ _ _ _ _ frames trapped Hheld Hok) as [Hbefore Henv].
  split; [auto |].
  split; [subst trapped; cbn; auto |].
  split; [apply Hbefore |].
  split; [rewrite <- Hcorner; exact Henv |].
  apply (held_release _ _ _ _ _ _ fr Hbefore Hfr).
Qed.

(** ** Evaluating the program on given numbers *)

Lemma py_mod_eval (a b : R) (k : Z) :
  0 < b -> IZR k * b <= a < (IZR k + 1) * b -> py_mod a b = a - b * IZR k.
Proof.
  intros Hb [Hlo Hhi]. unfold py_mod.
  rewrite <- (Int_part_spec (a / b) k); [reflexivity |].
  split.
  - apply Rmult_lt_reg_r with b; [exact Hb |].
    unfold Rdiv. rewrite Rmult_minus_distr_r, Rmult_assoc, Rinv_l by lra. lra.
  - apply Rmult_le_reg_r with b; [exact Hb |].
    unfold Rdiv. rewrite Rmult_assoc, Rinv_l by lra. lra.
Qed.

Lemma Rltb_sqrt (a b : R) : 0 <= a -> 0 <= b -> Rltb (sqrt a) (sqrt b) = Rltb a b.
Proof.
  intros Ha Hb. destruct (Rltb_spec a b) as [Hlt | Hge].
  - apply Rltb_true. apply sqrt_lt_1; assumption.
  - apply Rltb_false. apply sqrt_le_1; lra.
Qed.

Ltac eval_records :=
  cbv -[Rplus Rmult Rdiv Rminus Ropp Rinv IZR PI Rabs sqrt sin up Rlt Rle Rgt Rge
        Rltb Rgtb Rgeb Reqb py_mod Int_part
        _update_heartbeat decay_wall_impact check_shrink_expiration
        check_color_expiration check_opacity_expiration check_drill_expiration
        check_corner_trap_expiration update_spin_out_phases update_scale_and_rotation
        update_position _update_bouncing_position wall_collisions bounce_x bounce_y
        _update_eye_physics nearest_corner update update_before_position hit_wall].

Ltac eval_abs :=
  repeat match goal with
         | |- context [Rabs ?v] =>
             first [ rewrite (Rabs_pos_eq v) by lra | rewrite (Rabs_left v) by lra ]
         end.

Ltac eval_block B := unfold B; eval_records; decide_tests; eval_records.

(** [update_before_position] on a given object, [k] the number of whole
    heartbeat cycles before the frame. *)
Ltac eval_before_position k :=
  unfold update_before_position, _update_effects;
  unfold _update_heartbeat; eval_records;
  rewrite (py_mod_eval _ _ k) by lra; decide_tests; eval_records;
  eval_block decay_wall_impact;
  eval_block check_shrink_expiration;
  eval_block check_color_expiration;
  eval_block check_opacity_expiration;
  eval_block check_drill_expiration;
  eval_block check_corner_trap_expiration;
  eval_block update_spin_out_phases;
  eval_block update_scale_and_rotation.

Ltac eval_collisions :=
  unfold wall_collisions; eval_records;
  unfold bounce_x; eval_records; decide_tests; eval_abs; eval_records;
  unfold bounce_y; eval_records; decide_tests; eval_abs; eval_records.

(** [update] on a given object. *)
Ltac eval_update k :=
  unfold update; eval_before_position k;
  unfold update_position; eval_records; decide_tests; eval_records;
  try (unfold _update_bouncing_position; eval_collisions);
  eval_block _update_eye_physics.

(** [nearest_corner] on a given object. *)
Ltac eval_nearest :=
  unfold nearest_corner; eval_records;
  repeat (rewrite Rltb_sqrt by lra; decide_tests; eval_records).

(** ** The two loops of [_update_eye_physics] leave *)

Lemma while_above_pi_bound (fuel : nat) (d : R) :
  d - PI < INR fuel * (PI * 2) -> while_above_pi fuel d <= PI.
Proof.
  revert d. induction fuel as [| fuel IH]; intros d H.
  - cbn in *. lra.
  - cbn [while_above_pi]. destruct (Rgtb_spec d PI) as [Hgt | Hle]; [| lra].
    apply IH. rewrite S_INR in H. lra.
Qed.

Lemma while_below_pi_bound (fuel : nat) (d : R) :
  - PI - d < INR fuel * (PI * 2) -> - PI <= while_below_pi fuel d.
Proof.
  revert d. induction fuel as [| fuel IH]; intros d H.
  - cbn in *. lra.
  - cbn [while_below_pi]. destruct (Rltb_spec d (- PI)) as [Hlt | Hge]; [| lra].
    apply IH. rewrite S_INR in H. lra.
Qed.

Lemma while_below_pi_keeps (fuel : nat) (d : R) : d <= PI -> while_below_pi fuel d <= PI.
Proof.
  pose proof PI_RGT_0 as Hpi.
  revert d. induction fuel as [| fuel IH]; intros d H.
  - exact H.
  - cbn [while_below_pi]. destruct (Rltb_spec d (- PI)) as [Hlt | Hge]; [| exact H].
    apply IH. lra.
Qed.

Lemma enough_passes (r : R) : r < INR (Z.to_nat (up r)).
Proof.
  destruct (archimed r) as [Hup _].
  destruct (Z_lt_le_dec (up r) 0) as [Hneg | Hpos].
  - assert (Hzero : Z.to_nat (up r) = 0%nat) by lia.
    apply IZR_lt in Hneg. rewrite Hzero. cbn. lra.
  - rewrite INR_IZR_INZ, Z2Nat.id by exact Hpos. lra.
Qed.

Lemma while_above_pi_exits (d : R) : while_above_pi (passes_above d) d <= PI.
Proof.
  pose proof PI_RGT_0 as Hpi.
  apply while_above_pi_bound. unfold passes_above.
  pose proof (enough_passes ((d - PI) / (PI * 2))) as H.
  apply (Rmult_lt_compat_r (PI * 2)) in H; [| lra].
  unfold Rdiv in H. rewrite Rmult_assoc, Rinv_l in H by lra. lra.
Qed.

Lemma while_below_pi_exits (d : R) : - PI <= while_below_pi (passes_below d) d.
Proof.
  pose proof PI_RGT_0 as Hpi.
  apply while_below_pi_bound. unfold passes_below.
  pose proof (enough_passes ((- PI - d) / (PI * 2))) as H.
  apply (Rmult_lt_compat_r (PI * 2)) in H; [| lra].
  unfold Rdiv in H. rewrite Rmult_assoc, Rinv_l in H by lra. lra.
Qed.

(** Both loops have left when [wrap_diff] returns. *)
Lemma wrap_diff_range (d : R) : - PI <= wrap_diff d <= PI.
Proof.
  unfold wrap_diff. split.
  - apply while_below_pi_exits.
  - apply while_below_pi_keeps, while_above_pi_exits.
Qed.

(** ** Concrete runs *)

(** The round trip where a trap is released during the drill: trap at
    100, drill at 108, the frame at 110 releases the trap, and the frame at
    111, in which no trap expires, restores the velocity (0, 0) that the
    drill saved. *)
Lemma drill_round_trip_witness :
  let self := fst (manipulate no_float (initialize 1280 720) "corner_trap" VNone 100 100) in
  let started := fst (manipulate no_float self "drill" VNone 108 108) in
  let before := run_frames [frame_at 110] started in
  let restored := update_before_position before (frame_at 111) in
  let after := update before (frame_at 111) in
  (corner_trapped (state started) = true /\ corner_trapped (state before) = false
   /\ trap_expires before 111 = false)
  /\ (drill_saved_vx (state started) = vx (state self)
      /\ drill_saved_vy (state started) = vy (state self)
      /\ vx (state started) = 0 /\ vy (state started) = 0
      /\ drill_end_time (state started) = 108 + 3.0)
  /\ (drill_end_time (state after) = 0 /\ rotation_speed (state after) = 0.5
      /\ effect_active (state after) = None)
  /\ (vx (state restored) = vx (state self) /\ vy (state restored) = vy (state self))
  /\ (Rabs (vx (state after)) = Rabs (vx (state self))
      /\ Rabs (vy (state after)) = Rabs (vy (state self)))
  /\ (corner_trapped (state restored) = true \/ hit_wall restored = false ->
      vx (state after) = vx (state self) /\ vy (state after) = vy (state self)).
Proof.
  cbv zeta.
  set (self := fst (manipulate no_float (initialize 1280 720) "corner_trap" VNone 100 100)).
  set (started := fst (manipulate no_float self "drill" VNone 108 108)).
  assert (Hheld : corner_trapped (state started) = true
                  /\ effect_start_time (state started) = 100).
  { subst started self. cbn. repeat peel. split; reflexivity. }
  destruct Hheld as [Htrapped Hstart].
  assert (Hreleased : corner_trapped (state (run_frames [frame_at 110] started)) = false).
  { rewrite run_frames_cons. change (run_frames [] ?s) with s.
    rewrite corner_trapped_update. unfold trap_expires.
    rewrite Htrapped, Hstart. cbn. rewrite Rgeb_true by lra. reflexivity. }
  assert (Hno : trap_expires (run_frames [frame_at 110] started) 111 = false).
  { unfold trap_expires. rewrite Hreleased. reflexivity. }
  split; [auto |].
  destruct (drill_round_trip no_float self VNone 108 108 [frame_at 110] (frame_at 111))
    as [Hsaved [Htimer Hvelocity]].
  - lra.
  - repeat constructor; cbn; lra.
  - cbn. lra.
  - split; [exact Hsaved | split; [exact Htimer | apply Hvelocity; exact Hno]].
Defined.

(** C3 as stated fails: a trap set at 100 and a drill started at 107 both
    end at 110. The drill saves the velocity (0, 0) of the trapped star; in
    the frame at 110 the drill check restores (0, 0) and the trap check,
    which comes after it, puts back the trap's (0.5, 0.5). *)
Lemma drill_round_trip_broken_by_trap :
  let s1 := fst (manipulate no_float (initialize 1280 720) "corner_trap" VNone 100 100) in
  let s2 := fst (manipulate no_float s1 "drill" VNone 107 107) in
  let s3 := update s2 (frame_at 109) in
  let s4 := update s3 (frame_at 110) in
  (vx (state s1) = 0 /\ vy (state s1) = 0)
  /\ (drill_saved_vx (state s2) = 0 /\ drill_saved_vy (state s2) = 0
      /\ drill_end_time (state s2) = 107 + 3.0)
  /\ drill_end_time (state s3) = 107 + 3.0
  /\ (drill_end_time (state s4) = 0 /\ vx (state s4) = 0.5 /\ vy (state s4) = 0.5).
Proof.
  cbv zeta.
  evar (c : (R * R)%type).
  assert (Hc : nearest_corner (initialize 1280 720) = c).
  { eval_nearest. subst c. reflexivity. }
  evar (s1 : ClaudeScreensaver).
  assert (H1 : fst (manipulate no_float (initialize 1280 720) "corner_trap" VNone 100 100)
               = s1).
  { unfold manipulate. cbn [String.eqb Ascii.eqb Bool.eqb fst]. rewrite Hc.
    subst c. eval_records. subst s1. reflexivity. }
  rewrite H1. clear H1 Hc.
  evar (s2 : ClaudeScreensaver).
  assert (H2 : fst (manipulate no_float s1 "drill" VNone 107 107) = s2).
  { subst s1. eval_records. subst s2. reflexivity. }
  rewrite H2. clear H2.
  evar (s3 : ClaudeScreensaver).
  assert (H3 : update s2 (frame_at 109) = s3).
  { subst s2. eval_update 27%Z. subst s3. reflexivity. }
  rewrite H3. clear H3.
  evar (s4 : ClaudeScreensaver).
  assert (H4 : update s3 (frame_at 110) = s4).
  { subst s3. eval_update 27%Z. subst s4. reflexivity. }
  rewrite H4. clear H4.
  subst c s1 s2 s3 s4. cbn. repeat split; try reflexivity; lra.
Qed.

(** The wall does the same to a drill: a star 0.2 px short of touching
    the right wall, moving right, is drilled at 100; the frame at 103
    restores (0.5, 0.5) and its position step reflects the horizontal
    component. *)
Lemma drill_round_trip_reflected_at_wall :
  let self := assign (set_x 1155.8) (initialize 1280 720) in
  let started := fst (manipulate no_float self "drill" VNone 100 100) in
  let after := update started (frame_at 103) in
  (vx (state self) = 0.5 /\ vy (state self) = 0.5)
  /\ (drill_saved_vx (state started) = 0.5 /\ drill_saved_vy (state started) = 0.5)
  /\ (drill_end_time (state after) = 0
      /\ vx (state after) = -0.5 /\ vy (state after) = 0.5).
Proof.
  cbv zeta.
  evar (s1 : ClaudeScreensaver).
  assert (H1 : fst (manipulate no_float (assign (set_x 1155.8) (initialize 1280 720))
                      "drill" VNone 100 100) = s1).
  { eval_records. subst s1. reflexivity. }
  rewrite H1. clear H1.
  evar (s2 : ClaudeScreensaver).
  assert (H2 : update s1 (frame_at 103) = s2).
  { subst s1. eval_update 25%Z. subst s2. reflexivity. }
  rewrite H2. clear H2.
  subst s1 s2. cbn. repeat split; try reflexivity; lra.
Qed.

Lemma corner_trap_holds_then_releases_witness :
  let self := initialize 1280 720 in
  let trapped := fst (manipulate no_float self "corner_trap" VNone 100 100) in
  let corner := (trap_corner_x (state trapped), trap_corner_y (state trapped)) in
  let before := run_frames [frame_at 101; frame_at 105] trapped in
  let released := update_before_position before (frame_at 110) in
  let after := update before (frame_at 110) in
  (corners self = [ (50, 50); (display_width self - 50, 50);
                    (50, display_height self - 50);
                    (display_width self - 50, display_height self - 50) ]
   /\ first_nearest self corner (corners self)
   /\ In corner (corners self)
   /\ (forall c, In c (corners self) -> corner_dist self corner <= corner_dist self c))
  /\ (corner_trapped (state trapped) = true
      /\ vx (state trapped) = 0 /\ vy (state trapped) = 0)
  /\ (corner_trapped (state before) = true)
  /\ ([frame_at 101; frame_at 105] <> [] -> in_envelope (fst corner) (snd corner) before)
  /\ (corner_trapped (state released) = false
      /\ vx (state released) = vx (state self) /\ vy (state released) = vy (state self))
  /\ (Rabs (vx (state after)) = Rabs (vx (state self))
      /\ Rabs (vy (state after)) = Rabs (vy (state self)))
  /\ (hit_wall released = false ->
      vx (state after) = vx (state self) /\ vy (state after) = vy (state self)).
Proof.
  apply (corner_trap_holds_then_releases no_float (initialize 1280 720) VNone 100 100
           [frame_at 101; frame_at 105] (frame_at 110)).
  - repeat constructor; cbn; lra.
  - cbn. lra.
Defined.

(** C4 as stated fails in its last part: the star moves right and down
    for one frame, is trapped at 2 in the bottom-right corner (1230, 670),
    jitters there at 3, and in the frame at 13 is released with its velocity
    (0.5, 0.5) put back; the position step of that frame finds the star
    within its radius of the right and the bottom wall and reflects both
    components, so the frame ends with the velocity (-0.5, -0.5). *)
Lemma corner_trap_release_reflects_velocity :
  let s1 := update (initialize 1280 720) (frame_at 1) in
  let s2 := fst (manipulate no_float s1 "corner_trap" VNone 2 2) in
  let s3 := update s2 (frame_at 3) in
  let s4 := update s3 (frame_at 13) in
  (vx (state s1) = 0.5 /\ vy (state s1) = 0.5)
  /\ (trap_corner_x (state s2) = 1230 /\ trap_corner_y (state s2) = 670)
  /\ (corner_trapped (state s3) = true /\ x (state s3) = 1230 /\ y (state s3) = 670)
  /\ (corner_trapped (state s4) = false /\ vx (state s4) = -0.5 /\ vy (state s4) = -0.5).
Proof.
  cbv zeta.
  evar (s1 : ClaudeScreensaver).
  assert (H1 : update (initialize 1280 720) (frame_at 1) = s1).
  { eval_update 0%Z. subst s1. reflexivity. }
  rewrite H1. clear H1.
  evar (c : (R * R)%type).
  assert (Hc : nearest_corner s1 = c).
  { subst s1. eval_nearest. subst c. reflexivity. }
  evar (s2 : ClaudeScreensaver).
  assert (H2 : fst (manipulate no_float s1 "corner_trap" VNone 2 2) = s2).
  { unfold manipulate. cbn [String.eqb Ascii.eqb Bool.eqb fst]. rewrite Hc.
    subst s1 c. eval_records. subst s2. reflexivity. }
  rewrite H2. clear H2 Hc.
  evar (s3 : ClaudeScreensaver).
  assert (H3 : update s2 (frame_at 3) = s3).
  { subst s2. eval_update 0%Z. subst s3. reflexivity. }
  rewrite H3. clear H3.
  evar (s4 : ClaudeScreensaver).
  assert (H4 : update s3 (frame_at 13) = s4).
  { subst s3. eval_update 3%Z. subst s4. reflexivity. }
  rewrite H4. clear H4.
  subst s1 s2 s3 s4 c. cbn. repeat split; try reflexivity; lra.
Qed.

Lemma spin_out_ramp_then_decay_witness :
  let started := fst (manipulate no_float (initialize 1280 720) "spin_out" VNone 100 100) in
  let before := run_frames [frame_at 100.5; frame_at 101] started in
  let after := update before (frame_at 101.5) in
  let elapsed := t_effects (frame_at 101.5) - 100 in
  (spin_out_phase (state started) = Some ramp /\ rotation_speed (state started) = 1.0
   /\ effect_active (state started) = Some spin_out)
  /\ (Forall (fun fr' => t_effects fr' - 100 < 2.0) [frame_at 100.5; frame_at 101] ->
      spin_out_phase (state before) = Some ramp)
  /\ (spin_out_phase (state before) = Some ramp -> elapsed < 2.0 ->
      spin_out_phase (state after) = Some ramp
      /\ rotation_speed (state after) = 1.0 + elapsed * 5.0
      /\ rotation_speed (state after) < 11)
  /\ (spin_out_phase (state before) = Some ramp -> 2.0 <= elapsed ->
      spin_out_phase (state after) = Some decay)
  /\ (spin_out_phase (state before) = Some decay ->
      0.1 <= rotation_speed (state before) * 0.992 ->
      spin_out_phase (state after) = Some decay
      /\ rotation_speed (state after) = rotation_speed (state before) * 0.992)
  /\ (spin_out_phase (state before) = Some decay ->
      rotation_speed (state before) * 0.992 < 0.1 ->
      spin_out_phase (state after) = None
      /\ rotation_speed (state after) = 0.5
      /\ effect_active (state after) = None).
Proof.
  apply (spin_out_ramp_then_decay no_float (initialize 1280 720) VNone 100 100
           [frame_at 100.5; frame_at 101] (frame_at 101.5)).
  repeat constructor; cbn; lra.
Defined.

Lemma wall_impact_decays_witness :
  let self := initialize 1280 720 in
  wall_impact (state (run_frames [frame_at 1; frame_at 2] self))
  = wall_impact (state self) * 0.85 ^ length [frame_at 1; frame_at 2]
  /\ (forall fr : Frame,
        wall_impact (state (update self fr)) =
        if frame_hits_wall self fr then 0.02 else wall_impact (state self) * 0.85).
Proof.
  apply (wall_impact_decays [frame_at 1; frame_at 2] (initialize 1280 720)).
  cbn [no_wall_hit].
  evar (s1 : ClaudeScreensaver).
  assert (H1 : update (initialize 1280 720) (frame_at 1) = s1).
  { eval_update 0%Z. subst s1. reflexivity. }
  rewrite H1. clear H1.
  split; [| split; [| exact I]].
  - unfold frame_hits_wall. eval_before_position 0%Z. decide_tests.
    unfold hit_wall. eval_collisions. reflexivity.
  - subst s1. unfold frame_hits_wall. eval_before_position 0%Z. decide_tests.
    unfold hit_wall. eval_collisions. reflexivity.
Defined.

Lemma one_position_regime_per_frame_witness :
  let self := initialize 1280 720 in
  let before := update_before_position self (frame_at 1) in
  let after := update self (frame_at 1) in
  match regime_of before with
  | corner_trapped_regime =>
      corner_trapped (state before) = true
      /\ x (state after) = trap_corner_x (state self) + (rand_x (frame_at 1) - 0.5) * 40
      /\ y (state after) = trap_corner_y (state self) + (rand_y (frame_at 1) - 0.5) * 40
  | drill_suspended_regime =>
      corner_trapped (state before) = false /\ drill_end_time (state before) > 0
      /\ x (state after) = x (state self) /\ y (state after) = y (state self)
  | free_motion_regime =>
      corner_trapped (state before) = false /\ drill_end_time (state before) = 0
      /\ x (state after) = x (state (_update_bouncing_position before))
      /\ y (state after) = y (state (_update_bouncing_position before))
      /\ (hit_wall before = false ->
          x (state after) = x (state self) + vx (state before)
          /\ y (state after) = y (state self) + vy (state before))
  end.
Proof.
  exact (one_position_regime_per_frame no_float (initialize 1280 720) 0 (frame_at 1)
           (reachable_initialize no_float 1280 720)).
Defined.

Lemma repeated_drill_stops_the_star_witness :
  let self := initialize 1280 720 in
  let first := fst (manipulate no_float self "drill" VNone 100 100) in
  let running := run_frames [frame_at 101] first in
  let second := fst (manipulate no_float running "drill" VNone 102 102) in
  let expired := update (run_frames [frame_at 103] second) (frame_at 105) in
  let later := run_frames [frame_at 106] expired in
  (102 < drill_end_time (state running)
   /\ drill_saved_vx (state running) = vx (state self)
   /\ drill_saved_vy (state running) = vy (state self)
   /\ vx (state running) = 0 /\ vy (state running) = 0)
  /\ (drill_saved_vx (state second) = 0 /\ drill_saved_vy (state second) = 0)
  /\ (drill_end_time (state expired) = 0
      /\ vx (state expired) = 0 /\ vy (state expired) = 0)
  /\ (vx (state later) = 0 /\ vy (state later) = 0)
  /\ (no_wall_hit [frame_at 106] expired ->
      x (state later) = x (state expired) /\ y (state later) = y (state expired)).
Proof.
  apply (repeated_drill_stops_the_star no_float (initialize 1280 720) VNone VNone
           100 100 102 102 [frame_at 101] [frame_at 103] [frame_at 106] (frame_at 105)).
  - reflexivity.
  - lra.
  - lra.
  - lra.
  - repeat constructor; cbn; lra.
  - repeat constructor; cbn; lra.
  - cbn. lra.
Defined.

(** C10 as stated fails: a trap set at 100 holds the star when the first
    drill starts at 108; the frame at 110 releases the trap and puts the
    velocity (0.5, 0.5) back while the drill timer (111) still runs. The
    second drill at 110.5 finds a drill active and saves (0.5, 0.5), and the
    frame at 113.5 restores it: the star moves. *)
Lemma repeated_drill_after_trap_release_moves :
  let trapped := fst (manipulate no_float (initialize 1280 720) "corner_trap" VNone 100 100) in
  let first := fst (manipulate no_float trapped "drill" VNone 108 108) in
  let running := update first (frame_at 110) in
  let second := fst (manipulate no_float running "drill" VNone 110.5 110.5) in
  let expired := update second (frame_at 113.5) in
  (110.5 < drill_end_time (state running)
   /\ vx (state running) = 0.5 /\ vy (state running) = 0.5)
  /\ (drill_saved_vx (state second) = 0.5 /\ drill_saved_vy (state second) = 0.5)
  /\ (drill_end_time (state expired) = 0
      /\ vx (state expired) = 0.5 /\ vy (state expired) = 0.5)
  /\ (x (state expired) = x (state second) + 0.5
      /\ y (state expired) = y (state second) + 0.5).
Proof.
  cbv zeta.
  evar (c : (R * R)%type).
  assert (Hc : nearest_corner (initialize 1280 720) = c).
  { eval_nearest. subst c. reflexivity. }
  evar (s1 : ClaudeScreensaver).
  assert (H1 : fst (manipulate no_float (initialize 1280 720) "corner_trap" VNone 100 100)
               = s1).
  { unfold manipulate. cbn [String.eqb Ascii.eqb Bool.eqb fst]. rewrite Hc.
    subst c. eval_records. subst s1. reflexivity. }
  rewrite H1. clear H1 Hc.
  evar (s2 : ClaudeScreensaver).
  assert (H2 : fst (manipulate no_float s1 "drill" VNone 108 108) = s2).
  { subst s1. eval_records. subst s2. reflexivity. }
  rewrite H2. clear H2.
  evar (s3 : ClaudeScreensaver).
  assert (H3 : update s2 (frame_at 110) = s3).
  { subst s2. eval_update 27%Z. subst s3. reflexivity. }
  rewrite H3. clear H3.
  evar (s4 : ClaudeScreensaver).
  assert (H4 : fst (manipulate no_float s3 "drill" VNone 110.5 110.5) = s4).
  { subst s3. eval_records. subst s4. reflexivity. }
  rewrite H4. clear H4.
  evar (s5 : ClaudeScreensaver).
  assert (H5 : update s4 (frame_at 113.5) = s5).
  { subst s4. eval_update 28%Z. subst s5. reflexivity. }
  rewrite H5. clear H5.
  subst c s1 s2 s3 s4 s5. cbn. repeat split; try reflexivity; lra.
Qed.

(** * Further properties of the program *)

(** ** Commands that raise *)

Lemma manipulate_raised_state (str_to_float : string -> option R)
    (self : ClaudeScreensaver) (action : string) (parameters : PyVal)
    (current_time t_cancel : R) (e : PyExn) :
  snd (manipulate str_to_float self action parameters current_time t_cancel) = Raised e ->
  fst (manipulate str_to_float self action parameters current_time t_cancel) = self.
Proof.
  unfold manipulate.
  repeat match goal with
         | |- context [String.eqb action ?a] => destruct (String.eqb action a)
         end; try discriminate.
  - destruct (py_get _ "color" _) as [err | [| | | | c | |]]; cbn; intros H;
      first [discriminate H | reflexivity].
  - destruct (py_get _ "opacity" _) as [err | v]; cbn; [reflexivity |].
    destruct (py_float str_to_float v); cbn; intros H; first [discriminate H | reflexivity].
  - destruct (py_get _ "enabled" _) as [err | v]; cbn; intros H;
      first [discriminate H | reflexivity].
Qed.

(** X1. When [manipulate] raises, the object is as it was before the
    call, and the action is one of the three that read a parameter. *)
Theorem manipulate_raise_leaves_state (str_to_float : string -> option R)
    (self : ClaudeScreensaver) (action : string) (parameters : PyVal)
    (current_time t_cancel : R) (e : PyExn) :
  snd (manipulate str_to_float self action parameters current_time t_cancel) = Raised e ->
  fst (manipulate str_to_float self action parameters current_time t_cancel) = self
  /\ (action = "color" \/ action = "opacity" \/ action = "googly_eyes").
Proof.
  unfold manipulate.
  destruct (String.eqb_spec action "shrink"); [discriminate |].
  destruct (String.eqb_spec action "spin_out"); [discriminate |].
  destruct (String.eqb_spec action "drill"); [discriminate |].
  destruct (String.eqb_spec action "corner_trap"); [discriminate |].
  destruct (String.eqb_spec action "color").
  { destruct (py_get _ "color" _) as [err | [| | | | c | |]]; cbn; intros H;
      first [discriminate H | auto]. }
  destruct (String.eqb_spec action "opacity").
  { destruct (py_get _ "opacity" _) as [err | v]; cbn; [auto |].
    destruct (py_float str_to_float v); cbn; intros H; first [discriminate H | auto]. }
  destruct (String.eqb_spec action "googly_eyes").
  { destruct (py_get _ "enabled" _) as [err | v]; cbn; intros H;
      first [discriminate H | auto]. }
  destruct (String.eqb_spec action "reset"); discriminate.
Qed.

Lemma manipulate_raise_leaves_state_witness :
  fst (manipulate no_float (initialize 1280 720) "opacity"
         (VDict {[ "opacity" := VStr "half" ]}) 100 100) = initialize 1280 720
  /\ ("opacity" = "color" \/ "opacity" = "opacity" \/ "opacity" = "googly_eyes").
Proof.
  apply (manipulate_raise_leaves_state no_float (initialize 1280 720) "opacity"
           (VDict {[ "opacity" := VStr "half" ]}) 100 100 ValueError).
  reflexivity.
Defined.

(** X2. Whatever the request, [manipulate_star] changes the object only
    when it answers with status 200: with any other status, or when an
    exception leaves the handler, the object is the one it was. *)
Theorem manipulate_star_changes_only_on_200 (str_to_float : string -> option R)
    (screensaver : option ClaudeScreensaver) (json : PyVal) (current_time t_cancel : R) :
  let result := manipulate_star str_to_float screensaver json current_time t_cancel in
  match fst result with
  | Json code _ => code = 200%nat \/ snd result = screensaver
  | Unhandled _ => snd result = screensaver
  end.
Proof.
  cbv zeta. unfold manipulate_star.
  destruct screensaver as [self |]; [| right; reflexivity].
  destruct (py_get _ "action" _) as [err | action]; [reflexivity |].
  destruct (py_get _ "parameters" _) as [err | parameters]; [reflexivity |].
  destruct (negb (truthy action)); [right; reflexivity |].
  destruct (not_in_valid_actions action); [right; reflexivity |].
  destruct action as [| | | | a | |]; try (right; reflexivity).
  destruct (manipulate str_to_float self a parameters current_time t_cancel)
    as [self' [| e]] eqn:Hm; cbn; [left; reflexivity |].
  pose proof (manipulate_raised_state str_to_float self a parameters
                current_time t_cancel e) as Hsame.
  rewrite Hm in Hsame. cbn in Hsame. rewrite Hsame by reflexivity. reflexivity.
Qed.

(** ** The heartbeat *)

Lemma py_mod_range (a b : R) : 0 < b -> 0 <= py_mod a b < b.
Proof.
  intros Hb. unfold py_mod.
  destruct (base_Int_part (a / b)) as [Hlo Hhi].
  assert (Ha : a = a / b * b) by (unfold Rdiv; rewrite Rmult_assoc, Rinv_l by lra; lra).
  split.
  - apply (Rmult_le_compat_r b) in Hlo; [| lra]. rewrite <- Ha in Hlo. lra.
  - assert (H : (a / b - 1) * b < IZR (Int_part (a / b)) * b)
      by (apply Rmult_lt_compat_r; lra).
    rewrite Rmult_minus_distr_r, <- Ha in H. lra.
Qed.

Lemma py_mod_period (a b : R) : 0 < b -> py_mod (a + b) b = py_mod a b.
Proof.
  intros Hb. unfold py_mod.
  destruct (base_Int_part (a / b)) as [Hlo Hhi].
  assert (Hdiv : (a + b) / b = a / b + 1) by (unfold Rdiv; field; lra).
  rewrite <- (Int_part_spec ((a + b) / b) (Int_part (a / b) + 1)).
  - rewrite plus_IZR. lra.
  - rewrite Hdiv, plus_IZR. lra.
Qed.

(** The pulse as a function of the phase of the cycle, as
    [_update_heartbeat] computes it. *)
Lemma heartbeat_pulse_of_phase (self : ClaudeScreensaver) (t : R) :
  let phase := py_mod t 4.0 / 4.0 in
  heartbeat_pulse (state (_update_heartbeat self t)) =
  if Rltb phase 0.125 then sin (phase / 0.125 * PI)
  else if Rltb phase 0.2 then sin ((phase - 0.125) / 0.075 * PI) * 0.25
  else 0.0.
Proof. reflexivity. Qed.

Lemma heartbeat_pulse_range (self : ClaudeScreensaver) (t : R) :
  0 <= heartbeat_pulse (state (_update_heartbeat self t)) <= 1.
Proof.
  pose proof PI_RGT_0 as Hpi.
  rewrite heartbeat_pulse_of_phase. cbv zeta.
  destruct (py_mod_range t 4.0) as [Hlo Hhi]; [lra |].
  set (phase := py_mod t 4.0 / 4.0).
  assert (Hphase : 0 <= phase < 1) by (unfold phase; lra).
  destruct (Rltb_spec phase 0.125) as [Hqrs | Hlater].
  - pose proof (SIN_bound (phase / 0.125 * PI)) as Hb.
    pose proof (sin_ge_0 (phase / 0.125 * PI)) as Hge.
    split; [apply Hge; nra | lra].
  - destruct (Rltb_spec phase 0.2) as [Ht | Hrest]; [| lra].
    pose proof (SIN_bound ((phase - 0.125) / 0.075 * PI)) as Hb.
    pose proof (sin_ge_0 ((phase - 0.125) / 0.075 * PI)) as Hge.
    assert (0 <= sin ((phase - 0.125) / 0.075 * PI)) by (apply Hge; nra).
    lra.
Qed.

(** X3. Whatever the clock reads, the heartbeat pulse lies in [[0, 1]];
    it is at most 0.25 after the first eighth of the 4-second cycle and 0
    after the first fifth. *)
Theorem heartbeat_pulse_shape (self : ClaudeScreensaver) (t : R) :
  let phase := py_mod t 4.0 / 4.0 in
  let pulse := heartbeat_pulse (state (_update_heartbeat self t)) in
  0 <= phase < 1
  /\ 0 <= pulse <= 1
  /\ (0.125 <= phase -> pulse <= 0.25)
  /\ (0.2 <= phase -> pulse = 0).
Proof.
  cbv zeta. split; [destruct (py_mod_range t 4.0); lra |].
  split; [apply heartbeat_pulse_range |].
  rewrite heartbeat_pulse_of_phase. cbv zeta. split; intros Hphase.
  - rewrite Rltb_false by exact Hphase.
    destruct (Rltb_spec (py_mod t 4.0 / 4.0) 0.2); [| lra].
    pose proof (SIN_bound ((py_mod t 4.0 / 4.0 - 0.125) / 0.075 * PI)). lra.
  - rewrite !Rltb_false by lra. lra.
Qed.

(** X4. The heartbeat repeats every 4 seconds: the pulse computed at
    [t + 4] is the pulse computed at [t]. *)
Theorem heartbeat_repeats_every_cycle (self : ClaudeScreensaver) (t : R) :
  heartbeat_pulse (state (_update_heartbeat self (t + 4)))
  = heartbeat_pulse (state (_update_heartbeat self t)).
Proof.
  rewrite !heartbeat_pulse_of_phase. cbv zeta.
  replace (t + 4) with (t + 4.0) by lra.
  rewrite py_mod_period by lra. reflexivity.
Qed.

(** ** Scale over a frame *)

Lemma check_shrink_expiration_fields (self : ClaudeScreensaver) (t : R) :
  let s' := state (check_shrink_expiration self t) in
  shrink_end_time s' = (if shrink_expires self t then 0 else shrink_end_time (state self))
  /\ target_scale s' = (if shrink_expires self t then 1.0 else target_scale (state self)).
Proof.
  cbv zeta. unfold check_shrink_expiration, shrink_expires.
  case_if; cbn; [case_if; cbn |]; split; reflexivity.
Qed.

(** The timer and the two scales a frame ends with. *)
Lemma scales_update (self : ClaudeScreensaver) (fr : Frame) :
  let s' := state (update self fr) in
  let s := state self in
  let pulse := heartbeat_pulse (state (_update_heartbeat self (t_heartbeat fr))) in
  let end_time := if shrink_expires self (t_effects fr) then 0 else shrink_end_time s in
  let target := if Reqb end_time 0 then 1.0 + pulse * 0.08 else target_scale s in
  shrink_end_time s' = end_time
  /\ heartbeat_pulse s' = pulse
  /\ target_scale s' = target
  /\ current_scale s' = current_scale s + (target - current_scale s) * 0.15.
Proof.
  cbv zeta. open_update.
  set (h := _update_heartbeat self (t_heartbeat fr)).
  set (e := update_spin_out_phases _ _).
  assert (Hend : shrink_end_time (state e)
                 = if shrink_expires self (t_effects fr) then 0
                   else shrink_end_time (state self)).
  { subst e. repeat peel.
    destruct (check_shrink_expiration_fields (decay_wall_impact h) (t_effects fr)) as [H _].
    cbv zeta in H. rewrite H. unfold shrink_expires. subst h. repeat peel. reflexivity. }
  assert (Htarget : target_scale (state e)
                    = if shrink_expires self (t_effects fr) then 1.0
                      else target_scale (state self)).
  { subst e. repeat peel.
    destruct (check_shrink_expiration_fields (decay_wall_impact h) (t_effects fr)) as [_ H].
    cbv zeta in H. rewrite H. unfold shrink_expires. subst h. repeat peel. reflexivity. }
  assert (Hpulse : heartbeat_pulse (state e) = heartbeat_pulse (state h)).
  { subst e. repeat peel. reflexivity. }
  assert (Hcurrent : current_scale (state e) = current_scale (state self)).
  { subst e h. repeat peel. reflexivity. }
  clearbody e h. repeat peel.
  unfold update_scale_and_rotation. rewrite <- Hend.
  destruct (Reqb_spec (shrink_end_time (state e)) 0) as [Hz | Hnz]; cbn;
    rewrite ?Hpulse, ?Hcurrent.
  - repeat split; reflexivity.
  - rewrite Htarget. destruct (shrink_expires self (t_effects fr)); [| repeat split; reflexivity].
    rewrite Hend in Hnz. contradiction.
Qed.

Lemma scales_in_range_frame (self : ClaudeScreensaver) (fr : Frame) :
  scales_in_range self -> scales_in_range (update self fr).
Proof.
  intros [Ht Hc]. destruct (scales_update self fr) as [_ [_ [Htarget Hcurrent]]].
  cbv zeta in *. unfold scales_in_range. rewrite Hcurrent, Htarget.
  pose proof (heartbeat_pulse_range self (t_heartbeat fr)) as Hp.
  destruct (Reqb _ 0); lra.
Qed.

Section ScaleOfCommands.

Variable str_to_float : string -> option R.

Lemma scales_in_range_command (self : ClaudeScreensaver) (action : string)
    (parameters : PyVal) (current_time t_cancel : R) :
  scales_in_range self ->
  scales_in_range (fst (manipulate str_to_float self action parameters
                          current_time t_cancel)).
Proof.
  intros [Ht Hc]. unfold scales_in_range, manipulate.
  repeat match goal with
         | |- context [String.eqb action ?a] => destruct (String.eqb action a)
         end; cbn; repeat peel; try lra.
  - destruct (py_get _ "color" _) as [err | [| | | | c | |]]; cbn; lra.
  - destruct (py_get _ "opacity" _) as [err | v]; cbn; [lra |].
    destruct (py_float str_to_float v); cbn; lra.
  - destruct (py_get _ "enabled" _) as [err | v]; cbn; lra.
Qed.

Lemma reachable_scales_in_range (self : ClaudeScreensaver) (t : R) :
  reachable str_to_float self t -> scales_in_range self.
Proof.
  induction 1 as [width height | self t e Hreach IH Hfirst Hlast].
  - unfold scales_in_range. cbn. lra.
  - destruct e as [fr | action parameters current_time t_cancel]; cbn [step].
    + apply scales_in_range_frame. exact IH.
    + apply scales_in_range_command. exact IH.
Qed.

(** X5. In every reachable state the target scale and the current scale
    lie between 0.2 and 1.08; in particular the current scale is positive,
    and so is the radius the collision test uses in the next frame. *)
Theorem scale_stays_in_range (self : ClaudeScreensaver) (t : R) :
  reachable str_to_float self t ->
  scales_in_range self
  /\ 0 < current_scale (state self)
  /\ (forall fr : Frame,
        0 < STAR_BASE_SIZE * current_scale (state (update self fr)) / 2 <= 129.6).
Proof.
  intros Hreach. pose proof (reachable_scales_in_range self t Hreach) as H.
  split; [exact H |]. split; [destruct H as [_ Hc]; lra |].
  intros fr. destruct (scales_in_range_frame self fr H) as [_ Hc].
  unfold STAR_BASE_SIZE. lra.
Qed.

End ScaleOfCommands.

Lemma scale_stays_in_range_witness :
  scales_in_range (initialize 1280 720)
  /\ 0 < current_scale (state (initialize 1280 720))
  /\ (forall fr : Frame,
        0 < STAR_BASE_SIZE * current_scale (state (update (initialize 1280 720) fr)) / 2
          <= 129.6).
Proof.
  exact (scale_stays_in_range no_float (initialize 1280 720) 0
           (reachable_initialize no_float 1280 720)).
Defined.

(** ** The timed overrides: shrink, color, opacity *)

Lemma shrinking_effect_tag (self : ClaudeScreensaver) (fr : Frame) :
  effect_active (state self) = Some shrink ->
  effect_active (state (update self fr)) =
  if shrink_expires self (t_effects fr) then None else Some shrink.
Proof.
  intros H. rewrite effect_active_update. cbv zeta. rewrite H. unfold clear_effect.
  destruct (shrink_expires self (t_effects fr)), (drill_expires self (t_effects fr)),
    (trap_expires self (t_effects fr)), (spin_out_ends self (t_effects fr)); reflexivity.
Qed.

Section Shrink.

Variable t_end : R.
Hypothesis t_end_positive : 0 < t_end.

(** A frame before the end of a shrink keeps the timer, the target 0.2
    and the tag, and moves the current scale 15% of the way to 0.2. *)
Lemma shrinking_frame (self : ClaudeScreensaver) (fr : Frame) :
  shrink_end_time (state self) = t_end ->
  target_scale (state self) = 0.2 ->
  effect_active (state self) = Some shrink ->
  t_effects fr < t_end ->
  shrink_end_time (state (update self fr)) = t_end
  /\ target_scale (state (update self fr)) = 0.2
  /\ effect_active (state (update self fr)) = Some shrink
  /\ current_scale (state (update self fr)) = 0.2 + (current_scale (state self) - 0.2) * 0.85.
Proof.
  intros Hend Htarget Htag Ht.
  assert (Hno : shrink_expires self (t_effects fr) = false).
  { unfold shrink_expires. rewrite Hend, Rgeb_false by lra. apply andb_false_r. }
  destruct (scales_update self fr) as [He [_ [Hts Hcs]]]. cbv zeta in *.
  rewrite Hno, Hend, Reqb_false in * by lra.
  rewrite (shrinking_effect_tag self fr Htag), Hno, He, Hts, Hcs, Htarget.
  repeat split; try reflexivity. lra.
Qed.

Lemma shrinking_run (frames : list Frame) (self : ClaudeScreensaver) :
  shrink_end_time (state self) = t_end ->
  target_scale (state self) = 0.2 ->
  effect_active (state self) = Some shrink ->
  Forall (fun fr => t_effects fr < t_end) frames ->
  shrink_end_time (state (run_frames frames self)) = t_end
  /\ target_scale (state (run_frames frames self)) = 0.2
  /\ effect_active (state (run_frames frames self)) = Some shrink
  /\ current_scale (state (run_frames frames self))
     = 0.2 + (current_scale (state self) - 0.2) * 0.85 ^ length frames.
Proof.
  revert self. induction frames as [| fr frames IH]; intros self Hend Htarget Htag Hok.
  - cbn [length pow]. repeat split; try assumption.
    change (run_frames [] self) with self. lra.
  - pose proof (Forall_inv Hok) as Hfr. pose proof (Forall_inv_tail Hok) as Hrest.
    cbv beta in Hfr. rewrite run_frames_cons.
    destruct (shrinking_frame self fr Hend Htarget Htag Hfr) as [He [Hts [Hta Hcs]]].
    destruct (IH (update self fr) He Hts Hta Hrest) as [He' [Hts' [Hta' Hcs']]].
    repeat split; try assumption.
    rewrite Hcs', Hcs. cbn [length pow]. ring.
Qed.

End Shrink.

(** X6. After [manipulate("shrink")] at [t0], over [n] frames before
    [t0 + 15] the target scale is 0.2 and the current scale closes 15% of
    its distance to 0.2 in each frame: it is
    [0.2 + (c0 - 0.2) * 0.85 ^ n]. The first frame at or after [t0 + 15]
    clears the timer and the effect tag and puts the target back to the
    heartbeat scale [1.0 + pulse * 0.08]. *)
Theorem shrink_eases_then_expires (str_to_float : string -> option R)
    (self : ClaudeScreensaver) (parameters : PyVal) (t0 t_cancel : R)
    (frames : list Frame) (fr : Frame) :
  0 <= t0 ->
  Forall (fun fr' => t_effects fr' < t0 + 15.0) frames ->
  t0 + 15.0 <= t_effects fr ->
  let shrunk := fst (manipulate str_to_float self "shrink" parameters t0 t_cancel) in
  let before := run_frames frames shrunk in
  let after := update before fr in
  (target_scale (state before) = 0.2
   /\ current_scale (state before)
      = 0.2 + (current_scale (state self) - 0.2) * 0.85 ^ length frames
   /\ effect_active (state before) = Some shrink)
  /\ (shrink_end_time (state after) = 0
      /\ effect_active (state after) = None
      /\ target_scale (state after) = 1.0 + heartbeat_pulse (state after) * 0.08).
Proof.
  intros Ht0 Hok Hfr. cbv zeta.
  set (shrunk := fst (manipulate str_to_float self "shrink" parameters t0 t_cancel)).
  assert (Hshrunk : shrink_end_time (state shrunk) = t0 + 15.0
                    /\ target_scale (state shrunk) = 0.2
                    /\ effect_active (state shrunk) = Some shrink
                    /\ current_scale (state shrunk) = current_scale (state self)).
  { subst shrunk. cbn. auto. }
  destruct Hshrunk as [Hend [Htarget [Htag Hcurrent]]].
  assert (Hpos : 0 < t0 + 15.0) by lra.
  destruct (shrinking_run (t0 + 15.0) Hpos frames shrunk Hend Htarget Htag Hok)
    as [He [Hts [Hta Hcs]]].
  rewrite Hcurrent in Hcs. split; [auto |].
  assert (Hyes : shrink_expires (run_frames frames shrunk) (t_effects fr) = true).
  { unfold shrink_expires. rewrite He, Rgtb_true, Rgeb_true by lra. reflexivity. }
  destruct (scales_update (run_frames frames shrunk) fr) as [He' [Hp' [Hts' _]]].
  cbv zeta in *. rewrite Hyes, Reqb_true in * by reflexivity.
  rewrite (shrinking_effect_tag _ fr Hta), Hyes, He', Hts', Hp'. auto.
Qed.

Lemma shrink_eases_then_expires_witness :
  let shrunk := fst (manipulate no_float (initialize 1280 720) "shrink" VNone 100 100) in
  let before := run_frames [frame_at 101; frame_at 102] shrunk in
  let after := update before (frame_at 115) in
  (target_scale (state before) = 0.2
   /\ current_scale (state before)
      = 0.2 + (current_scale (state (initialize 1280 720)) - 0.2)
              * 0.85 ^ length [frame_at 101; frame_at 102]
   /\ effect_active (state before) = Some shrink)
  /\ (shrink_end_time (state after) = 0
      /\ effect_active (state after) = None
      /\ target_scale (state after) = 1.0 + heartbeat_pulse (state after) * 0.08).
Proof.
  apply (shrink_eases_then_expires no_float (initialize 1280 720) VNone 100 100
           [frame_at 101; frame_at 102] (frame_at 115)).
  - lra.
  - repeat constructor; cbn; lra.
  - cbn. lra.
Defined.

(** The color and the opacity a frame ends with. *)
Lemma color_update (self : ClaudeScreensaver) (fr : Frame) :
  let s' := state (update self fr) in
  let s := state self in
  let expires := Rgtb (color_end_time s) 0 && Rgeb (t_effects fr) (color_end_time s) in
  color s' = (if expires then DEFAULT_COLOR else color s)
  /\ color_end_time s' = (if expires then 0 else color_end_time s).
Proof.
  cbv zeta. open_update. repeat peel.
  unfold check_color_expiration. repeat peel.
  case_if; cbn; repeat peel; split; reflexivity.
Qed.

Lemma opacity_update (self : ClaudeScreensaver) (fr : Frame) :
  let s' := state (update self fr) in
  let s := state self in
  let expires := Rgtb (opacity_end_time s) 0 && Rgeb (t_effects fr) (opacity_end_time s) in
  opacity s' = (if expires then 1.0 else opacity s)
  /\ opacity_end_time s' = (if expires then 0 else opacity_end_time s).
Proof.
  cbv zeta. open_update. repeat peel.
  unfold check_opacity_expiration. repeat peel.
  case_if; cbn; repeat peel; split; reflexivity.
Qed.

(** X7. A color set by [manipulate("color")] at [t0] stays through every
    frame before [t0 + 15]; the first frame at or after [t0 + 15] puts the
    default color back and clears the timer, after which frames leave the
    color alone. *)
Theorem color_override_expires (str_to_float : string -> option R)
    (self : ClaudeScreensaver) (c : string) (t0 t_cancel : R)
    (frames later : list Frame) (fr : Frame) :
  0 <= t0 ->
  Forall (fun fr' => t_effects fr' < t0 + 15.0) frames ->
  t0 + 15.0 <= t_effects fr ->
  let colored := fst (manipulate str_to_float self "color"
                        (VDict {[ "color" := VStr c ]}) t0 t_cancel) in
  let before := run_frames frames colored in
  let after := update before fr in
  color (state colored) = (if String.prefix "#" c then c else "#" ++ c)
  /\ color (state before) = color (state colored)
  /\ (color (state after) = DEFAULT_COLOR /\ color_end_time (state after) = 0)
  /\ color (state (run_frames later after)) = DEFAULT_COLOR.
Proof.
  intros Ht0 Hok Hfr. cbv zeta.
  set (colored := fst (manipulate str_to_float self "color"
                         (VDict {[ "color" := VStr c ]}) t0 t_cancel)).
  assert (Hcolored : color (state colored) = (if String.prefix "#" c then c else "#" ++ c)
                     /\ color_end_time (state colored) = t0 + 15.0).
  { subst colored. unfold manipulate. cbn [String.eqb Ascii.eqb Bool.eqb].
    rewrite single_parameter. cbn.
    destruct (String.prefix "#" c); split; reflexivity. }
  destruct Hcolored as [Hc Hend]. split; [exact Hc |].
  assert (Hbefore : color (state (run_frames frames colored)) = color (state colored)
                    /\ color_end_time (state (run_frames frames colored)) = t0 + 15.0).
  { apply (run_frames_invariant
             (fun s => color (state s) = color (state colored)
                       /\ color_end_time (state s) = t0 + 15.0)
             (fun fr' => t_effects fr' < t0 + 15.0)); [| auto | exact Hok].
    intros s fr' [Hsc Hse] Hfr'. destruct (color_update s fr') as [H1 H2].
    cbv zeta in *. rewrite H1, H2, Hse, Rgeb_false by lra. rewrite andb_false_r. auto. }
  destruct Hbefore as [Hbc Hbe]. split; [exact Hbc |].
  assert (Hafter : color (state (update (run_frames frames colored) fr)) = DEFAULT_COLOR
                   /\ color_end_time (state (update (run_frames frames colored) fr)) = 0).
  { destruct (color_update (run_frames frames colored) fr) as [H1 H2].
    cbv zeta in *. rewrite H1, H2, Hbe, Rgtb_true, Rgeb_true by lra. auto. }
  split; [exact Hafter |].
  apply (run_frames_invariant
           (fun s => color (state s) = DEFAULT_COLOR /\ color_end_time (state s) = 0)
           (fun _ => True)); [| exact Hafter | apply Forall_forall; auto].
  intros s fr' [Hsc Hse] _. destruct (color_update s fr') as [H1 H2].
  cbv zeta in *. rewrite H1, H2, Hse, Rgtb_false by lra. auto.
Qed.

Lemma color_override_expires_witness :
  let colored := fst (manipulate no_float (initialize 1280 720) "color"
                        (VDict {[ "color" := VStr "00ff00" ]}) 100 100) in
  let before := run_frames [frame_at 101; frame_at 114] colored in
  let after := update before (frame_at 115) in
  color (state colored) = (if String.prefix "#" "00ff00" then "00ff00" else "#" ++ "00ff00")
  /\ color (state before) = color (state colored)
  /\ (color (state after) = DEFAULT_COLOR /\ color_end_time (state after) = 0)
  /\ color (state (run_frames [frame_at 116] after)) = DEFAULT_COLOR.
Proof.
  apply (color_override_expires no_float (initialize 1280 720) "00ff00" 100 100
           [frame_at 101; frame_at 114] [frame_at 116] (frame_at 115)).
  - lra.
  - repeat constructor; cbn; lra.
  - cbn. lra.
Defined.

(** X8. An opacity parameter that [float] converts to [r] (a float, an
    int that is not too large, a string that parses) is set, clamped, by
    [manipulate("opacity")] at [t0] and stays through every frame before
    [t0 + 15]; the first frame at or after [t0 + 15] puts the opacity back
    to 1 and clears the timer; before that frame the opacity is in
    [[0, 1]]. *)
Theorem opacity_override_expires (str_to_float : string -> option R)
    (self : ClaudeScreensaver) (value : PyVal) (r : R) (t0 t_cancel : R)
    (frames : list Frame) (fr : Frame) :
  py_float str_to_float value = inr r ->
  0 <= t0 ->
  Forall (fun fr' => t_effects fr' < t0 + 15.0) frames ->
  t0 + 15.0 <= t_effects fr ->
  let faded := fst (manipulate str_to_float self "opacity"
                      (VDict {[ "opacity" := value ]}) t0 t_cancel) in
  let before := run_frames frames faded in
  let after := update before fr in
  opacity (state faded) = Rmax 0 (Rmin 1 r)
  /\ opacity (state before) = opacity (state faded)
  /\ 0 <= opacity (state before) <= 1
  /\ (opacity (state after) = 1 /\ opacity_end_time (state after) = 0).
Proof.
  intros Hvalue Ht0 Hok Hfr. cbv zeta.
  set (faded := fst (manipulate str_to_float self "opacity"
                       (VDict {[ "opacity" := value ]}) t0 t_cancel)).
  assert (Hfaded : opacity (state faded) = Rmax 0 (Rmin 1 r)
                   /\ opacity_end_time (state faded) = t0 + 15.0).
  { subst faded. unfold manipulate. cbn [String.eqb Ascii.eqb Bool.eqb].
    rewrite single_parameter, Hvalue. cbn. rewrite clamp_is_Rmax_Rmin.
    split; reflexivity. }
  destruct Hfaded as [Ho Hend]. split; [exact Ho |].
  assert (Hbefore : opacity (state (run_frames frames faded)) = opacity (state faded)
                    /\ opacity_end_time (state (run_frames frames faded)) = t0 + 15.0).
  { apply (run_frames_invariant
             (fun s => opacity (state s) = opacity (state faded)
                       /\ opacity_end_time (state s) = t0 + 15.0)
             (fun fr' => t_effects fr' < t0 + 15.0)); [| auto | exact Hok].
    intros s fr' [Hso Hse] Hfr'. destruct (opacity_update s fr') as [H1 H2].
    cbv zeta in *. rewrite H1, H2, Hse, Rgeb_false by lra. rewrite andb_false_r. auto. }
  destruct Hbefore as [Hbo Hbe]. split; [exact Hbo |]. split.
  - rewrite Hbo, Ho. apply clamp_in_range.
  - destruct (opacity_update (run_frames frames faded) fr) as [H1 H2].
    cbv zeta in *. rewrite H1, H2, Hbe, Rgtb_true, Rgeb_true by lra.
    split; [cbn; lra | reflexivity].
Qed.

Lemma opacity_override_expires_witness :
  let faded := fst (manipulate no_float (initialize 1280 720) "opacity"
                      (VDict {[ "opacity" := VInt 3 ]}) 100 100) in
  let before := run_frames [frame_at 101; frame_at 114] faded in
  let after := update before (frame_at 115) in
  opacity (state faded) = Rmax 0 (Rmin 1 3)
  /\ opacity (state before) = opacity (state faded)
  /\ 0 <= opacity (state before) <= 1
  /\ (opacity (state after) = 1 /\ opacity_end_time (state after) = 0).
Proof.
  apply (opacity_override_expires no_float (initialize 1280 720) (VInt 3) 3 100 100
           [frame_at 101; frame_at 114] (frame_at 115)).
  - reflexivity.
  - lra.
  - repeat constructor; cbn; lra.
  - cbn. lra.
Defined.

(** ** The walls *)

Ltac case_tests :=
  repeat match goal with
         | |- context [Rltb ?a ?b] => destruct (Rltb_spec a b)
         | |- context [Rgtb ?a ?b] => destruct (Rgtb_spec a b)
         end.

(** On a display that has room for the star, the bouncing step leaves
    the star inside the padding. *)
Lemma bouncing_inside_walls (self : ClaudeScreensaver) :
  let radius := STAR_BASE_SIZE * current_scale (state self) / 2 in
  2 * radius + 8 <= display_width self ->
  2 * radius + 8 <= display_height self ->
  inside_walls (_update_bouncing_position self) radius.
Proof.
  cbv zeta. intros Hw Hh.
  unfold inside_walls, _update_bouncing_position, wall_collisions, bounce_x, bounce_y.
  case_tests; cbn in *; repeat split; lra.
Qed.

(** X9. The bouncing step on a display that has room for the star: the
    star ends inside the 4 px padding; where the step forward would cross
    the left (top) wall the star is put against it with a velocity
    component that is not negative, where it would cross the right (bottom)
    wall it is put against that one with a component that is not positive;
    the wall impact is 0.02 exactly when one of the four tests fires. *)
Theorem bounce_turns_star_back (self : ClaudeScreensaver) :
  let radius := STAR_BASE_SIZE * current_scale (state self) / 2 in
  let next_x := x (state self) + vx (state self) in
  let next_y := y (state self) + vy (state self) in
  let after := _update_bouncing_position self in
  2 * radius + 8 <= display_width self ->
  2 * radius + 8 <= display_height self ->
  inside_walls after radius
  /\ (next_x - radius < 4 ->
      x (state after) = radius + 4 /\ 0 <= vx (state after))
  /\ (4 <= next_x - radius -> display_width self - 4 < next_x + radius ->
      x (state after) = display_width self - 4 - radius /\ vx (state after) <= 0)
  /\ (next_y - radius < 4 ->
      y (state after) = radius + 4 /\ 0 <= vy (state after))
  /\ (4 <= next_y - radius -> display_height self - 4 < next_y + radius ->
      y (state after) = display_height self - 4 - radius /\ vy (state after) <= 0)
  /\ (4 <= next_x - radius -> next_x + radius <= display_width self - 4 ->
      4 <= next_y - radius -> next_y + radius <= display_height self - 4 ->
      x (state after) = next_x /\ y (state after) = next_y
      /\ vx (state after) = vx (state self) /\ vy (state after) = vy (state self)
      /\ wall_impact (state after) = wall_impact (state self)).
Proof.
  cbv zeta. intros Hw Hh.
  split; [apply bouncing_inside_walls; assumption |].
  pose proof (Rabs_pos (vx (state self))) as Hax.
  pose proof (Rabs_pos (vy (state self))) as Hay.
  unfold _update_bouncing_position, wall_collisions, bounce_x, bounce_y.
  case_tests; cbn in *; repeat split; intros; try reflexivity; lra.
Qed.

Lemma bounce_turns_star_back_witness :
  let self := assign (set_x 1156.2) (initialize 1280 720) in
  let radius := STAR_BASE_SIZE * current_scale (state self) / 2 in
  let next_x := x (state self) + vx (state self) in
  let next_y := y (state self) + vy (state self) in
  let after := _update_bouncing_position self in
  inside_walls after radius
  /\ (next_x - radius < 4 ->
      x (state after) = radius + 4 /\ 0 <= vx (state after))
  /\ (4 <= next_x - radius -> display_width self - 4 < next_x + radius ->
      x (state after) = display_width self - 4 - radius /\ vx (state after) <= 0)
  /\ (next_y - radius < 4 ->
      y (state after) = radius + 4 /\ 0 <= vy (state after))
  /\ (4 <= next_y - radius -> display_height self - 4 < next_y + radius ->
      y (state after) = display_height self - 4 - radius /\ vy (state after) <= 0)
  /\ (4 <= next_x - radius -> next_x + radius <= display_width self - 4 ->
      4 <= next_y - radius -> next_y + radius <= display_height self - 4 ->
      x (state after) = next_x /\ y (state after) = next_y
      /\ vx (state after) = vx (state self) /\ vy (state after) = vy (state self)
      /\ wall_impact (state after) = wall_impact (state self)).
Proof.
  apply (bounce_turns_star_back (assign (set_x 1156.2) (initialize 1280 720)));
    cbn; unfold STAR_BASE_SIZE; lra.
Defined.

Section OnScreen.

Variable str_to_float : string -> option R.

(** X10. On a display of at least 268 by 268 px, every frame of a
    reachable state that moves the star freely leaves it, with the radius
    of that frame, inside the 4 px padding of the display. *)
Theorem star_stays_on_screen (self : ClaudeScreensaver) (t : R) (fr : Frame) :
  reachable str_to_float self t ->
  268 <= display_width self ->
  268 <= display_height self ->
  regime_of (update_before_position self fr) = free_motion_regime ->
  inside_walls (update self fr)
    (STAR_BASE_SIZE * current_scale (state (update self fr)) / 2).
Proof.
  intros Hreach Hw Hh Hfree.
  destruct (reachable_invariant str_to_float self t Hreach) as [_ [Hd _]].
  destruct (scales_in_range_frame self fr
              (reachable_scales_in_range str_to_float self t Hreach)) as [_ Hc].
  assert (Hd' : 0 <= drill_end_time (state (update_before_position self fr))).
  { rewrite drill_end_time_before_position. case_if; lra. }
  assert (Hcb : current_scale (state (update self fr))
                = current_scale (state (update_before_position self fr))).
  { unfold update. repeat peel. reflexivity. }
  assert (Hwb : display_width (update_before_position self fr) = display_width self).
  { unfold update_before_position, _update_effects. repeat peel. reflexivity. }
  assert (Hhb : display_height (update_before_position self fr) = display_height self).
  { unfold update_before_position, _update_effects. repeat peel. reflexivity. }
  rewrite Hcb in Hc.
  unfold regime_of in Hfree.
  destruct (corner_trapped (state (update_before_position self fr))) eqn:Htrap;
    [discriminate Hfree |].
  destruct (Rgtb_spec (drill_end_time (state (update_before_position self fr))) 0)
    as [Hpos | Hzero]; [discriminate Hfree |].
  assert (Hz : drill_end_time (state (update_before_position self fr)) = 0) by lra.
  pose proof (bouncing_inside_walls (update_before_position self fr)) as Hin.
  cbv zeta in Hin. unfold inside_walls in *.
  assert (Hdw : display_width (_update_bouncing_position (update_before_position self fr))
                = display_width self) by (repeat peel; exact Hwb).
  assert (Hdh : display_height (_update_bouncing_position (update_before_position self fr))
                = display_height self) by (repeat peel; exact Hhb).
  rewrite Hdw, Hdh, Hwb, Hhb in Hin.
  unfold update. repeat peel.
  rewrite (update_position_free _ _ _ Htrap Hz), Hwb, Hhb.
  apply Hin; unfold STAR_BASE_SIZE; lra.
Qed.

End OnScreen.

Lemma star_stays_on_screen_witness :
  inside_walls (update (initialize 1280 720) (frame_at 1))
    (STAR_BASE_SIZE * current_scale (state (update (initialize 1280 720) (frame_at 1))) / 2).
Proof.
  apply (star_stays_on_screen no_float (initialize 1280 720) 0 (frame_at 1)).
  - apply reachable_initialize.
  - cbn. lra.
  - cbn. lra.
  - unfold regime_of. rewrite corner_trapped_before_position, drill_end_time_before_position.
    unfold trap_expires, drill_expires. cbn.
    rewrite (Rgtb_false 0.0 0) by lra. cbn.
    rewrite (Rgtb_false 0.0 0) by lra. reflexivity.
Defined.

(** ** The eyes *)

Lemma eyes_disabled_frame (self : ClaudeScreensaver) (fr : Frame) :
  eyes_enabled (state self) = false ->
  eyes_enabled (state (update self fr)) = false
  /\ left_eye (state (update self fr)) = left_eye (state self)
  /\ right_eye (state (update self fr)) = right_eye (state self).
Proof.
  intros H. split; [unfold update, update_before_position, _update_effects;
                    repeat peel; exact H |].
  unfold update. unfold _update_eye_physics.
  assert (Hoff : eyes_enabled (state (update_position (update_before_position self fr)
                                       (rand_x fr) (rand_y fr))) = false).
  { unfold update_before_position, _update_effects. repeat peel. exact H. }
  rewrite Hoff. cbn. unfold update_before_position, _update_effects. repeat peel.
  split; reflexivity.
Qed.

(** X11. While the googly eyes are disabled no frame moves them: over
    any run of frames both [EyeState] keep their angle and velocity, and
    the eyes stay disabled. *)
Theorem disabled_eyes_do_not_move (frames : list Frame) (self : ClaudeScreensaver) :
  eyes_enabled (state self) = false ->
  eyes_enabled (state (run_frames frames self)) = false
  /\ left_eye (state (run_frames frames self)) = left_eye (state self)
  /\ right_eye (state (run_frames frames self)) = right_eye (state self).
Proof.
  revert self. induction frames as [| fr frames IH]; intros self H.
  - auto.
  - rewrite run_frames_cons.
    destruct (eyes_disabled_frame self fr H) as [Hoff [Hl Hr]].
    destruct (IH (update self fr) Hoff) as [Hoff' [Hl' Hr']].
    rewrite Hl', Hr', Hl, Hr. auto.
Qed.

Lemma disabled_eyes_do_not_move_witness :
  eyes_enabled (state (run_frames [frame_at 1; frame_at 2] (initialize 1280 720))) = false
  /\ left_eye (state (run_frames [frame_at 1; frame_at 2] (initialize 1280 720)))
     = left_eye (state (initialize 1280 720))
  /\ right_eye (state (run_frames [frame_at 1; frame_at 2] (initialize 1280 720)))
     = right_eye (state (initialize 1280 720)).
Proof.
  apply (disabled_eyes_do_not_move [frame_at 1; frame_at 2] (initialize 1280 720)).
  reflexivity.
Defined.

(** ** The angle difference of the eye physics *)

Lemma while_above_pi_shift (fuel : nat) (d : R) :
  exists k : Z, while_above_pi fuel d = d + IZR k * (PI * 2).
Proof.
  revert d. induction fuel as [| fuel IH]; intros d.
  - exists 0%Z. cbn. lra.
  - cbn [while_above_pi]. destruct (Rgtb d PI).
    + destruct (IH (d - PI * 2)) as [k Hk]. exists (k - 1)%Z.
      rewrite Hk, minus_IZR. lra.
    + exists 0%Z. lra.
Qed.

Lemma while_below_pi_shift (fuel : nat) (d : R) :
  exists k : Z, while_below_pi fuel d = d + IZR k * (PI * 2).
Proof.
  revert d. induction fuel as [| fuel IH]; intros d.
  - exists 0%Z. cbn. lra.
  - cbn [while_below_pi]. destruct (Rltb d (- PI)).
    + destruct (IH (d + PI * 2)) as [k Hk]. exists (k + 1)%Z.
      rewrite Hk, plus_IZR. lra.
    + exists 0%Z. lra.
Qed.

Lemma while_above_pi_done (fuel : nat) (d : R) : d <= PI -> while_above_pi fuel d = d.
Proof.
  intros H. destruct fuel; [reflexivity |]. cbn. rewrite Rgtb_false by exact H. reflexivity.
Qed.

Lemma while_below_pi_done (fuel : nat) (d : R) : - PI <= d -> while_below_pi fuel d = d.
Proof.
  intros H. destruct fuel; [reflexivity |]. cbn. rewrite Rltb_false by exact H. reflexivity.
Qed.

(** X12. The two [while] loops of the eye physics bring any angle
    difference into [[-pi, pi]] by adding a whole number of turns, and
    leave a difference that is already there as it is. *)
Theorem wrap_diff_normalises (d : R) :
  - PI <= wrap_diff d <= PI
  /\ (exists k : Z, wrap_diff d = d + IZR k * (PI * 2))
  /\ (- PI <= d <= PI -> wrap_diff d = d).
Proof.
  split; [apply wrap_diff_range |]. split.
  - unfold wrap_diff.
    destruct (while_above_pi_shift (passes_above d) d) as [k1 H1].
    destruct (while_below_pi_shift (passes_below (while_above_pi (passes_above d) d))
                (while_above_pi (passes_above d) d)) as [k2 H2].
    exists (k1 + k2)%Z. rewrite H2, H1, plus_IZR. lra.
  - intros [Hlo Hhi]. unfold wrap_diff.
    rewrite (while_above_pi_done _ d Hhi). apply while_below_pi_done. exact Hlo.
Qed.

(** ** The two eyes *)

(** Without centrifugal force the outward target does not matter. *)
Lemma eye_update_slow (eye : EyeState) (target outward outward' kick impact : R) :
  eye_update eye target outward 0.0 kick impact
  = eye_update eye target outward' 0.0 kick impact.
Proof.
  unfold eye_update. cbv zeta.
  assert (H : forall g c : R, g + c * 0.0 = g) by (intros; lra).
  rewrite !H. reflexivity.
Qed.

Lemma eye_physics_slow (self : ClaudeScreensaver) :
  Rabs (rotation_speed (state self)) <= 2 ->
  left_eye (state self) = right_eye (state self) ->
  left_eye (state (_update_eye_physics self))
  = right_eye (state (_update_eye_physics self)).
Proof.
  intros Hslow Heq. unfold _update_eye_physics.
  destruct (eyes_enabled (state self)); cbn; [| exact Heq].
  unfold SPIN_THRESHOLD. rewrite Rgtb_false by lra. rewrite Heq.
  apply eye_update_slow.
Qed.

Lemma steady_rotation_frame (self : ClaudeScreensaver) (fr : Frame) :
  steady_rotation self ->
  steady_rotation (update self fr)
  /\ rotation_speed (state (update self fr)) = rotation_speed (state self)
  /\ rotation_angle (state (update self fr))
     = rotation_angle (state self) + rotation_speed (state self).
Proof.
  intros [Hphase Hd].
  assert (Hno : drill_expires self (t_effects fr) = false).
  { unfold drill_expires. rewrite Hd, Rgtb_false by lra. reflexivity. }
  pose proof (spin_out_update self fr) as Hspin. cbv zeta in Hspin.
  rewrite Hphase in Hspin. destruct Hspin as [Hp Hr].
  unfold rotation_speed_after_drill in Hr. rewrite Hno in Hr.
  split; [split; [exact Hp | rewrite drill_end_time_update, Hno; exact Hd] |].
  split; [exact Hr | rewrite rotation_angle_update, Hr; reflexivity].
Qed.

(** X13. With no spin-out and no drill timer and a rotation speed of at
    most 2 in magnitude (the centrifugal threshold), two eyes that are in
    the same state stay in the same state over any run of frames: the
    pupils move together. *)
Theorem eyes_move_together (frames : list Frame) (self : ClaudeScreensaver) :
  steady_rotation self ->
  Rabs (rotation_speed (state self)) <= 2 ->
  left_eye (state self) = right_eye (state self) ->
  left_eye (state (run_frames frames self)) = right_eye (state (run_frames frames self)).
Proof.
  revert self. induction frames as [| fr frames IH]; intros self Hsteady Hslow Heq.
  - exact Heq.
  - rewrite run_frames_cons.
    destruct (steady_rotation_frame self fr Hsteady) as [Hsteady' [Hr _]].
    apply IH; [exact Hsteady' | rewrite Hr; exact Hslow |].
    unfold update. apply eye_physics_slow.
    + replace (rotation_speed _) with (rotation_speed (state (update self fr)))
        by (unfold update; repeat peel; reflexivity).
      rewrite Hr. exact Hslow.
    + unfold update_before_position, _update_effects. repeat peel. exact Heq.
Qed.

Lemma eyes_move_together_witness :
  let self := fst (manipulate no_float (initialize 1280 720) "googly_eyes" VNone 1 1) in
  left_eye (state (run_frames [frame_at 2; frame_at 3] self))
  = right_eye (state (run_frames [frame_at 2; frame_at 3] self)).
Proof.
  apply (eyes_move_together [frame_at 2; frame_at 3]
           (fst (manipulate no_float (initialize 1280 720) "googly_eyes" VNone 1 1))).
  - split; [reflexivity | cbn; lra].
  - cbn. rewrite Rabs_pos_eq by lra. lra.
  - reflexivity.
Defined.

(** ** Rotation *)

(** X14. With no spin-out and no drill timer the rotation speed is
    constant and every frame adds it to the rotation angle: after [n]
    frames the angle is the initial angle plus [n] times the speed. *)
Theorem rotation_accumulates (frames : list Frame) (self : ClaudeScreensaver) :
  steady_rotation self ->
  rotation_speed (state (run_frames frames self)) = rotation_speed (state self)
  /\ rotation_angle (state (run_frames frames self))
     = rotation_angle (state self) + INR (length frames) * rotation_speed (state self).
Proof.
  revert self. induction frames as [| fr frames IH]; intros self Hsteady.
  - change (run_frames [] self) with self. cbn. split; lra.
  - rewrite run_frames_cons.
    destruct (steady_rotation_frame self fr Hsteady) as [Hsteady' [Hr Ha]].
    destruct (IH (update self fr) Hsteady') as [Hr' Ha'].
    rewrite Hr', Ha', Hr, Ha. cbn [length]. rewrite S_INR. split; lra.
Qed.

Lemma rotation_accumulates_witness :
  rotation_speed (state (run_frames [frame_at 1; frame_at 2; frame_at 3]
                           (initialize 1280 720)))
  = rotation_speed (state (initialize 1280 720))
  /\ rotation_angle (state (run_frames [frame_at 1; frame_at 2; frame_at 3]
                              (initialize 1280 720)))
     = rotation_angle (state (initialize 1280 720))
       + INR (length [frame_at 1; frame_at 2; frame_at 3])
         * rotation_speed (state (initialize 1280 720)).
Proof.
  apply (rotation_accumulates [frame_at 1; frame_at 2; frame_at 3] (initialize 1280 720)).
  split; [reflexivity | cbn; lra].
Defined.

(** ** The decay of a spin-out comes to an end *)

Lemma spin_out_over_frame (self : ClaudeScreensaver) (fr : Frame) :
  spin_out_over self -> spin_out_over (update self fr).
Proof.
  intros [Hphase [Hrot Hd]].
  assert (Hno : drill_expires self (t_effects fr) = false).
  { unfold drill_expires. rewrite Rgtb_false by lra. reflexivity. }
  pose proof (spin_out_update self fr) as Hspin. cbv zeta in Hspin.
  rewrite Hphase in Hspin. destruct Hspin as [Hp Hr].
  unfold rotation_speed_after_drill in Hr. rewrite Hno in Hr.
  unfold spin_out_over. rewrite Hp, Hr, drill_end_time_update, Hno. auto.
Qed.

Lemma spin_out_over_run (frames : list Frame) (self : ClaudeScreensaver) :
  spin_out_over self -> spin_out_over (run_frames frames self).
Proof.
  intros H. apply (run_frames_invariant spin_out_over (fun _ => True));
    [intros s fr Hs _; apply spin_out_over_frame; exact Hs | exact H |].
  apply Forall_forall. auto.
Qed.

(** A frame of the decay either ends the spin-out or multiplies the
    speed by 0.992, which then is at least 0.1. *)
Lemma decay_frame (self : ClaudeScreensaver) (fr : Frame) :
  spin_out_phase (state self) = Some decay ->
  drill_end_time (state self) <= 0 ->
  spin_out_over (update self fr)
  \/ (spin_out_phase (state (update self fr)) = Some decay
      /\ drill_end_time (state (update self fr)) <= 0
      /\ rotation_speed (state (update self fr)) = rotation_speed (state self) * 0.992
      /\ 0.1 <= rotation_speed (state self) * 0.992).
Proof.
  intros Hphase Hd.
  assert (Hno : drill_expires self (t_effects fr) = false).
  { unfold drill_expires. rewrite Rgtb_false by lra. reflexivity. }
  pose proof (spin_out_update self fr) as Hspin. cbv zeta in Hspin.
  rewrite Hphase in Hspin. unfold rotation_speed_after_drill in Hspin.
  rewrite Hno in Hspin.
  assert (Hd' : drill_end_time (state (update self fr)) <= 0)
    by (rewrite drill_end_time_update, Hno; exact Hd).
  destruct (Rltb_spec (rotation_speed (state self) * 0.992) 0.1) as [Hlt | Hge].
  - left. unfold spin_out_over. destruct Hspin as [Hp Hr]. auto.
  - right. destruct Hspin as [Hp Hr]. repeat split; try assumption. lra.
Qed.

Lemma decay_ends_within (n : nat) :
  forall (frames : list Frame) (self : ClaudeScreensaver),
    spin_out_phase (state self) = Some decay ->
    drill_end_time (state self) <= 0 ->
    rotation_speed (state self) * 0.992 ^ S n < 0.1 ->
    (S n <= length frames)%nat ->
    spin_out_over (run_frames frames self).
Proof.
  induction n as [| n IH]; intros frames self Hphase Hd Hrate Hlen.
  - destruct frames as [| fr frames]; [cbn in Hlen; lia |]. rewrite run_frames_cons.
    destruct (decay_frame self fr Hphase Hd) as [Hover | [_ [_ [_ Hge]]]].
    + apply spin_out_over_run. exact Hover.
    + cbn [pow] in Hrate. lra.
  - destruct frames as [| fr frames]; [cbn in Hlen; lia |]. rewrite run_frames_cons.
    destruct (decay_frame self fr Hphase Hd) as [Hover | [Hp [Hd' [Hr _]]]].
    + apply spin_out_over_run. exact Hover.
    + apply IH; [exact Hp | exact Hd' | | cbn in Hlen; lia].
      rewrite Hr. rewrite <- tech_pow_Rmult in Hrate. lra.
Qed.

Lemma decay_reaches_threshold (r : R) : exists n : nat, r * 0.992 ^ S n < 0.1.
Proof.
  destruct (Rle_lt_dec r 0) as [Hneg | Hpos].
  - exists 0%nat. cbn. lra.
  - destruct (pow_lt_1_zero 0.992) with (y := 0.1 / r) as [N HN].
    + rewrite Rabs_pos_eq; lra.
    + apply Rdiv_lt_0_compat; lra.
    + exists N. specialize (HN (S N)). rewrite Rabs_pos_eq in HN.
      * assert (H : 0.992 ^ S N < 0.1 / r) by (apply HN; lia).
        apply (Rmult_lt_compat_l r) in H; [| exact Hpos].
        replace (r * (0.1 / r)) with 0.1 in H by (field; lra). exact H.
      * apply pow_le. lra.
Qed.

(** X15. A spin-out in its decay phase comes to an end: from any state
    in the decay phase with no drill timer pending there is a number of
    frames after which, whatever the frames read from the clock, the phase
    is [None] and the rotation speed is back at 0.5, and they stay so. *)
Theorem spin_out_decay_ends (self : ClaudeScreensaver) :
  spin_out_phase (state self) = Some decay ->
  drill_end_time (state self) <= 0 ->
  exists n : nat,
    forall frames : list Frame,
      (n <= length frames)%nat ->
      spin_out_phase (state (run_frames frames self)) = None
      /\ rotation_speed (state (run_frames frames self)) = 0.5.
Proof.
  intros Hphase Hd.
  destruct (decay_reaches_threshold (rotation_speed (state self))) as [n Hn].
  exists (S n). intros frames Hlen.
  destruct (decay_ends_within n frames self Hphase Hd Hn Hlen) as [Hp [Hr _]].
  split; [exact Hp | exact Hr].
Qed.

Lemma spin_out_decay_ends_witness :
  let started := fst (manipulate no_float (initialize 1280 720) "spin_out" VNone 100 100) in
  let decaying := update started (frame_at 103) in
  exists n : nat,
    forall frames : list Frame,
      (n <= length frames)%nat ->
      spin_out_phase (state (run_frames frames decaying)) = None
      /\ rotation_speed (state (run_frames frames decaying)) = 0.5.
Proof.
  apply (spin_out_decay_ends
           (update (fst (manipulate no_float (initialize 1280 720) "spin_out" VNone 100 100))
              (frame_at 103))).
  - pose proof (spin_out_update
                  (fst (manipulate no_float (initialize 1280 720) "spin_out" VNone 100 100))
                  (frame_at 103)) as H.
    cbn in H. rewrite Rltb_false in H by lra. apply H.
  - rewrite drill_end_time_update. destruct (drill_expires _ _); [lra |].
    cbn. peel. unfold _cancel_drill. cbn.
    rewrite (Rgtb_false 0.0 100) by lra. cbn. lra.
Defined.

(** ** The effect tag *)

Lemma shrink_end_time_update (self : ClaudeScreensaver) (fr : Frame) :
  shrink_end_time (state (update self fr)) =
  if shrink_expires self (t_effects fr) then 0 else shrink_end_time (state self).
Proof. destruct (scales_update self fr) as [H _]. exact H. Qed.

Lemma effect_tag_live_frame (self : ClaudeScreensaver) (fr : Frame) :
  effect_tag_live self -> effect_tag_live (update self fr).
Proof.
  unfold effect_tag_live. rewrite effect_active_update. cbv zeta. unfold clear_effect.
  intros Hlive.
  pose proof (spin_out_update self fr) as Hphase. cbv zeta in Hphase.
  destruct (effect_active (state self)) as [[| | |] |] eqn:Htag;
    destruct (shrink_expires self (t_effects fr)) eqn:Hshrink;
    destruct (drill_expires self (t_effects fr)) eqn:Hdrill;
    destruct (trap_expires self (t_effects fr)) eqn:Htrap;
    destruct (spin_out_ends self (t_effects fr)) eqn:Hspin;
    cbn; try exact I;
    try (rewrite shrink_end_time_update, Hshrink; exact Hlive);
    try (rewrite drill_end_time_update, Hdrill; exact Hlive);
    try (rewrite corner_trapped_update, Htrap; exact Hlive);
    unfold spin_out_ends in Hspin;
    (destruct (spin_out_phase (state self)) as [[|] |]; [| | contradiction]);
    cbn in Hspin;
    try (destruct (Rltb _ 2.0); destruct Hphase as [Hp _]; rewrite Hp; discriminate);
    rewrite Hspin in Hphase; destruct Hphase as [Hp _]; rewrite Hp; discriminate.
Qed.

Section EffectTag.

Variable str_to_float : string -> option R.

Lemma effect_tag_live_command (self : ClaudeScreensaver) (action : string)
    (parameters : PyVal) (current_time t_cancel : R) :
  0 <= current_time ->
  effect_tag_live self ->
  effect_tag_live (fst (manipulate str_to_float self action parameters
                          current_time t_cancel)).
Proof.
  intros Ht Hlive. unfold manipulate.
  repeat match goal with
         | |- context [String.eqb action ?a] => destruct (String.eqb action a)
         end; unfold effect_tag_live in *; cbn.
  - lra.
  - discriminate.
  - lra.
  - reflexivity.
  - destruct (py_get _ "color" _) as [err | [| | | | c | |]]; cbn; exact Hlive.
  - destruct (py_get _ "opacity" _) as [err | v]; cbn; [exact Hlive |].
    destruct (py_float str_to_float v); cbn; exact Hlive.
  - destruct (py_get _ "enabled" _) as [err | v]; cbn; exact Hlive.
  - exact I.
  - exact Hlive.
Qed.

(** X16. In every reachable state the effect tag names an effect that
    still runs: with the tag [shrink] the shrink timer is set, with
    [spin_out] the spin-out has a phase, with [drill] the drill timer is
    set, with [corner_trap] the star is trapped. *)
Theorem effect_tag_names_running_effect (self : ClaudeScreensaver) (t : R) :
  reachable str_to_float self t ->
  (effect_active (state self) = Some shrink -> 0 < shrink_end_time (state self))
  /\ (effect_active (state self) = Some spin_out -> spin_out_phase (state self) <> None)
  /\ (effect_active (state self) = Some drill -> 0 < drill_end_time (state self))
  /\ (effect_active (state self) = Some corner_trap -> corner_trapped (state self) = true).
Proof.
  intros Hreach.
  assert (H : effect_tag_live self).
  { induction Hreach as [width height | self t e Hreach IH Hfirst Hlast].
    - exact I.
    - destruct e as [fr | action parameters current_time t_cancel]; cbn [step].
      + apply effect_tag_live_frame. exact IH.
      + destruct (reachable_invariant str_to_float self t Hreach) as [Ht _].
        apply effect_tag_live_command; [cbn in Hfirst; lra | exact IH]. }
  unfold effect_tag_live in H.
  repeat split; intros Htag; rewrite Htag in H; exact H.
Qed.

(** X17. [reset_star] without a screensaver answers 503; with one it
    answers 200, the object is reset, and the next frame, whatever it reads
    from the clock, comes to its position step with no trap, no drill timer
    and the velocity (0.5, 0.5). *)
Theorem reset_star_frees_the_star (screensaver : option ClaudeScreensaver)
    (current_time t_cancel : R) (fr : Frame) :
  match screensaver with
  | None =>
      reset_star str_to_float screensaver current_time t_cancel
      = (Json 503 (error_body "Screensaver not running"), None)
  | Some self =>
      let result := reset_star str_to_float screensaver current_time t_cancel in
      let before := update_before_position (_reset_state self) fr in
      result = (Json 200 (<["status" := VStr "ok"]> {[ "action" := VStr "reset" ]}),
                Some (_reset_state self))
      /\ corner_trapped (state before) = false
      /\ drill_end_time (state before) = 0
      /\ vx (state before) = 0.5 /\ vy (state before) = 0.5
  end.
Proof.
  destruct screensaver as [self |]; [| reflexivity]. cbv zeta.
  split; [reflexivity |].
  assert (Hno : drill_expires (_reset_state self) (t_effects fr) = false).
  { unfold drill_expires. cbn. rewrite Rgtb_false by lra. reflexivity. }
  assert (Hrelease : trap_expires (_reset_state self) (t_effects fr) = false)
    by reflexivity.
  destruct (velocity_before_position (_reset_state self) fr) as [Hvx Hvy].
  cbv zeta in *. rewrite Hrelease, Hno in Hvx, Hvy.
  rewrite corner_trapped_before_position, drill_end_time_before_position, Hrelease, Hno.
  rewrite Hvx, Hvy. cbn. repeat split; reflexivity || lra.
Qed.

End EffectTag.

Lemma effect_tag_names_running_effect_witness :
  let self := fst (manipulate no_float (initialize 1280 720) "drill" VNone 100 100) in
  (effect_active (state self) = Some shrink -> 0 < shrink_end_time (state self))
  /\ (effect_active (state self) = Some spin_out -> spin_out_phase (state self) <> None)
  /\ (effect_active (state self) = Some drill -> 0 < drill_end_time (state self))
  /\ (effect_active (state self) = Some corner_trap -> corner_trapped (state self) = true).
Proof.
  apply (effect_tag_names_running_effect no_float
           (step no_float (initialize 1280 720) (Command "drill" VNone 100 100)) 100).
  apply (reachable_step no_float (initialize 1280 720) 0 (Command "drill" VNone 100 100));
    [apply reachable_initialize | cbn; lra | cbn; lra].
Defined.

(** ** The sprite cache *)

Section SpriteFacts.

Variable Surface : Type.
Variable render_svg : string -> Surface.

Lemma initialize_sprites_ready :
  sprites_ready render_svg (initialize_sprites Surface render_svg Sprites_new).
Proof.
  unfold sprites_ready, initialize_sprites, _render_sprite. cbn.
  split; [| split; [| left; split]]; reflexivity.
Qed.

(** X18. Once the cache holds the two fixed sprites of [initialize],
    [get_current_sprite] raises no [KeyError] and returns the sprite
    rendered in the star's current color, whatever that color is and
    whichever colors were asked for before; the cache it leaves is again
    one on which this holds. *)
Theorem sprite_has_current_color (self : ClaudeScreensaver) (sprites : Sprites Surface) :
  sprites_ready render_svg sprites ->
  exists sprites' : Sprites Surface,
    get_current_sprite Surface render_svg self sprites
    = SpriteReturned sprites' (Some (render_svg (color (state self))))
    /\ sprites_ready render_svg sprites'.
Proof.
  intros [Hdefault [Hsnarky Hcustom]]. unfold get_current_sprite.
  destruct (String.eqb_spec (color (state self)) DEFAULT_COLOR) as [Hc | Hnd].
  { exists sprites. rewrite Hdefault, Hc. split; [reflexivity |]. repeat split; assumption. }
  destruct (String.eqb_spec (color (state self)) SNARKY_COLOR) as [Hc | Hns].
  { exists sprites. rewrite Hsnarky, Hc. split; [reflexivity |]. repeat split; assumption. }
  set (c := color (state self)) in *.
  assert (Hrender : forall sp : Sprites Surface,
            master_sprites sp !! "default" = Some (render_svg DEFAULT_COLOR) ->
            master_sprites sp !! "snarky" = Some (render_svg SNARKY_COLOR) ->
            current_color sp <> c ->
            let sp' := _render_custom_color Surface render_svg sp c in
            master_sprites sp' !! "default" = Some (render_svg DEFAULT_COLOR)
            /\ master_sprites sp' !! "snarky" = Some (render_svg SNARKY_COLOR)
            /\ master_sprites sp' !! "custom" = Some (render_svg c)
            /\ current_color sp' = c).
  { intros sp Hd Hs Hne. cbv zeta. unfold _render_custom_color, _render_sprite.
    destruct (String.eqb_spec c (current_color sp)) as [Heq | _]; [congruence |].
    cbn. rewrite !lookup_insert_ne by discriminate. rewrite lookup_insert_eq. auto. }
  destruct Hcustom as [[Hnone Hcur] | Hsome].
  - rewrite Hnone. cbn [negb orb]. rewrite bool_decide_eq_false_2 by (intros [v Hv]; discriminate).
    cbn [negb orb].
    destruct (Hrender sprites Hdefault Hsnarky) as [Hd' [Hs' [Hc' Hcc']]];
      [rewrite Hcur; intros Heq; apply Hnd; symmetry; exact Heq |].
    cbv zeta in *. rewrite Hd', Hc'. cbn.
    eexists. split; [reflexivity |].
    split; [exact Hd' | split; [exact Hs' | right; rewrite Hcc'; exact Hc']].
  - rewrite Hsome. rewrite bool_decide_eq_true_2 by (eexists; reflexivity).
    cbn [negb orb].
    destruct (String.eqb_spec (current_color sprites) c) as [Heq | Hne]; cbn [negb].
    + rewrite Hdefault, Hsome, Heq. cbn. exists sprites. split; [reflexivity |].
      split; [exact Hdefault | split; [exact Hsnarky | right; exact Hsome]].
    + destruct (Hrender sprites Hdefault Hsnarky Hne) as [Hd' [Hs' [Hc' Hcc']]].
      cbv zeta in *. rewrite Hd', Hc'. cbn.
      eexists. split; [reflexivity |].
      split; [exact Hd' | split; [exact Hs' | right; rewrite Hcc'; exact Hc']].
Qed.

End SpriteFacts.

Lemma sprite_has_current_color_witness :
  let self := fst (manipulate no_float (initialize 1280 720) "color"
                     (VDict {[ "color" := VStr "#00ff00" ]}) 100 100) in
  let sprites := initialize_sprites string (fun fill => fill) Sprites_new in
  exists sprites' : Sprites string,
    get_current_sprite string (fun fill => fill) self sprites
    = SpriteReturned sprites' (Some (color (state self)))
    /\ sprites_ready (fun fill => fill) sprites'.
Proof.
  apply (sprite_has_current_color string (fun fill => fill)
           (fst (manipulate no_float (initialize 1280 720) "color"
                   (VDict {[ "color" := VStr "#00ff00" ]}) 100 100))
           (initialize_sprites string (fun fill => fill) Sprites_new)).
  apply initialize_sprites_ready.
Defined.
